(** * Autoboat: ground-station link (mavlink.c) and primary node (PrimaryNode.c)

    A shallow embedding of the two protocol state machines of
    [Code/basic_model/clib/mavlink.c] (parameter protocol, mission protocol,
    receive dispatcher) and of the fault aggregation of
    [Code/Primary_node/PrimaryNode.c] (sensor availability edges, the
    return-to-base check, [SetAutoMode]).

    Conventions.
    - C integers are [Z]; a [uint8_t] / [uint16_t] store is written with its
      wrap-around ([mod 256], [mod 65536]); bit operations are [Z.land],
      [Z.lor], [Z.lnot].
    - A C [float] is carried as its 32-bit IEEE-754 pattern and never computed
      with.  This is how the code itself reads a parameter value
      ([mavlink_param_union_t]: written as [param_float], read as
      [param_uint32]).
    - Module-level and function-static C variables are the fields of one state
      record per translation unit; every C function is a function on it.
    - What a function hands to the UART / CAN / MAVLink glue is appended to a
      queue kept in the state, oldest entry first. *)

From Stdlib Require Import ZArith String List Bool Lia.
Import ListNotations.
Local Open Scope Z_scope.

(** A C [float], as its bit pattern. *)
Definition float := Z.

(** Truncation on assignment to the fixed-width unsigned types. *)
Definition uint8 (x : Z) : Z := x mod 256.
Definition uint16 (x : Z) : Z := x mod 65536.
Definition uint32 (x : Z) : Z := x mod 4294967296.

(** The same for [int8_t] (two's complement). *)
Definition int8 (x : Z) : Z := (x + 128) mod 256 - 128.

(** C truth value of an integer expression. *)
Definition nonzero (x : Z) : bool := negb (x =? 0).

(** Statements in sequence: [s |> f |> g] runs [f], then [g]. *)
Notation "s |> f" := (f s) (at level 45, left associativity, only parsing).

(* ===================================================================== *)
(** * mavlink.c                                                            *)
(* ===================================================================== *)

Module Mavlink.

(** ** Message identifiers handled by [MavLinkTransmit] *)

Inductive MsgId : Type :=
| MAVLINK_MSG_ID_HEARTBEAT
| MAVLINK_MSG_ID_SYS_STATUS
| MAVLINK_MSG_ID_GPS_RAW_INT
| MAVLINK_MSG_ID_STATUS_AND_ERRORS
| MAVLINK_MSG_ID_WSO100
| MAVLINK_MSG_ID_PARAM_VALUE
| MAVLINK_MSG_ID_MISSION_COUNT
| MAVLINK_MSG_ID_MISSION_ITEM.

Definition MsgId_eqb (a b : MsgId) : bool :=
  match a, b with
  | MAVLINK_MSG_ID_HEARTBEAT, MAVLINK_MSG_ID_HEARTBEAT
  | MAVLINK_MSG_ID_SYS_STATUS, MAVLINK_MSG_ID_SYS_STATUS
  | MAVLINK_MSG_ID_GPS_RAW_INT, MAVLINK_MSG_ID_GPS_RAW_INT
  | MAVLINK_MSG_ID_STATUS_AND_ERRORS, MAVLINK_MSG_ID_STATUS_AND_ERRORS
  | MAVLINK_MSG_ID_WSO100, MAVLINK_MSG_ID_WSO100
  | MAVLINK_MSG_ID_PARAM_VALUE, MAVLINK_MSG_ID_PARAM_VALUE
  | MAVLINK_MSG_ID_MISSION_COUNT, MAVLINK_MSG_ID_MISSION_COUNT
  | MAVLINK_MSG_ID_MISSION_ITEM, MAVLINK_MSG_ID_MISSION_ITEM => true
  | _, _ => false
  end.

(** The five messages [MavLinkInit] registers for periodic transmission. *)
Definition is_telemetry (id : MsgId) : bool :=
  match id with
  | MAVLINK_MSG_ID_HEARTBEAT | MAVLINK_MSG_ID_SYS_STATUS
  | MAVLINK_MSG_ID_GPS_RAW_INT | MAVLINK_MSG_ID_STATUS_AND_ERRORS
  | MAVLINK_MSG_ID_WSO100 => true
  | _ => false
  end.

(** ** Protocol state enums *)

Inductive ParamState : Type :=
| PARAM_STATE_INACTIVE
| PARAM_STATE_SINGLETON_TRANSMIT_START
| PARAM_STATE_SINGLETON_TRANSMIT_WAITING
| PARAM_STATE_STREAM_TRANSMIT_START
| PARAM_STATE_STREAM_TRANSMIT_PARAM
| PARAM_STATE_STREAM_TRANSMIT_WAITING
| PARAM_STATE_STREAM_TRANSMIT_DELAY.

Inductive MissionState : Type :=
| MISSION_STATE_INACTIVE
| MISSION_STATE_REQUEST_LIST_START
| MISSION_STATE_REQUEST_LIST_COUNTDOWN
| MISSION_STATE_REQUEST_LIST_RESPONSE
| MISSION_STATE_REQUEST_LIST_WAITING.

Inductive MavMissionResult : Type :=
| MAV_MISSION_ACCEPTED
| MAV_MISSION_ERROR
| MAV_MISSION_NO_SPACE
| MAV_MISSION_INVALID_SEQUENCE.

(** [static uint16_t parameterCount = 4;] *)
Definition parameterCount : Z := 4.

(** ** Missions and the mission store *)

(** [Mission], with the fields [MavLinkReceive] initialises and
    [MavLinkMissionItemSend] reads. *)
Record Mission : Type := mkMission {
  coordinates : float * float * float;
  refFrame : Z;
  action : Z;
  parameters : float * float * float * float;
  autocontinue : Z
}.

(** The decoded payload of a MISSION_ITEM frame ([mavlink_mission_item_t]). *)
Record mavlink_mission_item_t : Type := mkMissionItem {
  item_seq : Z;              (* uint16_t *)
  item_frame : Z;
  item_command : Z;
  item_current : Z;          (* uint8_t, C truth value *)
  item_autocontinue : Z;
  item_param1 : float;
  item_param2 : float;
  item_param3 : float;
  item_param4 : float;
  item_x : float;
  item_y : float;
  item_z : float
}.

(** Modelled from the spec: the mission store ([MissionManager.h] is generated
    code that is not part of the sources).  The spec's interface is
    [count()], [get(seq) -> (item, found)], [append(item) -> indexOrFull],
    [clear()], [getCurrent()/setCurrent(seq)]; the store is a bounded,
    ordered waypoint list.  [mavlink.c] adds: [AppendMission] reports [-1] when
    the item was not stored, and [GetCurrentMission] yields [-1] when there is
    no mission. *)
Record MissionList : Type := mkMissionList {
  missions : list Mission;
  maxSize : Z;
  currentIndex : Z           (* int8_t, -1 when there is none *)
}.

(** Modelled from the spec: [count()]; the caller receives it in a [uint8_t]. *)
Definition GetMissionCount (ml : MissionList) : Z :=
  uint8 (Z.of_nat (length (missions ml))).

(** Modelled from the spec: [get(seq) -> (item, found)]. *)
Definition GetMission (seq : Z) (ml : MissionList) : option Mission :=
  if seq <? 0 then None else nth_error (missions ml) (Z.to_nat seq).

(** Modelled from the spec: [append(item) -> indexOrFull].  The item goes to
    the end of the list, unless the store already holds [maxSize] items.  The
    result is what the caller in [mavlink.c] reads it as: [-1] when the item
    was not stored (the value the caller tests for); otherwise the position of
    the stored item counted from 1, which is the size of the store after the
    append (the caller's comment rules out 0 as the result of a successful
    append, and the caller takes the item whose result equals the announced
    total for the last one of an upload). *)
Definition AppendMission (m : Mission) (ml : MissionList) : MissionList * Z :=
  let n := Z.of_nat (length (missions ml)) in
  if n <? maxSize ml
  then (mkMissionList (missions ml ++ [m]) (maxSize ml) (currentIndex ml), n + 1)
  else (ml, -1).

(** Modelled from the spec: [clear()]. *)
Definition ClearMissionList (ml : MissionList) : MissionList :=
  mkMissionList [] (maxSize ml) (-1).

(** Modelled from the spec: [setCurrent(seq)]; an index that names no stored
    mission is not taken. *)
Definition SetCurrentMission (seq : Z) (ml : MissionList) : MissionList :=
  if (0 <=? seq) && (seq <? Z.of_nat (length (missions ml)))
  then mkMissionList (missions ml) (maxSize ml) seq
  else ml.

(** Modelled from the spec: [getCurrent()]. *)
Definition GetCurrentMission (ml : MissionList) : Z := currentIndex ml.

(** ** The message scheduler *)

(** Modelled from the spec: a [MessageRegistration] is
    {id, period (ticks), next-due tick}; [MavlinkMessageScheduler.h] is not
    part of the sources. *)
Record MessageRegistration : Type := mkRegistration {
  reg_id : MsgId;
  reg_period : Z;
  reg_next_due : Z
}.

(** Modelled from the spec: the scheduler table, the FIFO of one-shot
    transient requests and the tick counter. *)
Record Scheduler : Type := mkScheduler {
  now : Z;
  periodic : list MessageRegistration;
  transients : list MsgId
}.

(** Modelled from the spec: [register(id, period)] adds or overwrites a
    periodic entry; its first transmission is [period] ticks later. *)
Definition AddMessage (id : MsgId) (period : Z) (sch : Scheduler) : Scheduler :=
  mkScheduler (now sch)
    (filter (fun r => negb (MsgId_eqb (reg_id r) id)) (periodic sch)
       ++ [mkRegistration id period (now sch + period)])
    (transients sch).

(** Modelled from the spec: [requestTransient(id)] enqueues a one-shot send. *)
Definition AddTransientMessage (id : MsgId) (sch : Scheduler) : Scheduler :=
  mkScheduler (now sch) (periodic sch) (transients sch ++ [id]).

Definition is_due (t : Z) (r : MessageRegistration) : bool := reg_next_due r =? t.

Definition advance_due (t : Z) (r : MessageRegistration) : MessageRegistration :=
  if is_due t r then mkRegistration (reg_id r) (reg_period r) (t + reg_period r) else r.

(** Modelled from the spec: [tick()] advances time by one unit and returns, in
    order, the periodic ids due at the new tick (moving their next-due tick on
    by their period) followed by the queued transients in FIFO order, which are
    then discarded.  The byte budget of the spec is not modelled:
    [mavlink.c] passes no byte counts to the scheduler. *)
Definition IncrementTimestep (sch : Scheduler) : list MsgId * Scheduler :=
  let t := now sch + 1 in
  (map reg_id (filter (is_due t) (periodic sch)) ++ transients sch,
   mkScheduler t (map (advance_due t) (periodic sch)) []).

(** ** Frames *)

(** What the code packs and enqueues on UART1, by pack function. *)
Inductive Packet : Type :=
| heartbeat
| sys_status
| gps_raw_int
| status_and_errors
| wso100
| mission_count (target_system target_component count : Z)
| mission_item (target_system target_component seq : Z) (m : Mission) (current : bool)
| mission_current (seq : Z)
| mission_ack (target_system target_component : Z) (type : MavMissionResult)
| mission_request (target_system target_component seq : Z)
| param_value (param_id : string) (value : float) (param_count param_index : Z).

(** The decoded inbound frames [MavLinkReceive] switches on. *)
Inductive Payload : Type :=
| MISSION_COUNT (count : Z)
| MISSION_ITEM (item : mavlink_mission_item_t)
| MISSION_REQUEST_LIST
| MISSION_REQUEST (seq : Z)
| MISSION_CLEAR_ALL
| MISSION_SET_CURRENT (seq : Z)
| MISSION_ACK
| PARAM_REQUEST_LIST
| PARAM_REQUEST_READ (param_index : Z)
| PARAM_SET (param_id : string) (value : float)
| OTHER_MESSAGE.

Record mavlink_message_t : Type := mkMessage {
  sysid : Z;
  compid : Z;
  payload : Payload
}.

(** ** Module state *)

Record State : Type := mkState {
  status : Z;                         (* systemStatus.status *)
  groundStationSystemId : Z;
  groundStationComponentId : Z;
  currentParameter : Z;               (* uint8_t *)
  parameterProtocolState : ParamState;
  currentMission : Z;                 (* uint8_t *)
  missionProtocolState : MissionState;
  delayCountdown : Z;                 (* static in MavLinkTransmit *)
  missionProtocolRequestCounter : Z;  (* static in MavLinkTransmit *)
  mavlinkNewMissionListSize : Z;      (* static in MavLinkReceive *)
  mList : MissionList;
  scheduler : Scheduler;
  uart1 : list Packet                 (* frames enqueued for transmission *)
}.

Definition set_status (v : Z) (s : State) : State :=
  mkState v (groundStationSystemId s) (groundStationComponentId s) (currentParameter s)
    (parameterProtocolState s) (currentMission s) (missionProtocolState s) (delayCountdown s)
    (missionProtocolRequestCounter s) (mavlinkNewMissionListSize s) (mList s) (scheduler s)
    (uart1 s).

Definition set_groundStation (sys comp : Z) (s : State) : State :=
  mkState (status s) sys comp (currentParameter s)
    (parameterProtocolState s) (currentMission s) (missionProtocolState s) (delayCountdown s)
    (missionProtocolRequestCounter s) (mavlinkNewMissionListSize s) (mList s) (scheduler s)
    (uart1 s).

Definition set_currentParameter (v : Z) (s : State) : State :=
  mkState (status s) (groundStationSystemId s) (groundStationComponentId s) v
    (parameterProtocolState s) (currentMission s) (missionProtocolState s) (delayCountdown s)
    (missionProtocolRequestCounter s) (mavlinkNewMissionListSize s) (mList s) (scheduler s)
    (uart1 s).

Definition set_parameterProtocolState (v : ParamState) (s : State) : State :=
  mkState (status s) (groundStationSystemId s) (groundStationComponentId s) (currentParameter s)
    v (currentMission s) (missionProtocolState s) (delayCountdown s)
    (missionProtocolRequestCounter s) (mavlinkNewMissionListSize s) (mList s) (scheduler s)
    (uart1 s).

Definition set_currentMission (v : Z) (s : State) : State :=
  mkState (status s) (groundStationSystemId s) (groundStationComponentId s) (currentParameter s)
    (parameterProtocolState s) v (missionProtocolState s) (delayCountdown s)
    (missionProtocolRequestCounter s) (mavlinkNewMissionListSize s) (mList s) (scheduler s)
    (uart1 s).

Definition set_missionProtocolState (v : MissionState) (s : State) : State :=
  mkState (status s) (groundStationSystemId s) (groundStationComponentId s) (currentParameter s)
    (parameterProtocolState s) (currentMission s) v (delayCountdown s)
    (missionProtocolRequestCounter s) (mavlinkNewMissionListSize s) (mList s) (scheduler s)
    (uart1 s).

Definition set_delayCountdown (v : Z) (s : State) : State :=
  mkState (status s) (groundStationSystemId s) (groundStationComponentId s) (currentParameter s)
    (parameterProtocolState s) (currentMission s) (missionProtocolState s) v
    (missionProtocolRequestCounter s) (mavlinkNewMissionListSize s) (mList s) (scheduler s)
    (uart1 s).

Definition set_missionProtocolRequestCounter (v : Z) (s : State) : State :=
  mkState (status s) (groundStationSystemId s) (groundStationComponentId s) (currentParameter s)
    (parameterProtocolState s) (currentMission s) (missionProtocolState s) (delayCountdown s)
    v (mavlinkNewMissionListSize s) (mList s) (scheduler s)
    (uart1 s).

Definition set_mavlinkNewMissionListSize (v : Z) (s : State) : State :=
  mkState (status s) (groundStationSystemId s) (groundStationComponentId s) (currentParameter s)
    (parameterProtocolState s) (currentMission s) (missionProtocolState s) (delayCountdown s)
    (missionProtocolRequestCounter s) v (mList s) (scheduler s)
    (uart1 s).

Definition set_mList (v : MissionList) (s : State) : State :=
  mkState (status s) (groundStationSystemId s) (groundStationComponentId s) (currentParameter s)
    (parameterProtocolState s) (currentMission s) (missionProtocolState s) (delayCountdown s)
    (missionProtocolRequestCounter s) (mavlinkNewMissionListSize s) v (scheduler s)
    (uart1 s).

Definition set_scheduler (v : Scheduler) (s : State) : State :=
  mkState (status s) (groundStationSystemId s) (groundStationComponentId s) (currentParameter s)
    (parameterProtocolState s) (currentMission s) (missionProtocolState s) (delayCountdown s)
    (missionProtocolRequestCounter s) (mavlinkNewMissionListSize s) (mList s) v
    (uart1 s).

(** [uart1EnqueueData(buf, len)] of a packed frame. *)
Definition uart1EnqueueData (p : Packet) (s : State) : State :=
  mkState (status s) (groundStationSystemId s) (groundStationComponentId s) (currentParameter s)
    (parameterProtocolState s) (currentMission s) (missionProtocolState s) (delayCountdown s)
    (missionProtocolRequestCounter s) (mavlinkNewMissionListSize s) (mList s) (scheduler s)
    (uart1 s ++ [p]).

(** ** Senders *)

(** [MavLinkInit]: the periodic registrations. *)
Definition MavLinkInit (s : State) : State :=
  set_scheduler
    (AddMessage MAVLINK_MSG_ID_WSO100 2
    (AddMessage MAVLINK_MSG_ID_STATUS_AND_ERRORS 4
    (AddMessage MAVLINK_MSG_ID_GPS_RAW_INT 1
    (AddMessage MAVLINK_MSG_ID_SYS_STATUS 1
    (AddMessage MAVLINK_MSG_ID_HEARTBEAT 1 (scheduler s)))))) s.

(** [MavLinkMissionProtocolSend]: the count announcement of a download. *)
Definition MavLinkMissionProtocolSend (s : State) : State :=
  uart1EnqueueData
    (mission_count (groundStationSystemId s) (groundStationComponentId s)
       (GetMissionCount (mList s))) s.

(** [MavLinkMissionItemSend]: the mission at [currentMission], when the store
    has one there. *)
Definition MavLinkMissionItemSend (s : State) : State :=
  match GetMission (currentMission s) (mList s) with
  | Some m =>
      let currMissionIndex := GetCurrentMission (mList s) in
      uart1EnqueueData
        (mission_item (groundStationSystemId s) (groundStationComponentId s)
           (currentMission s) m (currentMission s =? uint8 currMissionIndex)) s
  | None => s
  end.

(** [MavLinkSendCurrentMission]: only a valid current mission is sent. *)
Definition MavLinkSendCurrentMission (s : State) : State :=
  let currentMission := GetCurrentMission (mList s) in
  if negb (currentMission =? -1)
  then uart1EnqueueData (mission_current (uint16 currentMission)) s
  else s.

(** [_transmitParameter0] .. [_transmitParameter3]: parameter [n] is bit [n]
    of [systemStatus.status], sent as a [uint32] stored in the float field. *)
Definition _transmitParameter (n : Z) (name : string) (s : State) : State :=
  let x := if nonzero (Z.land (status s) (Z.shiftl 1 n)) then 1 else 0 in
  uart1EnqueueData (param_value name x parameterCount n) s.

Definition _transmitParameter0 : State -> State := _transmitParameter 0 "MODE_AUTO".
Definition _transmitParameter1 : State -> State := _transmitParameter 1 "MODE_HIL".
Definition _transmitParameter2 : State -> State := _transmitParameter 2 "MODE_HILSENSE".
Definition _transmitParameter3 : State -> State := _transmitParameter 3 "MODE_RCDISCON".

(** ** [MavLinkTransmit] *)

(** The [switch (parameterProtocolState)] at the head of [MavLinkTransmit]. *)
Definition transmitParameterProtocol (s : State) : State :=
  match parameterProtocolState s with
  | PARAM_STATE_SINGLETON_TRANSMIT_START =>
      set_parameterProtocolState PARAM_STATE_SINGLETON_TRANSMIT_WAITING
        (set_scheduler (AddTransientMessage MAVLINK_MSG_ID_PARAM_VALUE (scheduler s)) s)
  | PARAM_STATE_SINGLETON_TRANSMIT_WAITING => s
  | PARAM_STATE_STREAM_TRANSMIT_START =>
      set_parameterProtocolState PARAM_STATE_STREAM_TRANSMIT_PARAM
        (set_currentParameter 0 s)
  | PARAM_STATE_STREAM_TRANSMIT_PARAM =>
      if currentParameter s <? parameterCount
      then set_parameterProtocolState PARAM_STATE_STREAM_TRANSMIT_WAITING
             (set_scheduler (AddTransientMessage MAVLINK_MSG_ID_PARAM_VALUE (scheduler s)) s)
      else set_parameterProtocolState PARAM_STATE_INACTIVE s
  | PARAM_STATE_STREAM_TRANSMIT_WAITING => s
  | PARAM_STATE_STREAM_TRANSMIT_DELAY =>
      (* if (delayCountdown++ == 9) *)
      if delayCountdown s =? 9
      then set_parameterProtocolState PARAM_STATE_STREAM_TRANSMIT_PARAM
             (set_delayCountdown 0 s)
      else set_delayCountdown (uint8 (delayCountdown s + 1)) s
  | PARAM_STATE_INACTIVE => s
  end.

(** The [switch (missionProtocolState)] that follows it. *)
Definition transmitMissionProtocol (s : State) : State :=
  match missionProtocolState s with
  | MISSION_STATE_REQUEST_LIST_START =>
      set_missionProtocolState MISSION_STATE_REQUEST_LIST_COUNTDOWN
        (set_currentMission 0
          (set_missionProtocolRequestCounter 0
            (set_scheduler (AddTransientMessage MAVLINK_MSG_ID_MISSION_COUNT (scheduler s)) s)))
  | MISSION_STATE_REQUEST_LIST_COUNTDOWN =>
      (* if (missionProtocolRequestCounter++ > 20) *)
      if missionProtocolRequestCounter s >? 20
      then set_missionProtocolState MISSION_STATE_INACTIVE
             (set_missionProtocolRequestCounter 0 s)
      else set_missionProtocolRequestCounter (uint8 (missionProtocolRequestCounter s + 1)) s
  | MISSION_STATE_REQUEST_LIST_RESPONSE =>
      set_missionProtocolState MISSION_STATE_REQUEST_LIST_WAITING
        (set_scheduler (AddTransientMessage MAVLINK_MSG_ID_MISSION_ITEM (scheduler s)) s)
  | MISSION_STATE_REQUEST_LIST_WAITING => s
  | MISSION_STATE_INACTIVE => s
  end.

(** The body of the loop over [messagesToSend], for one list item. *)
Definition transmitMessage (s : State) (id : MsgId) : State :=
  match id with
  | MAVLINK_MSG_ID_HEARTBEAT => uart1EnqueueData heartbeat s
  | MAVLINK_MSG_ID_SYS_STATUS => uart1EnqueueData sys_status s
  | MAVLINK_MSG_ID_GPS_RAW_INT => uart1EnqueueData gps_raw_int s
  | MAVLINK_MSG_ID_STATUS_AND_ERRORS => uart1EnqueueData status_and_errors s
  | MAVLINK_MSG_ID_WSO100 => uart1EnqueueData wso100 s
  | MAVLINK_MSG_ID_PARAM_VALUE =>
      let s1 :=
        if currentParameter s =? 0 then _transmitParameter0 s
        else if currentParameter s =? 1 then _transmitParameter1 s
        else if currentParameter s =? 2 then _transmitParameter2 s
        else if currentParameter s =? 3 then _transmitParameter3 s
        else s in
      match parameterProtocolState s1 with
      | PARAM_STATE_STREAM_TRANSMIT_WAITING =>
          set_parameterProtocolState PARAM_STATE_STREAM_TRANSMIT_DELAY
            (set_currentParameter (uint8 (currentParameter s1 + 1)) s1)
      | PARAM_STATE_SINGLETON_TRANSMIT_WAITING =>
          set_parameterProtocolState PARAM_STATE_INACTIVE s1
      | _ => s1
      end
  | MAVLINK_MSG_ID_MISSION_COUNT =>
      set_missionProtocolState MISSION_STATE_REQUEST_LIST_COUNTDOWN
        (MavLinkMissionProtocolSend s)
  | MAVLINK_MSG_ID_MISSION_ITEM =>
      let s1 := MavLinkMissionItemSend s in
      set_missionProtocolState MISSION_STATE_REQUEST_LIST_COUNTDOWN
        (set_missionProtocolRequestCounter 0
          (set_currentMission (uint8 (currentMission s1 + 1)) s1))
  end.

(** [MavLinkTransmit]: one transmit pass. *)
Definition MavLinkTransmit (s : State) : State :=
  let s1 := transmitMissionProtocol (transmitParameterProtocol s) in
  let (messagesToSend, sch) := IncrementTimestep (scheduler s1) in
  fold_left transmitMessage messagesToSend (set_scheduler sch s1).

(** [n] consecutive transmit passes with nothing received in between. *)
Fixpoint transmitPasses (n : nat) (s : State) : State :=
  match n with
  | O => s
  | S k => transmitPasses k (MavLinkTransmit s)
  end.

(** ** [MavLinkReceive] *)

(** The latch on the first ground station heard. *)
Definition latchGroundStation (msg : mavlink_message_t) (s : State) : State :=
  if negb (nonzero (groundStationSystemId s)) && negb (nonzero (groundStationComponentId s))
  then set_groundStation (sysid msg) (compid msg) s
  else s.

(** The [Mission] built from a decoded item. *)
Definition missionOfItem (newMission : mavlink_mission_item_t) : Mission :=
  mkMission (item_x newMission, item_y newMission, item_z newMission)
    (item_frame newMission) (item_command newMission)
    (item_param1 newMission, item_param2 newMission,
     item_param3 newMission, item_param4 newMission)
    (item_autocontinue newMission).

(** [case MAVLINK_MSG_ID_MISSION_COUNT]. *)
Definition receiveMissionCount (msg : mavlink_message_t) (count : Z) (s : State) : State :=
  let ack t := mission_ack (sysid msg) (compid msg) t in
  if Z.land (status s) 1 >? 0
  then uart1EnqueueData (ack MAV_MISSION_ERROR) s
  else
    let s1 := set_mavlinkNewMissionListSize count
                (set_mList (ClearMissionList (mList s)) s) in
    if mavlinkNewMissionListSize s1 =? 0
    then uart1EnqueueData (ack MAV_MISSION_ERROR) s1
    else if mavlinkNewMissionListSize s1 >? maxSize (mList s1)
    then uart1EnqueueData (ack MAV_MISSION_NO_SPACE) s1
    else uart1EnqueueData (mission_request (sysid msg) (compid msg) 0) s1.

(** [case MAVLINK_MSG_ID_MISSION_ITEM].  The result of [AppendMission] is
    received in an [int8_t]; in [missionAddStatus == mavlinkNewMissionListSize]
    the other side is a [uint16_t], so that both sides are compared as
    unsigned 16-bit values ([int] has 16 bits on the dsPIC33). *)
Definition receiveMissionItem (msg : mavlink_message_t)
    (newMission : mavlink_mission_item_t) (s : State) : State :=
  let ack t := mission_ack (sysid msg) (compid msg) t in
  let missionCount := GetMissionCount (mList s) in
  if missionCount =? item_seq newMission
  then
    let (ml1, result) := AppendMission (missionOfItem newMission) (mList s) in
    let missionAddStatus := int8 result in
    if negb (missionAddStatus =? -1)
    then
      let ml2 := if nonzero (item_current newMission)
                 then SetCurrentMission (uint8 (item_seq newMission)) ml1
                 else ml1 in
      let s1 := set_mList ml2 s in
      if uint16 missionAddStatus =? mavlinkNewMissionListSize s1
      then uart1EnqueueData (ack MAV_MISSION_ACCEPTED) s1
      else uart1EnqueueData
             (mission_request (sysid msg) (compid msg) (uint16 (item_seq newMission + 1))) s1
    else uart1EnqueueData (ack MAV_MISSION_NO_SPACE) (set_mList ml1 s)
  else uart1EnqueueData (ack MAV_MISSION_INVALID_SEQUENCE) s.

(** One arm of [case MAVLINK_MSG_ID_PARAM_SET]: write bit [n] of the status
    word, make [n] the current parameter and send it. *)
Definition setParameterBit (n : Z) (send : State -> State) (data : Z) (s : State) : State :=
  let s1 := if nonzero data
            then set_status (Z.lor (status s) (Z.shiftl 1 n)) s
            else set_status (Z.land (status s) (Z.lnot (Z.shiftl 1 n))) s in
  send (set_currentParameter n s1).

(** [case MAVLINK_MSG_ID_PARAM_SET]. *)
Definition receiveParamSet (param_id : string) (data : float) (s : State) : State :=
  match parameterProtocolState s with
  | PARAM_STATE_INACTIVE =>
      let s1 :=
        if String.eqb param_id "MODE_AUTO" then setParameterBit 0 _transmitParameter0 data s
        else if String.eqb param_id "MODE_HIL" then setParameterBit 1 _transmitParameter1 data s
        else if String.eqb param_id "MODE_HILSENSE" then setParameterBit 2 _transmitParameter2 data s
        else if String.eqb param_id "MODE_RCDISCON" then setParameterBit 3 _transmitParameter3 data s
        else s in
      (* Trigger a response parameter value message *)
      set_parameterProtocolState PARAM_STATE_SINGLETON_TRANSMIT_START s1
  | _ => s
  end.

(** The [switch (msg.msgid)] of [MavLinkReceive], after the latch. *)
Definition handleMessage (msg : mavlink_message_t) (s : State) : State :=
  match payload msg with
  | MISSION_COUNT count => receiveMissionCount msg count s
  | MISSION_ITEM newMission => receiveMissionItem msg newMission s
  | MISSION_REQUEST_LIST =>
      match missionProtocolState s with
      | MISSION_STATE_INACTIVE =>
          set_missionProtocolState MISSION_STATE_REQUEST_LIST_START s
      | _ => s
      end
  | MISSION_REQUEST seq =>
      let requestedMission := uint8 seq in
      if currentMission s =? requestedMission
      then set_missionProtocolState MISSION_STATE_REQUEST_LIST_RESPONSE s
      else s
  | MISSION_CLEAR_ALL =>
      uart1EnqueueData (mission_ack (sysid msg) (compid msg) MAV_MISSION_ACCEPTED)
        (set_mList (ClearMissionList (mList s)) s)
  | MISSION_SET_CURRENT seq =>
      let newCurrentMission := uint8 seq in
      MavLinkSendCurrentMission
        (set_mList (SetCurrentMission newCurrentMission (mList s)) s)
  | MISSION_ACK => s
  | PARAM_REQUEST_LIST =>
      match parameterProtocolState s with
      | PARAM_STATE_INACTIVE =>
          set_parameterProtocolState PARAM_STATE_STREAM_TRANSMIT_START s
      | _ => s
      end
  | PARAM_REQUEST_READ param_index =>
      match parameterProtocolState s with
      | PARAM_STATE_INACTIVE =>
          set_parameterProtocolState PARAM_STATE_SINGLETON_TRANSMIT_START
            (set_currentParameter (uint8 param_index) s)
      | _ => s
      end
  | PARAM_SET param_id value => receiveParamSet param_id value s
  | OTHER_MESSAGE => s
  end.

(** What [MavLinkReceive] does with one decoded frame. *)
Definition receiveMessage (s : State) (msg : mavlink_message_t) : State :=
  handleMessage msg (latchGroundStation msg s).

(** [MavLinkReceive], on the frames the parser completes while the receive
    buffer is drained, in arrival order. *)
Definition MavLinkReceive (msgs : list mavlink_message_t) (s : State) : State :=
  fold_left receiveMessage msgs s.

(** ** Observations used to state the properties *)

(** Vehicle in autonomous mode, as [MavLinkReceive] tests it. *)
Definition autonomous (s : State) : bool := Z.land (status s) 1 >? 0.

(** The frames enqueued on the way from [s] to [s']. *)
Definition sentBetween (s s' : State) : list Packet :=
  skipn (length (uart1 s)) (uart1 s').

(** The parameter indices among a list of frames, in order. *)
Fixpoint paramIndices (l : list Packet) : list Z :=
  match l with
  | [] => []
  | param_value _ _ _ i :: r => i :: paramIndices r
  | _ :: r => paramIndices r
  end.

(** The mission-protocol frames among a list of frames, in order. *)
Definition isMissionPacket (p : Packet) : bool :=
  match p with
  | mission_count _ _ _ | mission_item _ _ _ _ _ | mission_current _
  | mission_ack _ _ _ | mission_request _ _ _ => true
  | _ => false
  end.

(** The scheduler between two transmit passes: nothing queued, and only the
    telemetry of [MavLinkInit] registered. *)
Definition schedulerIdle (sch : Scheduler) : bool :=
  match transients sch with
  | [] => forallb (fun r => is_telemetry (reg_id r)) (periodic sch)
  | _ :: _ => false
  end.

(** The frame a periodic telemetry id puts on the wire. *)
Definition telemetryPacket (id : MsgId) : Packet :=
  match id with
  | MAVLINK_MSG_ID_SYS_STATUS => sys_status
  | MAVLINK_MSG_ID_GPS_RAW_INT => gps_raw_int
  | MAVLINK_MSG_ID_STATUS_AND_ERRORS => status_and_errors
  | MAVLINK_MSG_ID_WSO100 => wso100
  | _ => heartbeat
  end.

(** Several frames enqueued in a row. *)
Definition uart1EnqueueAll (l : list Packet) (s : State) : State :=
  mkState (status s) (groundStationSystemId s) (groundStationComponentId s) (currentParameter s)
    (parameterProtocolState s) (currentMission s) (missionProtocolState s) (delayCountdown s)
    (missionProtocolRequestCounter s) (mavlinkNewMissionListSize s) (mList s) (scheduler s)
    (uart1 s ++ l).

(** The variables of the parameter protocol. *)
Definition ParamView : Type := (ParamState * Z * Z)%type.

Definition paramView (s : State) : ParamView :=
  (parameterProtocolState s, currentParameter s, delayCountdown s).

(** A state holding the given parameter-protocol variables and nothing else:
    no mission activity, an empty store, an empty scheduler, an empty queue. *)
Definition paramOnly (v : ParamView) : State :=
  let '(st, cp, dc) := v in
  mkState 0 0 0 cp st 0 MISSION_STATE_INACTIVE dc 0 0
    (mkMissionList [] 0 (-1)) (mkScheduler 0 [] []) [].

(** One transmit pass as the parameter protocol alone sees it: its variables
    after the pass, and the parameter indices put on the wire. *)
Definition parameterPass (v : ParamView) : ParamView * list Z :=
  let s' := MavLinkTransmit (paramOnly v) in
  (paramView s', paramIndices (uart1 s')).

(** The variables of the mission download protocol. *)
Definition MissionView : Type := (MissionState * Z * Z)%type.

Definition missionView (s : State) : MissionView :=
  (missionProtocolState s, currentMission s, missionProtocolRequestCounter s).

(** A state holding the given mission-protocol variables, store and
    ground-station ids and nothing else. *)
Definition missionOnly (v : MissionView) (ml : MissionList) (gs gc : Z) : State :=
  let '(st, cm, mc) := v in
  mkState 0 gs gc 0 PARAM_STATE_INACTIVE cm st 0 mc 0 ml (mkScheduler 0 [] []) [].

(** One transmit pass as the mission protocol alone sees it: its variables
    after the pass, and the frames put on the wire. *)
Definition missionPass (v : MissionView) (ml : MissionList) (gs gc : Z)
  : MissionView * list Packet :=
  let s' := MavLinkTransmit (missionOnly v ml gs gc) in
  (missionView s', uart1 s').

(** The parameter-protocol variables after [n] passes on its own. *)
Fixpoint paramViewAfter (n : nat) (v : ParamView) : ParamView :=
  match n with
  | O => v
  | S k => fst (parameterPass (paramViewAfter k v))
  end.

(** The parameter indices a stream of four puts on the wire in transmit pass
    [n] after the request, passes counted from 0: one parameter in each of
    the passes 1, 12, 23 and 34, so that ten passes lie between two sends. *)
Definition streamSchedule (n : nat) : list Z :=
  match n with
  | 1%nat => [0]
  | 12%nat => [1]
  | 23%nat => [2]
  | 34%nat => [3]
  | _ => []
  end.

(** The names [case MAVLINK_MSG_ID_PARAM_SET] compares against, with the
    parameter index (and status bit) each stands for. *)
Definition parameterRegistry : list (string * Z) :=
  [("MODE_AUTO", 0); ("MODE_HIL", 1); ("MODE_HILSENSE", 2); ("MODE_RCDISCON", 3)]%string.



(** The state at power-up: every static is zero-initialised, the store is
    empty with room for [cap] missions, and [MavLinkInit] has run. *)
Definition initialState (cap : Z) : State :=
  MavLinkInit
    (mkState 0 0 0 0 PARAM_STATE_INACTIVE 0 MISSION_STATE_INACTIVE 0 0 0
       (mkMissionList [] cap (-1)) (mkScheduler 0 [] []) []).

(** A waypoint frame with sequence number [k]. *)
Definition waypoint (k current : Z) : mavlink_mission_item_t :=
  mkMissionItem k 0 16 current 1 0 0 0 0 0 0 0.

End Mavlink.

(* ===================================================================== *)
(** * PrimaryNode.c                                                        *)
(* ===================================================================== *)

Module PrimaryNode.

(** ** The flag values of PrimaryNode.h

    [PrimaryNode.h] is not part of the sources.  The flag and mask values it
    defines are parameters of the model; nothing below depends on a
    particular choice, and every fact that needs two of them to name
    different bits says so. *)
Class Header : Type := mkHeader {
  PRIMARY_NODE_STATUS_AUTOMODE : Z;
  PRIMARY_NODE_STATUS_GPS_INVALID : Z;
  PRIMARY_NODE_STATUS_RC_NODE_DISCONNECTED : Z;
  PRIMARY_NODE_STATUS_ECAN_TX_ERR : Z;
  PRIMARY_NODE_STATUS_ECAN_RX_ERR : Z;
  PRIMARY_NODE_RESET_STARTUP : Z;
  PRIMARY_NODE_RESET_GPS_DISCONNECTED : Z;
  PRIMARY_NODE_RESET_ESTOP_OR_ACS300_DISCON : Z;
  PRIMARY_NODE_RESET_RUDDER_DISCONNECTED : Z;
  PRIMARY_NODE_RESET_DST800_DISCONNECTED : Z;
  PRIMARY_NODE_RESET_IMU_DISCONNECTED : Z;
  PRIMARY_NODE_RESET_MANUAL_OVERRIDE : Z;
  PRIMARY_NODE_RESET_RUDDER_ERRORS : Z;
  PRIMARY_NODE_RESET_CALIBRATING : Z;
  PRIMARY_NODE_RESET_UNCALIBRATED : Z;
  PRIMARY_NODE_RESET_GCS_DISCONNECTED : Z;
  PRIMARY_NODE_RESET_RTB : Z;
  RTB_RESET_MASK : Z
}.

(** [#define]s of PrimaryNode.c. *)
Definition STARTUP_RESET_TIME : Z := 200.
Definition GCS_DISCONNECTION_TIME : Z := 3000.
Definition GPS_DISCONNECTION_TIME : Z := 1000.
Definition SAY_STATUS_COUNTER_LIMIT : Z := 3000.
Definition UINT32_MAX : Z := 4294967295.

(** ** Types *)

Inductive PrimaryNodeMode : Type :=
| PRIMARY_MODE_MANUAL
| PRIMARY_MODE_AUTONOMOUS.

Inductive MavSeverity : Type :=
| MAV_SEVERITY_EMERGENCY
| MAV_SEVERITY_NOTICE
| MAV_SEVERITY_INFO.

Inductive Channel : Type :=
| MAVLINK_CHAN_GROUNDSTATION
| MAVLINK_CHAN_DATALOGGER.

(** The text of a STATUSTEXT message: a literal, or the return-to-base literal
    whose characters 43..46 are overwritten with [int2hexchar] of the four
    nibbles given, most significant first. *)
Inductive StatusText : Type :=
| literal (str : string)
| with_reason (str : string) (n3 n2 n1 n0 : Z).

(** Calls that leave the translation unit, in call order. *)
Inductive Event : Type :=
| ActuatorsTransmitCommands (rudder : float) (throttle : Z) (force : bool)
| MavLinkSendStatusText (severity : MavSeverity) (text : StatusText)
| MavLinkSendHeartbeat (chan : Channel)
| SendAudioStatusUpdate
| MavLinkTransmitAllParameters.

(** One subsystem's entry of [sensorAvailability]. *)
Record Availability : Type := mkAvailability {
  enabled : bool;
  active : bool;
  last_active : Z
}.

(** The entries of [sensorAvailability] the main loop reads. *)
Record SensorAvailability : Type := mkSensorAvailability {
  gps : Availability;
  imu : Availability;
  dst800 : Availability;
  prop : Availability;
  rudder : Availability;
  rcNode : Availability
}.

(** [EcanStatus], as returned by [Ecan1GetErrorStatus]. *)
Record EcanStatus : Type := mkEcanStatus {
  TxError : bool;
  TxBufferOverflow : bool;
  RxError : bool;
  RxBufferOverflow : bool
}.

(** The two flags of [rudderSensorData] the main loop reads. *)
Record RudderSensorData : Type := mkRudderSensorData {
  Calibrating : bool;
  Calibrated : bool
}.

(** The fields of [lastSensorAvailability] the main loop reads and writes.
    The struct also declares [imuActive], [dst800Active], [propActive] and the
    wso100, power and gyro pairs, none of which this file touches. *)
Record LastSensorAvailability : Type := mkLast {
  gpsEnabled : bool;
  gpsActive : bool;
  imuEnabled : bool;
  dst800Enabled : bool;
  propEnabled : bool;
  rudderEnabled : bool;
  rudderActive : bool;
  rcNodeEnabled : bool;
  rcNodeActive : bool
}.

(** [currentCommands], the fields this file writes. *)
Record ActuatorCommands : Type := mkCommands {
  autonomousRudderCommand : float;
  autonomousThrottleCommand : Z;
  primaryManualRudderCommand : float;
  primaryManualThrottleCommand : Z
}.

(** The globals of the primary node and the [static lastErrorState] of
    [main]; [outbox] collects the calls into other modules. *)
Record State : Type := mkState {
  nodeStatus : Z;                    (* uint16_t *)
  nodeErrors : Z;                    (* uint16_t *)
  nodeSystemTime : Z;                (* uint32_t *)
  lastSensorAvailability : LastSensorAvailability;
  lastErrorState : Z;                (* uint16_t *)
  currentCommands : ActuatorCommands;
  sayStatusCounter : Z;              (* uint16_t *)
  outbox : list Event
}.

(** What one pass of the [while (true)] loop of [main] reads from the rest of
    the system. *)
Record Inputs : Type := mkInputs {
  ecanErrors : EcanStatus;                 (* Ecan1GetErrorStatus() *)
  sensorAvailability : SensorAvailability;
  rudderSensorData : RudderSensorData;
  timeSinceLastGcsMessage : Z;             (* MavLinkTimeSinceLastGcsMessage() *)
  manRc : float;                           (* manual rudder, after ProcessManualRudderCommand *)
  manTc : Z;                               (* manual throttle, after ProcessManualThrottleCommand *)
  modeRequests : list PrimaryNodeMode;     (* SetAutoMode calls made under MavLinkReceive() *)
  timerElapsed : bool;                     (* TMR2 >= F_OSC / 2 / 256 / 100 *)
  rCommand : float;                        (* controller output *)
  tCommand : Z;                            (* controller output *)
  wpReachedIndex : Z                       (* controllerVars.wpReachedIndex *)
}.

Definition set_nodeStatus (v : Z) (s : State) : State :=
  mkState v (nodeErrors s) (nodeSystemTime s) (lastSensorAvailability s)
    (lastErrorState s) (currentCommands s) (sayStatusCounter s) (outbox s).

Definition set_nodeErrors (v : Z) (s : State) : State :=
  mkState (nodeStatus s) v (nodeSystemTime s) (lastSensorAvailability s)
    (lastErrorState s) (currentCommands s) (sayStatusCounter s) (outbox s).

Definition set_nodeSystemTime (v : Z) (s : State) : State :=
  mkState (nodeStatus s) (nodeErrors s) v (lastSensorAvailability s)
    (lastErrorState s) (currentCommands s) (sayStatusCounter s) (outbox s).

Definition set_last (v : LastSensorAvailability) (s : State) : State :=
  mkState (nodeStatus s) (nodeErrors s) (nodeSystemTime s) v
    (lastErrorState s) (currentCommands s) (sayStatusCounter s) (outbox s).

Definition set_lastErrorState (v : Z) (s : State) : State :=
  mkState (nodeStatus s) (nodeErrors s) (nodeSystemTime s) (lastSensorAvailability s)
    v (currentCommands s) (sayStatusCounter s) (outbox s).

Definition set_currentCommands (v : ActuatorCommands) (s : State) : State :=
  mkState (nodeStatus s) (nodeErrors s) (nodeSystemTime s) (lastSensorAvailability s)
    (lastErrorState s) v (sayStatusCounter s) (outbox s).

Definition set_sayStatusCounter (v : Z) (s : State) : State :=
  mkState (nodeStatus s) (nodeErrors s) (nodeSystemTime s) (lastSensorAvailability s)
    (lastErrorState s) (currentCommands s) v (outbox s).

(** A call into another module. *)
Definition call (e : Event) (s : State) : State :=
  mkState (nodeStatus s) (nodeErrors s) (nodeSystemTime s) (lastSensorAvailability s)
    (lastErrorState s) (currentCommands s) (sayStatusCounter s) (outbox s ++ [e]).

Definition set_gpsEnabled (v : bool) (l : LastSensorAvailability) : LastSensorAvailability :=
  mkLast v (gpsActive l) (imuEnabled l) (dst800Enabled l) (propEnabled l)
    (rudderEnabled l) (rudderActive l) (rcNodeEnabled l) (rcNodeActive l).

Definition set_gpsActive (v : bool) (l : LastSensorAvailability) : LastSensorAvailability :=
  mkLast (gpsEnabled l) v (imuEnabled l) (dst800Enabled l) (propEnabled l)
    (rudderEnabled l) (rudderActive l) (rcNodeEnabled l) (rcNodeActive l).

Definition set_imuEnabled (v : bool) (l : LastSensorAvailability) : LastSensorAvailability :=
  mkLast (gpsEnabled l) (gpsActive l) v (dst800Enabled l) (propEnabled l)
    (rudderEnabled l) (rudderActive l) (rcNodeEnabled l) (rcNodeActive l).

Definition set_dst800Enabled (v : bool) (l : LastSensorAvailability) : LastSensorAvailability :=
  mkLast (gpsEnabled l) (gpsActive l) (imuEnabled l) v (propEnabled l)
    (rudderEnabled l) (rudderActive l) (rcNodeEnabled l) (rcNodeActive l).

Definition set_propEnabled (v : bool) (l : LastSensorAvailability) : LastSensorAvailability :=
  mkLast (gpsEnabled l) (gpsActive l) (imuEnabled l) (dst800Enabled l) v
    (rudderEnabled l) (rudderActive l) (rcNodeEnabled l) (rcNodeActive l).

Definition set_rudderEnabled (v : bool) (l : LastSensorAvailability) : LastSensorAvailability :=
  mkLast (gpsEnabled l) (gpsActive l) (imuEnabled l) (dst800Enabled l) (propEnabled l)
    v (rudderActive l) (rcNodeEnabled l) (rcNodeActive l).

Definition set_rudderActive (v : bool) (l : LastSensorAvailability) : LastSensorAvailability :=
  mkLast (gpsEnabled l) (gpsActive l) (imuEnabled l) (dst800Enabled l) (propEnabled l)
    (rudderEnabled l) v (rcNodeEnabled l) (rcNodeActive l).

Definition set_rcNodeEnabled (v : bool) (l : LastSensorAvailability) : LastSensorAvailability :=
  mkLast (gpsEnabled l) (gpsActive l) (imuEnabled l) (dst800Enabled l) (propEnabled l)
    (rudderEnabled l) (rudderActive l) v (rcNodeActive l).

Definition set_rcNodeActive (v : bool) (l : LastSensorAvailability) : LastSensorAvailability :=
  mkLast (gpsEnabled l) (gpsActive l) (imuEnabled l) (dst800Enabled l) (propEnabled l)
    (rudderEnabled l) (rudderActive l) (rcNodeEnabled l) v.

(** [word |= flag] and [word &= ~flag] on the error word. *)
Definition raise_error (flag : Z) (s : State) : State :=
  set_nodeErrors (Z.lor (nodeErrors s) flag) s.
Definition clear_error (flag : Z) (s : State) : State :=
  set_nodeErrors (Z.land (nodeErrors s) (Z.lnot flag)) s.

(** The same on the status word. *)
Definition raise_status (flag : Z) (s : State) : State :=
  set_nodeStatus (Z.lor (nodeStatus s) flag) s.
Definition clear_status (flag : Z) (s : State) : State :=
  set_nodeStatus (Z.land (nodeStatus s) (Z.lnot flag)) s.

(** [lastSensorAvailability.f = v]. *)
Definition remember (f : LastSensorAvailability -> LastSensorAvailability) (s : State) : State :=
  set_last (f (lastSensorAvailability s)) s.

Section WithHeader.

Context {hdr : Header}.

(** [IS_AUTONOMOUS()] is a macro of [PrimaryNode.h]; it is taken to be the test
    [GetAutoMode] spells out, [(nodeStatus & PRIMARY_NODE_STATUS_AUTOMODE) > 0]. *)
Definition IS_AUTONOMOUS (s : State) : bool :=
  Z.land (nodeStatus s) PRIMARY_NODE_STATUS_AUTOMODE >? 0.

(** [GetAutoMode]. *)
Definition GetAutoMode (s : State) : PrimaryNodeMode :=
  if Z.land (nodeStatus s) PRIMARY_NODE_STATUS_AUTOMODE >? 0
  then PRIMARY_MODE_AUTONOMOUS
  else PRIMARY_MODE_MANUAL.

(** ** [PrimaryNodeMuxAndOutputControllerCommands]

    The manual inputs arrive already filtered ([manRc], [manTc] of the pass
    inputs); the filters are float code outside the model. *)
Definition PrimaryNodeMuxAndOutputControllerCommands (inp : Inputs)
    (rudderCommand : float) (throttleCommand : Z) (forceTransmission : bool)
    (s : State) : State :=
  let cc := mkCommands rudderCommand (manTc inp) (manRc inp) (manTc inp) in
  let s1 := set_currentCommands cc s in
  if IS_AUTONOMOUS s1 && negb (nonzero (nodeErrors s1))
  then call (ActuatorsTransmitCommands (autonomousRudderCommand cc)
               (autonomousThrottleCommand cc) forceTransmission) s1
  else if negb (IS_AUTONOMOUS s1)
          && negb (nonzero (Z.land (nodeErrors s1) PRIMARY_NODE_RESET_MANUAL_OVERRIDE))
  then call (ActuatorsTransmitCommands (primaryManualRudderCommand cc)
               (primaryManualThrottleCommand cc) forceTransmission) s1
  else s1.

(** ** [SetAutoMode] *)
Definition SetAutoMode (newMode : PrimaryNodeMode) (s : State) : State :=
  let wantsAuto := match newMode with PRIMARY_MODE_AUTONOMOUS => true | _ => false end in
  if wantsAuto && negb (IS_AUTONOMOUS s)
     && negb (nonzero (Z.land (nodeErrors s) RTB_RESET_MASK))
  then
    s |> raise_status PRIMARY_NODE_STATUS_AUTOMODE
      |> call (MavLinkSendHeartbeat MAVLINK_CHAN_GROUNDSTATION)
      |> call (MavLinkSendHeartbeat MAVLINK_CHAN_DATALOGGER)
      |> call SendAudioStatusUpdate
      |> set_sayStatusCounter 0
      |> call MavLinkTransmitAllParameters
  else if IS_AUTONOMOUS s
  then
    let s1 := clear_status PRIMARY_NODE_STATUS_AUTOMODE s in
    let s2 :=
      if nonzero (Z.land (nodeErrors s1) PRIMARY_NODE_RESET_RTB)
      then s1 |> clear_error PRIMARY_NODE_RESET_RTB
              |> call (MavLinkSendStatusText MAV_SEVERITY_NOTICE
                         (literal "Exiting return-to-base protocol"))
      else s1 in
    s2 |> call (MavLinkSendHeartbeat MAVLINK_CHAN_GROUNDSTATION)
       |> call (MavLinkSendHeartbeat MAVLINK_CHAN_DATALOGGER)
  else s.

(** ** The body of [while (true)] in [main], block by block *)

(** ECAN peripheral errors (status word). *)
Definition checkEcanErrors (inp : Inputs) (s : State) : State :=
  let e := ecanErrors inp in
  let s1 :=
    if nonzero (Z.land (nodeStatus s) PRIMARY_NODE_STATUS_ECAN_TX_ERR)
    then if negb (TxError e) && negb (TxBufferOverflow e)
         then clear_status PRIMARY_NODE_STATUS_ECAN_TX_ERR s else s
    else if TxError e || TxBufferOverflow e
         then raise_status PRIMARY_NODE_STATUS_ECAN_TX_ERR s else s in
  if nonzero (Z.land (nodeStatus s1) PRIMARY_NODE_STATUS_ECAN_RX_ERR)
  then if negb (RxError e) && negb (RxBufferOverflow e)
       then clear_status PRIMARY_NODE_STATUS_ECAN_RX_ERR s1 else s1
  else if RxError e || RxBufferOverflow e
       then raise_status PRIMARY_NODE_STATUS_ECAN_RX_ERR s1 else s1.

(** GPS enabled: only the remembered value follows. *)
Definition trackGpsEnabled (inp : Inputs) (s : State) : State :=
  let cur := enabled (gps (sensorAvailability inp)) in
  let l := lastSensorAvailability s in
  if gpsEnabled l && negb cur then remember (set_gpsEnabled false) s
  else if negb (gpsEnabled l) && cur then remember (set_gpsEnabled true) s
  else s.

(** GPS active: the GPS-invalid bit.  The block stands twice in the loop. *)
Definition trackGpsActive (inp : Inputs) (s : State) : State :=
  let cur := active (gps (sensorAvailability inp)) in
  let l := lastSensorAvailability s in
  if gpsActive l && negb cur
  then s |> raise_error PRIMARY_NODE_STATUS_GPS_INVALID |> remember (set_gpsActive false)
  else if negb (gpsActive l) && cur
  then s |> clear_error PRIMARY_NODE_STATUS_GPS_INVALID |> remember (set_gpsActive true)
  else s.

(** GPS disconnected by timeout; the subtraction is on [uint32_t]. *)
Definition checkGpsDisconnected (inp : Inputs) (s : State) : State :=
  let g := gps (sensorAvailability inp) in
  if nonzero (Z.land (nodeErrors s) PRIMARY_NODE_RESET_GPS_DISCONNECTED)
  then if active g then clear_error PRIMARY_NODE_RESET_GPS_DISCONNECTED s else s
  else if uint32 (nodeSystemTime s - last_active g) >=? GPS_DISCONNECTION_TIME
       then raise_error PRIMARY_NODE_RESET_GPS_DISCONNECTED s else s.

(** Propulsion (ACS300) enabled: the e-stop bit. *)
Definition trackPropEnabled (inp : Inputs) (s : State) : State :=
  let cur := enabled (prop (sensorAvailability inp)) in
  let l := lastSensorAvailability s in
  if propEnabled l && negb cur
  then s |> raise_error PRIMARY_NODE_RESET_ESTOP_OR_ACS300_DISCON
         |> remember (set_propEnabled false)
  else if negb (propEnabled l) && cur
  then s |> clear_error PRIMARY_NODE_RESET_ESTOP_OR_ACS300_DISCON
         |> remember (set_propEnabled true)
  else s.

(** Rudder node enabled. *)
Definition trackRudderEnabled (inp : Inputs) (s : State) : State :=
  let cur := enabled (rudder (sensorAvailability inp)) in
  let l := lastSensorAvailability s in
  if rudderEnabled l && negb cur
  then s |> raise_error PRIMARY_NODE_RESET_RUDDER_DISCONNECTED
         |> remember (set_rudderEnabled false)
  else if negb (rudderEnabled l) && cur
  then s |> clear_error PRIMARY_NODE_RESET_RUDDER_DISCONNECTED
         |> remember (set_rudderEnabled true)
  else s.

(** RC node enabled (status word). *)
Definition trackRcNodeEnabled (inp : Inputs) (s : State) : State :=
  let cur := enabled (rcNode (sensorAvailability inp)) in
  let l := lastSensorAvailability s in
  if rcNodeEnabled l && negb cur
  then s |> raise_status PRIMARY_NODE_STATUS_RC_NODE_DISCONNECTED
         |> remember (set_rcNodeEnabled false)
  else if negb (rcNodeEnabled l) && cur
  then s |> clear_status PRIMARY_NODE_STATUS_RC_NODE_DISCONNECTED
         |> remember (set_rcNodeEnabled true)
  else s.

(** DST800 enabled. *)
Definition trackDst800Enabled (inp : Inputs) (s : State) : State :=
  let cur := enabled (dst800 (sensorAvailability inp)) in
  let l := lastSensorAvailability s in
  if dst800Enabled l && negb cur
  then s |> raise_error PRIMARY_NODE_RESET_DST800_DISCONNECTED
         |> remember (set_dst800Enabled false)
  else if negb (dst800Enabled l) && cur
  then s |> clear_error PRIMARY_NODE_RESET_DST800_DISCONNECTED
         |> remember (set_dst800Enabled true)
  else s.

(** IMU enabled. *)
Definition trackImuEnabled (inp : Inputs) (s : State) : State :=
  let cur := enabled (imu (sensorAvailability inp)) in
  let l := lastSensorAvailability s in
  if imuEnabled l && negb cur
  then s |> raise_error PRIMARY_NODE_RESET_IMU_DISCONNECTED
         |> remember (set_imuEnabled false)
  else if negb (imuEnabled l) && cur
  then s |> clear_error PRIMARY_NODE_RESET_IMU_DISCONNECTED
         |> remember (set_imuEnabled true)
  else s.

(** RC node active: manual override, and the re-broadcast of the last
    autonomous commands when the override ends. *)
Definition trackRcNodeActive (inp : Inputs) (s : State) : State :=
  let rc := rcNode (sensorAvailability inp) in
  let l := lastSensorAvailability s in
  if rcNodeActive l && negb (active rc)
  then
    let s1 := clear_error PRIMARY_NODE_RESET_MANUAL_OVERRIDE s in
    s1 |> PrimaryNodeMuxAndOutputControllerCommands inp
            (autonomousRudderCommand (currentCommands s1))
            (autonomousThrottleCommand (currentCommands s1)) true
       |> remember (set_rcNodeActive false)
  else if enabled rc && negb (rcNodeActive l) && active rc
  then s |> raise_error PRIMARY_NODE_RESET_MANUAL_OVERRIDE
         |> remember (set_rcNodeActive true)
  else s.

(** Rudder active: the rudder-errors bit. *)
Definition trackRudderActive (inp : Inputs) (s : State) : State :=
  let r := rudder (sensorAvailability inp) in
  let l := lastSensorAvailability s in
  if rudderActive l && negb (active r)
  then s |> raise_error PRIMARY_NODE_RESET_RUDDER_ERRORS
         |> remember (set_rudderActive false)
  else if enabled r && negb (rudderActive l) && active r
  then s |> clear_error PRIMARY_NODE_RESET_RUDDER_ERRORS
         |> remember (set_rudderActive true)
  else s.

(** Rudder calibrating. *)
Definition trackCalibrating (inp : Inputs) (s : State) : State :=
  if nonzero (Z.land (nodeErrors s) PRIMARY_NODE_RESET_CALIBRATING)
  then if negb (Calibrating (rudderSensorData inp))
       then clear_error PRIMARY_NODE_RESET_CALIBRATING s else s
  else if Calibrating (rudderSensorData inp)
       then raise_error PRIMARY_NODE_RESET_CALIBRATING s else s.

(** Rudder calibrated. *)
Definition trackCalibrated (inp : Inputs) (s : State) : State :=
  if nonzero (Z.land (nodeErrors s) PRIMARY_NODE_RESET_UNCALIBRATED)
  then if Calibrated (rudderSensorData inp)
       then clear_error PRIMARY_NODE_RESET_UNCALIBRATED s else s
  else if negb (Calibrated (rudderSensorData inp))
       then raise_error PRIMARY_NODE_RESET_UNCALIBRATED s else s.

(** Ground station silent for too long. *)
Definition checkGcsDisconnected (inp : Inputs) (s : State) : State :=
  if nonzero (Z.land (nodeErrors s) PRIMARY_NODE_RESET_GCS_DISCONNECTED)
  then if timeSinceLastGcsMessage inp <? GCS_DISCONNECTION_TIME
       then clear_error PRIMARY_NODE_RESET_GCS_DISCONNECTED s else s
  else if timeSinceLastGcsMessage inp >=? GCS_DISCONNECTION_TIME
       then raise_error PRIMARY_NODE_RESET_GCS_DISCONNECTED s else s.

(** The availability blocks of one pass, in source order. *)
Definition updateFaults (inp : Inputs) (s : State) : State :=
  s |> checkEcanErrors inp
    |> trackGpsEnabled inp
    |> trackGpsActive inp
    |> checkGpsDisconnected inp
    |> trackGpsActive inp
    |> trackPropEnabled inp
    |> trackRudderEnabled inp
    |> trackRcNodeEnabled inp
    |> trackDst800Enabled inp
    |> trackImuEnabled inp
    |> trackRcNodeActive inp
    |> trackRudderActive inp
    |> trackCalibrating inp
    |> trackCalibrated inp
    |> checkGcsDisconnected inp.

(** [MavLinkReceive()] of the primary node is defined in [MavlinkGlue.c],
    outside the sources.  It reaches the state of this file through
    [SetAutoMode]; a pass is given the mode requests it makes, in order. *)
Definition MavLinkReceive (inp : Inputs) (s : State) : State :=
  fold_left (fun st m => SetAutoMode m st) (modeRequests inp) s.

(** The return-to-base check that closes the pass
    ([if (nodeErrors != lastErrorState) ...]). *)
Definition checkReturnToBase (s : State) : State :=
  if negb (nodeErrors s =? lastErrorState s)
  then
    let rtbErrors := Z.land (nodeErrors s) RTB_RESET_MASK in
    let s1 :=
      if IS_AUTONOMOUS s && nonzero rtbErrors
      then
        let s2 := call (ActuatorsTransmitCommands 0 0 true) s in
        if negb (nonzero (Z.land (nodeErrors s2) PRIMARY_NODE_RESET_RTB))
        then
          s2 |> call (MavLinkSendStatusText MAV_SEVERITY_EMERGENCY
                        (with_reason "Enacting return-to-base protocol (reason 0x0000)"
                           (Z.land (Z.shiftr rtbErrors 12) 15)
                           (Z.land (Z.shiftr rtbErrors 8) 15)
                           (Z.land (Z.shiftr rtbErrors 4) 15)
                           (Z.land rtbErrors 15)))
             |> raise_error PRIMARY_NODE_RESET_RTB
        else s2
      else s in
    set_lastErrorState (nodeErrors s1) s1
  else s.

(** [PrimaryNode100HzLoop], as far as it writes the state modelled here: the
    startup hold, the actuator output, the spoken status and the system time.
    Sensor polling, ADC readings, LEDs, the controller step and the telemetry
    calls write none of it. *)
Definition PrimaryNode100HzLoop (inp : Inputs) (s : State) : State :=
  let s1 :=
    if nodeSystemTime s =? 0 then raise_error PRIMARY_NODE_RESET_STARTUP s
    else if nodeSystemTime s =? STARTUP_RESET_TIME
    then clear_error PRIMARY_NODE_RESET_STARTUP s
    else s in
  let s2 :=
    PrimaryNodeMuxAndOutputControllerCommands inp (rCommand inp) (tCommand inp) false s1 in
  let s3 :=
    if IS_AUTONOMOUS s2 && negb (nonzero (nodeErrors s2))
    then if negb (wpReachedIndex inp =? -1) then set_sayStatusCounter 0 s2
         else if sayStatusCounter s2 >=? SAY_STATUS_COUNTER_LIMIT
         then s2 |> call SendAudioStatusUpdate |> set_sayStatusCounter 0
         else set_sayStatusCounter (uint16 (sayStatusCounter s2 + 1)) s2
    else s2 in
  if nodeSystemTime s3 <? UINT32_MAX
  then set_nodeSystemTime (nodeSystemTime s3 + 1) s3
  else s3.

(** One pass of the [while (true)] loop. *)
Definition mainLoopPass (s : State) (inp : Inputs) : State :=
  let s1 := s |> updateFaults inp |> MavLinkReceive inp |> checkReturnToBase in
  if timerElapsed inp then PrimaryNode100HzLoop inp s1 else s1.

(** The loop, over the inputs of successive passes. *)
Definition mainLoop (inps : list Inputs) (s : State) : State :=
  fold_left mainLoopPass inps s.

(** The return-to-base announcements among a list of calls. *)
Definition rtbAnnouncements (l : list Event) : list Event :=
  filter (fun e => match e with
                   | MavLinkSendStatusText MAV_SEVERITY_EMERGENCY _ => true
                   | _ => false
                   end) l.

(** ** Observations used to state the properties *)

(** The return-to-base announcement has been made and not taken back: the
    test [nodeErrors & PRIMARY_NODE_RESET_RTB] of the check. *)
Definition rtbAnnounced (s : State) : bool :=
  nonzero (Z.land (nodeErrors s) PRIMARY_NODE_RESET_RTB).

(** The bits of [rtbErrors] as the announcement prints them. *)
Definition rtbAnnouncement (rtbErrors : Z) : Event :=
  MavLinkSendStatusText MAV_SEVERITY_EMERGENCY
    (with_reason "Enacting return-to-base protocol (reason 0x0000)"
       (Z.land (Z.shiftr rtbErrors 12) 15)
       (Z.land (Z.shiftr rtbErrors 8) 15)
       (Z.land (Z.shiftr rtbErrors 4) 15)
       (Z.land rtbErrors 15)).

(** [flag] shares no bit with any of [flags]. *)
Definition sharesNoBit (flag : Z) (flags : list Z) : bool :=
  forallb (fun f => Z.land f flag =? 0) flags.



(** The same for the return-to-base flag, which is also a flag at all. *)
Definition rtbStandsAlone : bool :=
  nonzero PRIMARY_NODE_RESET_RTB
  && sharesNoBit PRIMARY_NODE_RESET_RTB
    [PRIMARY_NODE_RESET_STARTUP; PRIMARY_NODE_STATUS_GPS_INVALID;
     PRIMARY_NODE_RESET_GPS_DISCONNECTED;
     PRIMARY_NODE_RESET_ESTOP_OR_ACS300_DISCON; PRIMARY_NODE_RESET_RUDDER_DISCONNECTED;
     PRIMARY_NODE_RESET_DST800_DISCONNECTED; PRIMARY_NODE_RESET_IMU_DISCONNECTED;
     PRIMARY_NODE_RESET_MANUAL_OVERRIDE; PRIMARY_NODE_RESET_RUDDER_ERRORS;
     PRIMARY_NODE_RESET_CALIBRATING; PRIMARY_NODE_RESET_UNCALIBRATED;
     PRIMARY_NODE_RESET_GCS_DISCONNECTED].

(** What a block of the loop may do to the state from [s] to [s']: set or
    clear [flag] in the error word or leave the word alone; it makes no
    return-to-base announcement and keeps the remembered error state, the
    remembered GPS and rudder activity. *)
Definition writesOnly (flag : Z) (s s' : State) : Prop :=
  (nodeErrors s' = nodeErrors s
   \/ nodeErrors s' = Z.lor (nodeErrors s) flag
   \/ nodeErrors s' = Z.land (nodeErrors s) (Z.lnot flag))
  /\ rtbAnnouncements (outbox s') = rtbAnnouncements (outbox s)
  /\ lastErrorState s' = lastErrorState s
  /\ gpsActive (lastSensorAvailability s') = gpsActive (lastSensorAvailability s)
  /\ rudderActive (lastSensorAvailability s') = rudderActive (lastSensorAvailability s).

(** From [s] to [s'] the bits [m] of the error word, the announcements made,
    the remembered error state and the remembered activity [which] are as
    they were. *)
Definition untouched (m : Z) (which : LastSensorAvailability -> bool)
    (s s' : State) : Prop :=
  Z.land (nodeErrors s') m = Z.land (nodeErrors s) m
  /\ rtbAnnouncements (outbox s') = rtbAnnouncements (outbox s)
  /\ lastErrorState s' = lastErrorState s
  /\ which (lastSensorAvailability s') = which (lastSensorAvailability s).

(** No remembered activity in particular. *)
Definition anyActivity (l : LastSensorAvailability) : bool := true.

End WithHeader.

(** A header with one bit per flag, for running the model on concrete
    states.  The GPS-invalid flag has a bit of the error word to itself; the
    return-to-base mask holds the GPS, ground-station, IMU, rudder and
    propulsion faults. *)
Definition sampleHeader : Header :=
  mkHeader 1 4096 4 8 16
    1 2 4 8 16 32 64 128 256 512 1024 2048
    (2 + 4 + 8 + 32 + 128 + 1024).

(** An idle node: no flag set, every sensor remembered as enabled and active. *)
Definition idleState : State :=
  mkState 0 0 1000 (mkLast true true true true true true true true false) 0
    (mkCommands 0 0 0 0) 0 [].

(** Inputs of a pass in which every sensor is present and healthy. *)
Definition healthyInputs (t : Z) : Inputs :=
  let ok := mkAvailability true true t in
  mkInputs (mkEcanStatus false false false false)
    (mkSensorAvailability ok ok ok ok ok (mkAvailability true false t))
    (mkRudderSensorData false true) 0 0 0 [] false 0 0 (-1).

End PrimaryNode.

(* ===================================================================== *)
(** * mavlink.c: the system state and mode, and a driven download         *)
(* ===================================================================== *)

Module MavlinkSystem.
Import Mavlink.

(** ** [mavlink_system] *)

(** The values of [MAV_STATE] the file assigns. *)
Inductive MavState : Type :=
| MAV_STATE_UNINIT
| MAV_STATE_BOOT
| MAV_STATE_CALIBRATING
| MAV_STATE_STANDBY
| MAV_STATE_ACTIVE.

(** The [MAV_MODE_FLAG] values the file uses.  They come from the MAVLink
    headers, which are not part of the sources, and are parameters of the
    model. *)
Class ModeFlags : Type := mkModeFlags {
  MAV_MODE_FLAG_SAFETY_ARMED : Z;
  MAV_MODE_FLAG_MANUAL_INPUT_ENABLED : Z;
  MAV_MODE_FLAG_HIL_ENABLED : Z;
  MAV_MODE_FLAG_GUIDED_ENABLED : Z;
  MAV_MODE_FLAG_AUTO_ENABLED : Z
}.

(** The two fields of [mavlink_system] that [MavLinkSendStatusAndErrors]
    writes. *)
Record mavlink_system_t : Type := mkSystem {
  state : MavState;
  mode : Z                   (* uint8_t *)
}.

Section WithModeFlags.

Context {flags : ModeFlags}.

(** [MavLinkSendStatusAndErrors], after the frame is queued: the update of
    [mavlink_system] from [systemStatus.status] and [systemStatus.reset]. *)
Definition MavLinkSendStatusAndErrors (status reset : Z) (sys : mavlink_system_t)
  : mavlink_system_t :=
  let sys1 :=
    if nonzero (Z.land reset (Z.shiftl 1 0))
    then mkSystem MAV_STATE_BOOT
           (uint8 (Z.land (mode sys) (Z.lnot MAV_MODE_FLAG_SAFETY_ARMED)))
    else if nonzero (Z.land reset (Z.shiftl 1 5))
    then mkSystem MAV_STATE_CALIBRATING
           (uint8 (Z.lor (mode sys) MAV_MODE_FLAG_SAFETY_ARMED))
    else if reset >? 0
    then mkSystem MAV_STATE_STANDBY
           (uint8 (Z.lor (mode sys) MAV_MODE_FLAG_SAFETY_ARMED))
    else mkSystem MAV_STATE_ACTIVE
           (uint8 (Z.lor (mode sys) MAV_MODE_FLAG_SAFETY_ARMED)) in
  let sys2 :=
    if nonzero (Z.land status (Z.shiftl 1 0))
    then
      let m1 := uint8 (Z.lor (mode sys1)
                         (Z.lor MAV_MODE_FLAG_AUTO_ENABLED MAV_MODE_FLAG_GUIDED_ENABLED)) in
      mkSystem (state sys1)
        (uint8 (Z.land m1 (Z.lnot MAV_MODE_FLAG_MANUAL_INPUT_ENABLED)))
    else
      let m1 := uint8 (Z.land (mode sys1)
                         (Z.lnot (Z.lor MAV_MODE_FLAG_AUTO_ENABLED
                                    MAV_MODE_FLAG_GUIDED_ENABLED))) in
      mkSystem (state sys1) (uint8 (Z.lor m1 MAV_MODE_FLAG_MANUAL_INPUT_ENABLED)) in
  if nonzero (Z.land status (Z.shiftl 1 1))
  then mkSystem (state sys2) (uint8 (Z.lor (mode sys2) MAV_MODE_FLAG_HIL_ENABLED))
  else mkSystem (state sys2)
         (uint8 (Z.land (mode sys2) (Z.lnot MAV_MODE_FLAG_HIL_ENABLED))).

(** Every flag fits the [uint8_t] mode field, and no two of the five share a
    bit. *)
Definition modeFlagsApart : bool :=
  forallb (fun f => (0 <=? f) && (f <? 256))
    [MAV_MODE_FLAG_SAFETY_ARMED; MAV_MODE_FLAG_MANUAL_INPUT_ENABLED;
     MAV_MODE_FLAG_HIL_ENABLED; MAV_MODE_FLAG_GUIDED_ENABLED;
     MAV_MODE_FLAG_AUTO_ENABLED]
  && forallb (fun p => Z.land (fst p) (snd p) =? 0)
       [(MAV_MODE_FLAG_SAFETY_ARMED, MAV_MODE_FLAG_MANUAL_INPUT_ENABLED);
        (MAV_MODE_FLAG_SAFETY_ARMED, MAV_MODE_FLAG_HIL_ENABLED);
        (MAV_MODE_FLAG_SAFETY_ARMED, MAV_MODE_FLAG_GUIDED_ENABLED);
        (MAV_MODE_FLAG_SAFETY_ARMED, MAV_MODE_FLAG_AUTO_ENABLED);
        (MAV_MODE_FLAG_MANUAL_INPUT_ENABLED, MAV_MODE_FLAG_HIL_ENABLED);
        (MAV_MODE_FLAG_MANUAL_INPUT_ENABLED, MAV_MODE_FLAG_GUIDED_ENABLED);
        (MAV_MODE_FLAG_MANUAL_INPUT_ENABLED, MAV_MODE_FLAG_AUTO_ENABLED);
        (MAV_MODE_FLAG_HIL_ENABLED, MAV_MODE_FLAG_GUIDED_ENABLED);
        (MAV_MODE_FLAG_HIL_ENABLED, MAV_MODE_FLAG_AUTO_ENABLED);
        (MAV_MODE_FLAG_GUIDED_ENABLED, MAV_MODE_FLAG_AUTO_ENABLED)].

End WithModeFlags.

(** The flag values of the MAVLink common message set, for running the model
    on concrete values. *)
Definition commonModeFlags : ModeFlags := mkModeFlags 128 64 32 8 4.

(** ** A download, as the ground station drives it *)

(** The list request and a transmit pass, then, for each of the first [k]
    missions in turn, the request for it and a transmit pass. *)
Fixpoint downloadRun (sys comp : Z) (k : nat) (s : State) : State :=
  match k with
  | O => MavLinkTransmit (receiveMessage s (mkMessage sys comp MISSION_REQUEST_LIST))
  | S j => MavLinkTransmit
             (receiveMessage (downloadRun sys comp j s)
                (mkMessage sys comp (MISSION_REQUEST (Z.of_nat j))))
  end.

(** The item frames that serve the first [k] missions of a store to the
    ground station [gs], [gc]. *)
Definition itemFrames (gs gc : Z) (k : nat) (ml : MissionList) : list Packet :=
  map (fun jm => mission_item gs gc (Z.of_nat (fst jm)) (snd jm)
                   (Z.of_nat (fst jm) =? uint8 (GetCurrentMission ml)))
    (combine (seq 0 k) (missions ml)).

End MavlinkSystem.

(* ===================================================================== *)
(** * PrimaryNode.c: indicator LEDs, the 2 Hz node status, the manual
      throttle filter, the reported actuator commands                     *)
(* ===================================================================== *)

Module PrimaryNodeHelpers.
Import PrimaryNode.

(** ** Indicator LEDs *)

(** A pin level: the [ON] and [OFF] the code writes to a latch. *)
Inductive Level : Type := OFF | ON.

(** The function-static blink counter of one LED function, with the output
    latch that function drives. *)
Record Led : Type := mkLed {
  blinkCounter : Z;          (* static uint8_t *)
  LAT : Level
}.

(** [SetStatusModeLed]: [statusModeBlinkCounter] and [_LATA4]. *)
Definition SetStatusModeLed (l : Led) : Led :=
  if blinkCounter l =? 0 then mkLed 1 ON
  else if blinkCounter l =? 100 then mkLed (uint8 (blinkCounter l + 1)) OFF
  else if blinkCounter l =? 199 then mkLed 0 (LAT l)
  else mkLed (uint8 (blinkCounter l + 1)) (LAT l).

(** [SetResetModeLed]: [resetModeBlinkCounter] and [_LATA3]. *)
Definition SetResetModeLed (s : State) (l : Led) : Led :=
  if nonzero (nodeErrors s)
  then
    if blinkCounter l =? 0 then mkLed 1 ON
    else if blinkCounter l =? 50 then mkLed (uint8 (blinkCounter l + 1)) OFF
    else if blinkCounter l =? 99 then mkLed 0 (LAT l)
    else mkLed (uint8 (blinkCounter l + 1)) (LAT l)
  else mkLed 0 OFF.

(** [SetGpsLed]: [gpsBlinkCounter] and [_LATB15]. *)
Definition SetGpsLed (sa : SensorAvailability) (l : Led) : Led :=
  if active (gps sa) then mkLed 0 ON
  else if enabled (gps sa)
  then
    if blinkCounter l =? 0 then mkLed 1 ON
    else if blinkCounter l =? 25 then mkLed (uint8 (blinkCounter l + 1)) OFF
    else if blinkCounter l =? 49 then mkLed 0 (LAT l)
    else mkLed (uint8 (blinkCounter l + 1)) (LAT l)
  else mkLed 0 OFF.

(** ** [TransmitNodeStatus2Hz]

    The static [counter]; the result says whether [NodeTransmitStatus] was
    called. *)
Definition TransmitNodeStatus2Hz (counter : Z) : Z * bool :=
  if counter =? 49 then (uint8 (counter + 1), true)
  else if counter =? 99 then (0, true)
  else (uint8 (counter + 1), false).

(** Successive calls, from the first: which of them called
    [NodeTransmitStatus]. *)
Fixpoint nodeStatusCalls (n : nat) (counter : Z) : list bool :=
  match n with
  | O => []
  | S k => let (c, sent) := TransmitNodeStatus2Hz counter in
           sent :: nodeStatusCalls k c
  end.

(** ** [ProcessManualThrottleCommand] *)

(** An [int16_t] value, and [int] on the 16-bit target this file is built
    for (the dsPIC33 parts named in its configuration pragmas). *)
Definition int16 (x : Z) : Z := (x + 32768) mod 65536 - 32768.

(** The deadband, then [tc * 7 / 10]: C division truncates towards zero. *)
Definition ProcessManualThrottleCommand (tc : Z) : Z :=
  let tc1 := if (tc >? -40) && (tc <? 40) then 0 else tc in
  int16 (Z.quot (int16 (tc1 * 7)) 10).

Section WithHeader.

Context {hdr : Header}.

(** [SetAutoModeLed]: [autoModeBlinkCounter] and [_LATB12]. *)
Definition SetAutoModeLed (s : State) (l : Led) : Led :=
  if nonzero (Z.land (nodeErrors s) PRIMARY_NODE_RESET_MANUAL_OVERRIDE)
  then
    if blinkCounter l =? 0 then mkLed 1 ON
    else if blinkCounter l =? 25 then mkLed (uint8 (blinkCounter l + 1)) OFF
    else if blinkCounter l =? 49 then mkLed 0 (LAT l)
    else mkLed (uint8 (blinkCounter l + 1)) (LAT l)
  else if IS_AUTONOMOUS s then mkLed 0 ON
  else mkLed 0 OFF.

(** [GetCurrentActuatorCommands].  The commands of the RC node
    ([currentCommands.secondaryManual...]) are written by the CAN receive
    code, outside this file; they are given to the function. *)
Definition GetCurrentActuatorCommands
    (secondaryManualRudderCommand : float) (secondaryManualThrottleCommand : Z)
    (s : State) : float * Z :=
  if nonzero (Z.land (nodeErrors s) PRIMARY_NODE_RESET_MANUAL_OVERRIDE)
  then (secondaryManualRudderCommand, secondaryManualThrottleCommand)
  else if negb (nonzero (nodeErrors s))
  then if IS_AUTONOMOUS s
       then (autonomousRudderCommand (currentCommands s),
             autonomousThrottleCommand (currentCommands s))
       else (primaryManualRudderCommand (currentCommands s),
             primaryManualThrottleCommand (currentCommands s))
  else (0, 0).

(** The 100 Hz step run on the inputs of successive ticks. *)
Definition hundredHzTicks (inps : list Inputs) (s : State) : State :=
  fold_left (fun st inp => PrimaryNode100HzLoop inp st) inps s.

(** The actuator commands among a list of calls, in order. *)
Definition actuatorCommands (l : list Event) : list Event :=
  filter (fun e => match e with
                   | ActuatorsTransmitCommands _ _ _ => true
                   | _ => false
                   end) l.

(** The spoken status updates among a list of calls. *)
Definition audioUpdates (l : list Event) : list Event :=
  filter (fun e => match e with
                   | SendAudioStatusUpdate => true
                   | _ => false
                   end) l.

(** The number of passes of a run in which the 100 Hz timer had elapsed. *)
Definition ticksIn (inps : list Inputs) : Z :=
  Z.of_nat (length (filter timerElapsed inps)).

(** The automode flag shares no bit with the other flags written to the
    status word. *)
Definition autoModeStandsAlone : bool :=
  sharesNoBit PRIMARY_NODE_STATUS_AUTOMODE
    [PRIMARY_NODE_STATUS_ECAN_TX_ERR; PRIMARY_NODE_STATUS_ECAN_RX_ERR;
     PRIMARY_NODE_STATUS_RC_NODE_DISCONNECTED].

(** The startup flag shares no bit with the other flags written to the error
    word. *)
Definition startupStandsAlone : bool :=
  sharesNoBit PRIMARY_NODE_RESET_STARTUP
    [PRIMARY_NODE_STATUS_GPS_INVALID; PRIMARY_NODE_RESET_GPS_DISCONNECTED;
     PRIMARY_NODE_RESET_ESTOP_OR_ACS300_DISCON; PRIMARY_NODE_RESET_RUDDER_DISCONNECTED;
     PRIMARY_NODE_RESET_DST800_DISCONNECTED; PRIMARY_NODE_RESET_IMU_DISCONNECTED;
     PRIMARY_NODE_RESET_MANUAL_OVERRIDE; PRIMARY_NODE_RESET_RUDDER_ERRORS;
     PRIMARY_NODE_RESET_CALIBRATING; PRIMARY_NODE_RESET_UNCALIBRATED;
     PRIMARY_NODE_RESET_GCS_DISCONNECTED; PRIMARY_NODE_RESET_RTB].

(** The ground-station flag is a flag, and one of those of the
    return-to-base mask. *)
Definition gcsTriggersReturnToBase : bool :=
  nonzero PRIMARY_NODE_RESET_GCS_DISCONNECTED
  && (Z.land PRIMARY_NODE_RESET_GCS_DISCONNECTED RTB_RESET_MASK
      =? PRIMARY_NODE_RESET_GCS_DISCONNECTED).

(** The IMU flag shares no bit with the other flags written to the error
    word. *)
Definition imuFlagStandsAlone : bool :=
  sharesNoBit PRIMARY_NODE_RESET_IMU_DISCONNECTED
    [PRIMARY_NODE_RESET_STARTUP; PRIMARY_NODE_STATUS_GPS_INVALID;
     PRIMARY_NODE_RESET_GPS_DISCONNECTED;
     PRIMARY_NODE_RESET_ESTOP_OR_ACS300_DISCON; PRIMARY_NODE_RESET_RUDDER_DISCONNECTED;
     PRIMARY_NODE_RESET_DST800_DISCONNECTED;
     PRIMARY_NODE_RESET_MANUAL_OVERRIDE; PRIMARY_NODE_RESET_RUDDER_ERRORS;
     PRIMARY_NODE_RESET_CALIBRATING; PRIMARY_NODE_RESET_UNCALIBRATED;
     PRIMARY_NODE_RESET_GCS_DISCONNECTED; PRIMARY_NODE_RESET_RTB].

(** The calibrating flag is a flag, and shares no bit with the other flags
    written to the error word. *)
Definition calibratingStandsAlone : bool :=
  nonzero PRIMARY_NODE_RESET_CALIBRATING
  && sharesNoBit PRIMARY_NODE_RESET_CALIBRATING
    [PRIMARY_NODE_RESET_STARTUP; PRIMARY_NODE_STATUS_GPS_INVALID;
     PRIMARY_NODE_RESET_GPS_DISCONNECTED;
     PRIMARY_NODE_RESET_ESTOP_OR_ACS300_DISCON; PRIMARY_NODE_RESET_RUDDER_DISCONNECTED;
     PRIMARY_NODE_RESET_DST800_DISCONNECTED; PRIMARY_NODE_RESET_IMU_DISCONNECTED;
     PRIMARY_NODE_RESET_MANUAL_OVERRIDE; PRIMARY_NODE_RESET_RUDDER_ERRORS;
     PRIMARY_NODE_RESET_UNCALIBRATED;
     PRIMARY_NODE_RESET_GCS_DISCONNECTED; PRIMARY_NODE_RESET_RTB].

(** The same for the uncalibrated flag. *)
Definition uncalibratedStandsAlone : bool :=
  nonzero PRIMARY_NODE_RESET_UNCALIBRATED
  && sharesNoBit PRIMARY_NODE_RESET_UNCALIBRATED
    [PRIMARY_NODE_RESET_STARTUP; PRIMARY_NODE_STATUS_GPS_INVALID;
     PRIMARY_NODE_RESET_GPS_DISCONNECTED;
     PRIMARY_NODE_RESET_ESTOP_OR_ACS300_DISCON; PRIMARY_NODE_RESET_RUDDER_DISCONNECTED;
     PRIMARY_NODE_RESET_DST800_DISCONNECTED; PRIMARY_NODE_RESET_IMU_DISCONNECTED;
     PRIMARY_NODE_RESET_MANUAL_OVERRIDE; PRIMARY_NODE_RESET_RUDDER_ERRORS;
     PRIMARY_NODE_RESET_CALIBRATING;
     PRIMARY_NODE_RESET_GCS_DISCONNECTED; PRIMARY_NODE_RESET_RTB].

(** The same for the ground-station flag. *)
Definition gcsDisconnectedStandsAlone : bool :=
  nonzero PRIMARY_NODE_RESET_GCS_DISCONNECTED
  && sharesNoBit PRIMARY_NODE_RESET_GCS_DISCONNECTED
    [PRIMARY_NODE_RESET_STARTUP; PRIMARY_NODE_STATUS_GPS_INVALID;
     PRIMARY_NODE_RESET_GPS_DISCONNECTED;
     PRIMARY_NODE_RESET_ESTOP_OR_ACS300_DISCON; PRIMARY_NODE_RESET_RUDDER_DISCONNECTED;
     PRIMARY_NODE_RESET_DST800_DISCONNECTED; PRIMARY_NODE_RESET_IMU_DISCONNECTED;
     PRIMARY_NODE_RESET_MANUAL_OVERRIDE; PRIMARY_NODE_RESET_RUDDER_ERRORS;
     PRIMARY_NODE_RESET_CALIBRATING; PRIMARY_NODE_RESET_UNCALIBRATED;
     PRIMARY_NODE_RESET_RTB].

(** From [s] to [s'] the IMU flag and the remembered IMU presence are as
    they were. *)
Definition keepsImu (s s' : State) : Prop :=
  Z.land (nodeErrors s') PRIMARY_NODE_RESET_IMU_DISCONNECTED
  = Z.land (nodeErrors s) PRIMARY_NODE_RESET_IMU_DISCONNECTED
  /\ imuEnabled (lastSensorAvailability s') = imuEnabled (lastSensorAvailability s).

(** From [s] to [s'] the bits [m] of the status word and the system time are
    as they were. *)
Definition sameMode (m : Z) (s s' : State) : Prop :=
  Z.land (nodeStatus s') m = Z.land (nodeStatus s) m
  /\ nodeSystemTime s' = nodeSystemTime s.

End WithHeader.

End PrimaryNodeHelpers.

(* ===================================================================== *)
(** * Properties of mavlink.c                                              *)
(* ===================================================================== *)

Module MavlinkFacts.
Import Mavlink.

(** ** Queue bookkeeping *)

Lemma skipn_length_app {A : Type} (l r : list A) : skipn (length l) (l ++ r) = r.
Proof. induction l as [|a l IH]; simpl; auto. Qed.

Lemma sentBetween_enqueue (s : State) (p : Packet) :
  sentBetween s (uart1EnqueueData p s) = [p].
Proof. unfold sentBetween; simpl. apply skipn_length_app. Qed.

Lemma sentBetween_quiet (s s' : State) : uart1 s' = uart1 s -> sentBetween s s' = [].
Proof.
  intro H. unfold sentBetween. rewrite H.
  pose proof (skipn_length_app (uart1 s) []) as E.
  now rewrite app_nil_r in E.
Qed.

Lemma sentBetween_app (s s' : State) (l : list Packet) :
  uart1 s' = uart1 s ++ l -> sentBetween s s' = l.
Proof. intro H. unfold sentBetween. rewrite H. apply skipn_length_app. Qed.

(** The latch writes the two ground-station ids and nothing else. *)
Lemma latch_frame (msg : mavlink_message_t) (s : State) :
  let s0 := latchGroundStation msg s in
  status s0 = status s /\ mList s0 = mList s /\ uart1 s0 = uart1 s
  /\ mavlinkNewMissionListSize s0 = mavlinkNewMissionListSize s
  /\ parameterProtocolState s0 = parameterProtocolState s
  /\ currentParameter s0 = currentParameter s
  /\ missionProtocolState s0 = missionProtocolState s
  /\ currentMission s0 = currentMission s
  /\ scheduler s0 = scheduler s.
Proof.
  unfold latchGroundStation.
  destruct (negb (nonzero (groundStationSystemId s))
            && negb (nonzero (groundStationComponentId s))); simpl; repeat split.
Qed.

(** ** Mission upload: the count announcement *)

(** C3.  A mission count announcement received while the vehicle is
    autonomous, whatever the count, is answered with a MAV_MISSION_ERROR
    acknowledgment to the sender and leaves the mission store as it was (same
    missions, same size, same expected total).  Received while the vehicle is
    not autonomous, it clears the store and records the announced total. *)
Theorem mission_count_gated_by_autonomy :
  forall (sys comp count : Z) (s : State),
    let msg := mkMessage sys comp (MISSION_COUNT count) in
    let s' := receiveMessage s msg in
    (autonomous s = true ->
       sentBetween s s' = [mission_ack sys comp MAV_MISSION_ERROR]
       /\ mList s' = mList s
       /\ GetMissionCount (mList s') = GetMissionCount (mList s)
       /\ mavlinkNewMissionListSize s' = mavlinkNewMissionListSize s)
    /\ (autonomous s = false ->
       mList s' = ClearMissionList (mList s)
       /\ GetMissionCount (mList s') = 0
       /\ mavlinkNewMissionListSize s' = count)
    /\ (mList s' <> mList s -> autonomous s = false).
Proof.
  intros sys comp count s msg s'.
  destruct (latch_frame msg s) as (Hst & Hml & Hu & Hn & _).
  assert (Hauto : autonomous (latchGroundStation msg s) = autonomous s)
    by (unfold autonomous; now rewrite Hst).
  assert (Hyes : autonomous s = true ->
            s' = uart1EnqueueData (mission_ack sys comp MAV_MISSION_ERROR)
                   (latchGroundStation msg s)).
  { intro Ha. subst s'. unfold receiveMessage, handleMessage; simpl.
    unfold receiveMissionCount. fold (autonomous (latchGroundStation msg s)).
    rewrite Hauto, Ha. reflexivity. }
  split; [|split].
  - intro Ha. rewrite (Hyes Ha). unfold sentBetween; simpl.
    rewrite Hu, skipn_length_app, Hml, Hn. auto.
  - intro Ha. subst s'. unfold receiveMessage, handleMessage; simpl.
    unfold receiveMissionCount. fold (autonomous (latchGroundStation msg s)).
    rewrite Hauto, Ha. cbv zeta.
    repeat match goal with |- context [if ?c then _ else _] => destruct c end;
      simpl; rewrite Hml; auto.
  - intro Hne. destruct (autonomous s) eqn:Ha; auto.
    exfalso. apply Hne. rewrite (Hyes eq_refl). simpl. exact Hml.
Qed.

(** ** Mission upload: the items *)

(** C4.  A mission item whose sequence number differs from the store's current
    size is answered with a MAV_MISSION_INVALID_SEQUENCE acknowledgment and
    changes nothing else; an in-sequence item that meets a full store is
    answered with MAV_MISSION_NO_SPACE and leaves the store as it was; so the
    store changes only for an item whose sequence number is its current
    size. *)
Theorem mission_item_sequence_checked :
  forall (sys comp : Z) (item : mavlink_mission_item_t) (s : State),
    let msg := mkMessage sys comp (MISSION_ITEM item) in
    let s' := receiveMessage s msg in
    (item_seq item <> GetMissionCount (mList s) ->
       s' = uart1EnqueueData (mission_ack sys comp MAV_MISSION_INVALID_SEQUENCE)
              (latchGroundStation msg s)
       /\ sentBetween s s' = [mission_ack sys comp MAV_MISSION_INVALID_SEQUENCE]
       /\ mList s' = mList s)
    /\ (item_seq item = GetMissionCount (mList s) ->
        maxSize (mList s) <= Z.of_nat (length (missions (mList s))) ->
       sentBetween s s' = [mission_ack sys comp MAV_MISSION_NO_SPACE]
       /\ mList s' = mList s)
    /\ (mList s' <> mList s -> item_seq item = GetMissionCount (mList s)).
Proof.
  intros sys comp item s msg s'.
  destruct (latch_frame msg s) as (Hst & Hml & Hu & Hn & _).
  assert (Hbad : item_seq item <> GetMissionCount (mList s) ->
            s' = uart1EnqueueData (mission_ack sys comp MAV_MISSION_INVALID_SEQUENCE)
                   (latchGroundStation msg s)).
  { intro Hne. subst s'. unfold receiveMessage, handleMessage; simpl.
    unfold receiveMissionItem. rewrite Hml.
    destruct (GetMissionCount (mList s) =? item_seq item) eqn:E; [|reflexivity].
    apply Z.eqb_eq in E. congruence. }
  split; [|split].
  - intro Hne. split; [exact (Hbad Hne)|].
    rewrite (Hbad Hne). unfold sentBetween; simpl.
    rewrite Hu, skipn_length_app. auto.
  - intros Heq Hfull. subst s'. unfold receiveMessage, handleMessage; simpl.
    unfold receiveMissionItem. rewrite Hml.
    rewrite Heq, Z.eqb_refl. unfold AppendMission.
    destruct (Z.of_nat (length (missions (mList s))) <? maxSize (mList s)) eqn:E.
    + apply Z.ltb_lt in E. lia.
    + simpl. unfold sentBetween; simpl. rewrite Hu, skipn_length_app. auto.
  - intro Hch. destruct (Z.eq_dec (item_seq item) (GetMissionCount (mList s))) as [E|E]; auto.
    exfalso. apply Hch. rewrite (Hbad E). simpl. exact Hml.
Qed.

(** ** Parameter writes *)

Lemma bit_set (x n : Z) : 0 <= n -> nonzero (Z.land (Z.lor x (Z.shiftl 1 n)) (Z.shiftl 1 n)) = true.
Proof.
  intro Hn. unfold nonzero. apply negb_true_iff, Z.eqb_neq. intro H.
  apply (f_equal (fun z => Z.testbit z n)) in H.
  rewrite Z.land_spec, Z.lor_spec, Z.shiftl_spec, Z.sub_diag in H by assumption.
  rewrite Z.bits_0 in H. simpl in H. rewrite orb_true_r in H. discriminate.
Qed.

Lemma bit_cleared (x n : Z) : nonzero (Z.land (Z.land x (Z.lnot (Z.shiftl 1 n))) (Z.shiftl 1 n)) = false.
Proof.
  unfold nonzero. apply negb_false_iff, Z.eqb_eq.
  rewrite <- Z.land_assoc, (Z.land_comm (Z.lnot _)), Z.land_lnot_diag.
  apply Z.land_0_r.
Qed.

(** What a write to registry entry [(name, n)] leaves behind. *)
Lemma setParameterBit_spec (n : Z) (name : string) (data : float) (s : State) :
  0 <= n ->
  let s1 := setParameterBit n (_transmitParameter n name) data s in
  nonzero (Z.land (status s1) (Z.shiftl 1 n)) = nonzero data
  /\ currentParameter s1 = n
  /\ uart1 s1 = uart1 s ++ [param_value name (if nonzero data then 1 else 0) parameterCount n]
  /\ parameterProtocolState s1 = parameterProtocolState s.
Proof.
  intros Hn. unfold setParameterBit, _transmitParameter.
  destruct (nonzero data); simpl.
  - rewrite bit_set by assumption. auto.
  - rewrite bit_cleared. auto.
Qed.

(** C7, as the code has it.  While the parameter protocol is Inactive, a
    parameter-set request naming registry entry [(name, n)] writes the value
    (as a truth value) to bit [n] of the status word, makes [n] the current
    parameter, enqueues one PARAM_VALUE frame carrying the new value at once,
    and moves the protocol to SingleStart; a request naming no registry entry
    leaves the status word and the current parameter alone and enqueues
    nothing, but still moves the protocol to SingleStart; a request received
    in any other protocol state changes nothing at all. *)
Theorem param_set_behaviour :
  forall (name : string) (data : float) (s : State),
    let s' := receiveParamSet name data s in
    (parameterProtocolState s = PARAM_STATE_INACTIVE ->
       forall n, In (name, n) parameterRegistry ->
         nonzero (Z.land (status s') (Z.shiftl 1 n)) = nonzero data
         /\ currentParameter s' = n
         /\ sentBetween s s' = [param_value name (if nonzero data then 1 else 0) parameterCount n]
         /\ parameterProtocolState s' = PARAM_STATE_SINGLETON_TRANSMIT_START)
    /\ (parameterProtocolState s = PARAM_STATE_INACTIVE ->
        (forall n, ~ In (name, n) parameterRegistry) ->
         s' = set_parameterProtocolState PARAM_STATE_SINGLETON_TRANSMIT_START s
         /\ status s' = status s
         /\ currentParameter s' = currentParameter s
         /\ sentBetween s s' = [])
    /\ (parameterProtocolState s <> PARAM_STATE_INACTIVE -> s' = s).
Proof.
  intros name data s s'. subst s'. unfold receiveParamSet.
  split; [|split].
  - intros Hin n Hreg. rewrite Hin.
    assert (Hcase :
      forall send, send = _transmitParameter n name ->
        let s1 := set_parameterProtocolState PARAM_STATE_SINGLETON_TRANSMIT_START
                    (setParameterBit n send data s) in
        nonzero (Z.land (status s1) (Z.shiftl 1 n)) = nonzero data
        /\ currentParameter s1 = n
        /\ sentBetween s s1 = [param_value name (if nonzero data then 1 else 0) parameterCount n]
        /\ parameterProtocolState s1 = PARAM_STATE_SINGLETON_TRANSMIT_START).
    { intros send ->. 
      assert (H0 : 0 <= n)
        by (simpl in Hreg; intuition (match goal with H : (_, _) = (_, _) |- _ => inversion H end; lia)).
      destruct (setParameterBit_spec n name data s H0) as (Hb & Hc & Hu & _).
      cbv zeta. unfold sentBetween, set_parameterProtocolState.
      cbn [uart1 status currentParameter parameterProtocolState].
      rewrite Hu, skipn_length_app. auto. }
    simpl in Hreg.
    destruct Hreg as [E|[E|[E|[E|[]]]]]; inversion E; subst name n; simpl String.eqb; cbv iota;
      apply Hcase; reflexivity.
  - intros Hin Hno. rewrite Hin.
    assert (E0 : String.eqb name "MODE_AUTO" = false).
    { apply String.eqb_neq. intro; subst. apply (Hno 0). simpl; auto. }
    assert (E1 : String.eqb name "MODE_HIL" = false).
    { apply String.eqb_neq. intro; subst. apply (Hno 1). simpl; auto. }
    assert (E2 : String.eqb name "MODE_HILSENSE" = false).
    { apply String.eqb_neq. intro; subst. apply (Hno 2). simpl; auto. }
    assert (E3 : String.eqb name "MODE_RCDISCON" = false).
    { apply String.eqb_neq. intro; subst. apply (Hno 3). simpl; auto. }
    rewrite E0, E1, E2, E3. cbv zeta. simpl.
    repeat split. now apply sentBetween_quiet.
  - intro Hne. destruct (parameterProtocolState s); congruence.
Qed.

(** ** The transmit pass with an idle scheduler *)

Lemma uart1EnqueueAll_nil (s : State) : uart1EnqueueAll [] s = s.
Proof. destruct s; unfold uart1EnqueueAll; simpl. now rewrite app_nil_r. Qed.

Lemma uart1EnqueueAll_cons (p : Packet) (l : list Packet) (s : State) :
  uart1EnqueueAll l (uart1EnqueueData p s) = uart1EnqueueAll (p :: l) s.
Proof. unfold uart1EnqueueAll, uart1EnqueueData; simpl. now rewrite <- app_assoc. Qed.

(** Periodic telemetry only appends its frames. *)
Lemma transmit_telemetry (l : list MsgId) :
  forallb is_telemetry l = true ->
  forall s, fold_left transmitMessage l s = uart1EnqueueAll (map telemetryPacket l) s.
Proof.
  induction l as [|id l IH]; intros Hl s.
  - simpl. now rewrite uart1EnqueueAll_nil.
  - simpl in Hl. apply andb_true_iff in Hl as [Hid Hl].
    simpl fold_left. rewrite (IH Hl).
    destruct id; try discriminate Hid; simpl transmitMessage;
      now rewrite uart1EnqueueAll_cons.
Qed.

Lemma due_telemetry (t : Z) (regs : list MessageRegistration) :
  forallb (fun r => is_telemetry (reg_id r)) regs = true ->
  forallb is_telemetry (map reg_id (filter (is_due t) regs)) = true.
Proof.
  induction regs as [|r regs IH]; simpl; auto.
  intro H. apply andb_true_iff in H as [Hr H].
  destruct (is_due t r); simpl; auto. now rewrite Hr, IH.
Qed.

Lemma advance_telemetry (t : Z) (regs : list MessageRegistration) :
  forallb (fun r => is_telemetry (reg_id r)) regs = true ->
  forallb (fun r => is_telemetry (reg_id r)) (map (advance_due t) regs) = true.
Proof.
  induction regs as [|r regs IH]; simpl; auto.
  intro H. apply andb_true_iff in H as [Hr H].
  rewrite (IH H), andb_true_r. unfold advance_due. now destruct (is_due t r).
Qed.

Lemma paramIndices_app (l r : list Packet) :
  paramIndices (l ++ r) = paramIndices l ++ paramIndices r.
Proof.
  induction l as [|p l IH]; simpl; auto.
  destruct p; simpl; auto. now rewrite IH.
Qed.

Lemma paramIndices_telemetry (l : list MsgId) :
  paramIndices (map telemetryPacket l) = [].
Proof. induction l as [|id l IH]; simpl; auto. now destruct id. Qed.

Lemma filter_mission_telemetry (l : list MsgId) :
  filter isMissionPacket (map telemetryPacket l) = [].
Proof. induction l as [|id l IH]; simpl; auto. now destruct id. Qed.

(** The two protocol switches only ever add to the transient queue. *)
Lemma switches_scheduler (s : State) :
  let s1 := transmitMissionProtocol (transmitParameterProtocol s) in
  now (scheduler s1) = now (scheduler s)
  /\ periodic (scheduler s1) = periodic (scheduler s).
Proof.
  unfold transmitMissionProtocol, transmitParameterProtocol.
  destruct (parameterProtocolState s);
    repeat match goal with
           | |- context [if ?c then _ else _] => destruct c
           | |- context [match missionProtocolState ?x with _ => _ end] =>
               destruct (missionProtocolState x)
           end; simpl; auto.
Qed.

(** With an idle scheduler the pass is: the two switches, the due telemetry,
    then whatever the switches queued. *)
Lemma transmit_idle (s : State) :
  schedulerIdle (scheduler s) = true ->
  let s1 := transmitMissionProtocol (transmitParameterProtocol s) in
  let t := now (scheduler s) + 1 in
  MavLinkTransmit s =
    fold_left transmitMessage (transients (scheduler s1))
      (uart1EnqueueAll
         (map telemetryPacket (map reg_id (filter (is_due t) (periodic (scheduler s)))))
         (set_scheduler
            (mkScheduler t (map (advance_due t) (periodic (scheduler s))) []) s1)).
Proof.
  intros Hidle s1 t. unfold MavLinkTransmit. fold s1.
  destruct (switches_scheduler s) as [Hnow Hper]. fold s1 in Hnow, Hper.
  unfold IncrementTimestep. rewrite Hnow, Hper. fold t.
  rewrite fold_left_app. f_equal.
  apply transmit_telemetry, due_telemetry.
  unfold schedulerIdle in Hidle. now destruct (transients (scheduler s)).
Qed.

(** Symbolic execution of the state functions on a state given field by field:
    the fields first, then the tests the switches branch on, then the queued
    messages one by one. *)
Ltac run_fields :=
  cbv beta iota zeta delta
    [transmitParameterProtocol transmitMissionProtocol parameterProtocolState
     missionProtocolState set_parameterProtocolState set_scheduler scheduler
     set_currentParameter set_delayCountdown set_missionProtocolState
     set_currentMission set_missionProtocolRequestCounter uart1EnqueueAll
     uart1EnqueueData AddTransientMessage now periodic transients
     currentParameter delayCountdown missionProtocolRequestCounter
     status groundStationSystemId groundStationComponentId currentMission
     mavlinkNewMissionListSize mList uart1
     MavLinkMissionProtocolSend MavLinkMissionItemSend
     _transmitParameter0 _transmitParameter1 _transmitParameter2 _transmitParameter3
     _transmitParameter paramView missionView fst snd IncrementTimestep].

Ltac split_with tac :=
  repeat (first
            [ match goal with
              | H : ?c = _ |- context [if ?c then _ else _] => rewrite H
              | H : GetMission ?a ?b = _
                |- context [match GetMission ?a ?b with _ => _ end] => rewrite H
              end
            | match goal with
              | |- context [if ?a <? ?b then _ else _] => destruct (a <? b) eqn:?
              | |- context [if ?a =? ?b then _ else _] => destruct (a =? b) eqn:?
              | |- context [if ?a >? ?b then _ else _] => destruct (a >? b) eqn:?
              | |- context [match GetMission ?a ?b with _ => _ end] =>
                  destruct (GetMission a b) eqn:?
              end ]; tac).

(** The innermost queued messages, once the state they meet is known. *)
Ltac step_message :=
  match goal with
  | |- context [transmitMessage ?s ?id] =>
      lazymatch s with
      | mkState _ _ _ _ _ _ _ _ _ _ _ _ _ =>
          let x := constr:(transmitMessage s id) in
          let y := eval cbv beta iota zeta delta [transmitMessage] in x in
          change x with y
      end
  end.

Ltac run_state :=
  run_fields; split_with run_fields;
  cbn [app fold_left map filter];
  repeat (step_message; repeat step_message; run_fields; split_with run_fields).

(** The parameter protocol runs on its own three variables: a pass changes
    them, and sends parameters, exactly as it does in a state that holds
    nothing else.  The scheduler is idle again after the pass. *)
Lemma transmit_param_alone (s : State) :
  schedulerIdle (scheduler s) = true ->
  let s' := MavLinkTransmit s in
  schedulerIdle (scheduler s') = true
  /\ (paramView s', paramIndices (sentBetween s s')) = parameterPass (paramView s).
Proof.
  intros Hidle s'. subst s'. rewrite (transmit_idle s Hidle).
  destruct s as [st gs gc cp ps cm ms dc mc nl ml [t regs tr] u].
  unfold schedulerIdle in Hidle. cbn [scheduler transients periodic] in Hidle.
  destruct tr as [|? ?]; [|discriminate].
  pose proof (advance_telemetry (t + 1) regs Hidle) as Hadv.
  unfold parameterPass, sentBetween. cbn [uart1 paramView parameterProtocolState currentParameter delayCountdown].
  unfold paramOnly, MavLinkTransmit.
  match goal with
  | |- context [schedulerIdle (scheduler ?L)] => remember L as l eqn:El
  end.
  match goal with
  | |- context [paramIndices (uart1 ?R)] => remember R as r eqn:Er
  end.
  revert El Er.
  destruct ps; destruct ms; run_state; intros -> ->.
  all: (split; [exact Hadv|]).
  all: cbn [paramView parameterProtocolState currentParameter delayCountdown uart1].
  all: rewrite <- ?app_assoc, skipn_length_app, ?paramIndices_app, paramIndices_telemetry.
  all: try reflexivity.
Qed.

Lemma filter_mission_app (l r : list Packet) :
  filter isMissionPacket (l ++ r) = filter isMissionPacket l ++ filter isMissionPacket r.
Proof. apply filter_app. Qed.

(** The mission download protocol runs on its own variables, the store and
    the latched ground-station ids; the pass leaves the store, the
    ground-station ids, the status word and the expected upload total alone. *)
Lemma transmit_mission_alone (s : State) :
  schedulerIdle (scheduler s) = true ->
  let s' := MavLinkTransmit s in
  (missionView s', filter isMissionPacket (sentBetween s s'))
    = missionPass (missionView s) (mList s)
        (groundStationSystemId s) (groundStationComponentId s)
  /\ mList s' = mList s
  /\ groundStationSystemId s' = groundStationSystemId s
  /\ groundStationComponentId s' = groundStationComponentId s
  /\ status s' = status s
  /\ mavlinkNewMissionListSize s' = mavlinkNewMissionListSize s.
Proof.
  intros Hidle s'. subst s'. rewrite (transmit_idle s Hidle).
  destruct s as [st gs gc cp ps cm ms dc mc nl ml [t regs tr] u].
  unfold schedulerIdle in Hidle. cbn [scheduler transients periodic] in Hidle.
  destruct tr as [|? ?]; [|discriminate].
  unfold missionPass, sentBetween.
  cbn [uart1 missionView missionProtocolState currentMission
       missionProtocolRequestCounter mList groundStationSystemId
       groundStationComponentId status mavlinkNewMissionListSize].
  unfold missionOnly, MavLinkTransmit.
  match goal with
  | |- context [skipn _ (uart1 ?L)] => remember L as l eqn:El
  end.
  match goal with
  | |- context [(_, uart1 ?R)] => remember R as r eqn:Er
  end.
  revert El Er.
  destruct ps; destruct ms; run_state; intros -> ->.
  all: cbn [missionView missionProtocolState currentMission
            missionProtocolRequestCounter mList groundStationSystemId
            groundStationComponentId status mavlinkNewMissionListSize uart1].
  all: rewrite <- ?app_assoc, skipn_length_app, ?filter_mission_app, filter_mission_telemetry.
  all: cbn [filter isMissionPacket app].
  all: repeat split.
Qed.

(** ** The parameter stream *)

Lemma transmitPasses_S (n : nat) (s : State) :
  transmitPasses (S n) s = MavLinkTransmit (transmitPasses n s).
Proof.
  revert s. induction n as [|n IH]; intro s; [reflexivity|].
  change (transmitPasses (S (S n)) s) with (transmitPasses (S n) (MavLinkTransmit s)).
  now rewrite IH.
Qed.

Lemma passes_param (n : nat) (s : State) :
  schedulerIdle (scheduler s) = true ->
  schedulerIdle (scheduler (transmitPasses n s)) = true
  /\ paramView (transmitPasses n s) = paramViewAfter n (paramView s).
Proof.
  intro Hidle. induction n as [|n [IHi IHv]]; [now split|].
  rewrite transmitPasses_S.
  pose proof (transmit_param_alone _ IHi) as H. cbv zeta in H.
  destruct H as [Hi Hv]. split; [exact Hi|].
  cbn [paramViewAfter]. rewrite <- IHv, <- Hv. reflexivity.
Qed.

Lemma paramViewAfter_shift (n : nat) (v : ParamView) :
  paramViewAfter (S n) v = paramViewAfter n (fst (parameterPass v)).
Proof. induction n as [|n IH]; [reflexivity|]. cbn [paramViewAfter] in *. now rewrite IH. Qed.

Lemma paramViewAfter_add (n m : nat) (v : ParamView) :
  paramViewAfter (n + m) v = paramViewAfter n (paramViewAfter m v).
Proof. induction n as [|n IH]; [reflexivity|]. cbn [paramViewAfter Nat.add]. now rewrite IH. Qed.

(** Once the stream is over the protocol rests. *)
Lemma stream_rest (n : nat) :
  paramViewAfter n (PARAM_STATE_INACTIVE, 4, 0) = (PARAM_STATE_INACTIVE, 4, 0).
Proof. induction n as [|n IH]; [reflexivity|]. cbn [paramViewAfter]. rewrite IH. reflexivity. Qed.

(** The stream, pass by pass, from the first pass in StreamParam. *)
Lemma stream_views (k : nat) :
  let v := paramViewAfter k (PARAM_STATE_STREAM_TRANSMIT_PARAM, 0, 0) in
  snd (parameterPass v) = streamSchedule (S k)
  /\ (fst (fst v) = PARAM_STATE_INACTIVE <-> (45 <= k)%nat).
Proof.
  destruct (Nat.lt_ge_cases k 45) as [Hk|Hk].
  - do 45 (destruct k as [|k];
           [vm_compute; split; [reflexivity|split; [discriminate|lia]]|]).
    exfalso; lia.
  - assert (E : k = ((k - 45) + 45)%nat) by lia.
    revert E. generalize (k - 45)%nat as j. intros j ->.
    cbv zeta. rewrite paramViewAfter_add.
    replace (paramViewAfter 45 (PARAM_STATE_STREAM_TRANSMIT_PARAM, 0, 0))
      with (PARAM_STATE_INACTIVE, 4, 0) by (vm_compute; reflexivity).
    rewrite stream_rest. split.
    + replace (S (j + 45)) with (46 + j)%nat by lia. reflexivity.
    + split; [intros _; lia|reflexivity].
Qed.
(** C6.  A parameter stream request received while the parameter protocol is
    Inactive (parameter count 4) makes the following transmit passes send
    parameter 0 in pass 1, parameter 1 in pass 12, parameter 2 in pass 23 and
    parameter 3 in pass 34 (passes counted from 0, ten passes between two
    sends) and nothing else of the parameter protocol; the protocol is back
    in Inactive from pass 46 on and not before.  A stream request received in
    any other protocol state changes nothing but the ground-station latch. *)
Theorem param_stream_schedule :
  forall (sys comp : Z),
    let msg := mkMessage sys comp PARAM_REQUEST_LIST in
    (forall s : State,
       schedulerIdle (scheduler s) = true ->
       parameterProtocolState s = PARAM_STATE_INACTIVE ->
       delayCountdown s = 0 ->
       let s0 := receiveMessage s msg in
       (forall n : nat,
          paramIndices (sentBetween (transmitPasses n s0) (transmitPasses (S n) s0))
            = streamSchedule n)
       /\ (forall n : nat,
          parameterProtocolState (transmitPasses n s0) = PARAM_STATE_INACTIVE
            <-> (46 <= n)%nat))
    /\ (forall s : State,
       parameterProtocolState s <> PARAM_STATE_INACTIVE ->
       handleMessage msg s = s
       /\ receiveMessage s msg = latchGroundStation msg s).
Proof.
  intros sys comp msg. split.
  - intros s Hidle Hin Hdc s0.
    destruct (latch_frame msg s) as (_ & _ & _ & _ & Hps & Hcp & _ & _ & Hsch).
    assert (Hdc0 : delayCountdown (latchGroundStation msg s) = delayCountdown s).
    { unfold latchGroundStation.
      now destruct (negb (nonzero (groundStationSystemId s))
                    && negb (nonzero (groundStationComponentId s))). }
    assert (Hs0 : s0 = set_parameterProtocolState PARAM_STATE_STREAM_TRANSMIT_START
                         (latchGroundStation msg s)).
    { subst s0. unfold receiveMessage, handleMessage. simpl payload. cbv iota.
      now rewrite Hps, Hin. }
    assert (Hidle0 : schedulerIdle (scheduler s0) = true).
    { rewrite Hs0. simpl. now rewrite Hsch. }
    assert (Hv0 : paramView s0
                  = (PARAM_STATE_STREAM_TRANSMIT_START, currentParameter s, 0)).
    { rewrite Hs0. unfold paramView. simpl. now rewrite Hcp, Hdc0, Hdc. }
    assert (Hview : forall n,
              paramView (transmitPasses (S n) s0)
              = paramViewAfter n (PARAM_STATE_STREAM_TRANSMIT_PARAM, 0, 0)).
    { intro n. destruct (passes_param (S n) s0 Hidle0) as [_ ->].
      rewrite paramViewAfter_shift, Hv0. reflexivity. }
    split.
    + intro n. rewrite transmitPasses_S.
      destruct (passes_param n s0 Hidle0) as [Hi Hv].
      pose proof (transmit_param_alone _ Hi) as H. cbv zeta in H.
      destruct H as [_ H]. apply (f_equal snd) in H. cbn [snd] in H.
      rewrite H. destruct n as [|k].
      * change (transmitPasses 0 s0) with s0. rewrite Hv0. reflexivity.
      * rewrite Hview. apply stream_views.
    + intro n. destruct n as [|k].
      * change (transmitPasses 0 s0) with s0.
        apply (f_equal (fun v => fst (fst v))) in Hv0.
        change (fst (fst (paramView s0))) with (parameterProtocolState s0) in Hv0.
        cbn [fst] in Hv0. rewrite Hv0. split; [discriminate|lia].
      * pose proof (Hview k) as Hk.
        apply (f_equal (fun v => fst (fst v))) in Hk.
        change (fst (fst (paramView (transmitPasses (S k) s0))))
          with (parameterProtocolState (transmitPasses (S k) s0)) in Hk.
        rewrite Hk. destruct (stream_views k) as [_ Hiff]. cbv zeta in Hiff.
        rewrite Hiff. lia.
  - intros s Hne.
    assert (H : handleMessage msg (latchGroundStation msg s) = latchGroundStation msg s).
    { destruct (latch_frame msg s) as (_ & _ & _ & _ & Hps & _).
      unfold handleMessage. simpl payload. cbv iota. rewrite Hps.
      destruct (parameterProtocolState s); congruence. }
    split; [|exact H].
    unfold handleMessage. simpl payload. cbv iota.
    destruct (parameterProtocolState s); congruence.
Qed.

(** The stream, run from power-up with room for eight missions. *)
Lemma param_stream_schedule_witness :
  let s0 := receiveMessage (initialState 8) (mkMessage 255 0 PARAM_REQUEST_LIST) in
  (forall n : nat,
     paramIndices (sentBetween (transmitPasses n s0) (transmitPasses (S n) s0))
       = streamSchedule n)
  /\ (forall n : nat,
     parameterProtocolState (transmitPasses n s0) = PARAM_STATE_INACTIVE
       <-> (46 <= n)%nat).
Proof.
  exact (proj1 (param_stream_schedule 255 0) (initialState 8)
           eq_refl eq_refl eq_refl).
Defined.

(** ** Mission download *)

Lemma passes_idle (n : nat) (s : State) :
  schedulerIdle (scheduler s) = true ->
  schedulerIdle (scheduler (transmitPasses n s)) = true.
Proof. intro H. apply (passes_param n s H). Qed.

Lemma missionPass_start (cm mc : Z) (ml : MissionList) (gs gc : Z) :
  missionPass (MISSION_STATE_REQUEST_LIST_START, cm, mc) ml gs gc
  = ((MISSION_STATE_REQUEST_LIST_COUNTDOWN, 0, 0),
     [mission_count gs gc (GetMissionCount ml)]).
Proof. reflexivity. Qed.

Lemma missionPass_countdown (cm mc : Z) (ml : MissionList) (gs gc : Z) :
  missionPass (MISSION_STATE_REQUEST_LIST_COUNTDOWN, cm, mc) ml gs gc
  = (if mc >? 20
     then (MISSION_STATE_INACTIVE, cm, 0)
     else (MISSION_STATE_REQUEST_LIST_COUNTDOWN, cm, uint8 (mc + 1)), []).
Proof.
  unfold missionPass, missionOnly, MavLinkTransmit, transmitMissionProtocol.
  cbn [transmitParameterProtocol parameterProtocolState missionProtocolState
       missionProtocolRequestCounter].
  now destruct (mc >? 20).
Qed.

Lemma missionPass_response (cm mc : Z) (ml : MissionList) (gs gc : Z) (m : Mission) :
  GetMission cm ml = Some m ->
  missionPass (MISSION_STATE_REQUEST_LIST_RESPONSE, cm, mc) ml gs gc
  = ((MISSION_STATE_REQUEST_LIST_COUNTDOWN, uint8 (cm + 1), 0),
     [mission_item gs gc cm m (cm =? uint8 (GetCurrentMission ml))]).
Proof.
  intro H. unfold missionPass, missionOnly, MavLinkTransmit. 
  cbn [transmitParameterProtocol transmitMissionProtocol parameterProtocolState
       missionProtocolState set_missionProtocolState set_scheduler scheduler
       AddTransientMessage IncrementTimestep now periodic transients
       app map filter fold_left transmitMessage].
  unfold MavLinkMissionItemSend.
  cbn [currentMission mList set_missionProtocolState set_scheduler]. rewrite H.
  reflexivity.
Qed.

(** The countdown: [n] passes without a request leave the protocol counting,
    as long as [n] is at most 21. *)
Lemma countdown_passes (s : State) (n : nat) :
  schedulerIdle (scheduler s) = true ->
  missionProtocolState s = MISSION_STATE_REQUEST_LIST_COUNTDOWN ->
  missionProtocolRequestCounter s = 0 ->
  (n <= 21)%nat ->
  missionView (transmitPasses n s)
  = (MISSION_STATE_REQUEST_LIST_COUNTDOWN, currentMission s, Z.of_nat n).
Proof.
  intros Hidle Hst Hmc. induction n as [|n IH]; intro Hn.
  - unfold missionView. simpl. now rewrite Hst, Hmc.
  - rewrite transmitPasses_S.
    pose proof (transmit_mission_alone _ (passes_idle n s Hidle)) as H.
    cbv zeta in H. destruct H as (H & _).
    apply (f_equal fst) in H. cbn [fst] in H. rewrite H, IH by lia.
    rewrite missionPass_countdown. cbn [fst].
    destruct (Z.of_nat n >? 20) eqn:E; [apply Z.gtb_lt in E; lia|].
    unfold uint8. rewrite Z.mod_small by lia. f_equal. lia.
Qed.

(** Whatever the pass does, it leaves the store, the status word, the expected
    upload total and the latched ids alone. *)
Lemma passes_frame (n : nat) (s : State) :
  schedulerIdle (scheduler s) = true ->
  let sn := transmitPasses n s in
  mList sn = mList s /\ status sn = status s
  /\ mavlinkNewMissionListSize sn = mavlinkNewMissionListSize s
  /\ groundStationSystemId sn = groundStationSystemId s
  /\ groundStationComponentId sn = groundStationComponentId s.
Proof.
  intro Hidle. induction n as [|n IH]; [cbv zeta; simpl; auto|].
  cbv zeta in *. rewrite transmitPasses_S.
  pose proof (transmit_mission_alone _ (passes_idle n s Hidle)) as H.
  cbv zeta in H. destruct H as (_ & H1 & H2 & H3 & H4 & H5).
  destruct IH as (I1 & I2 & I3 & I4 & I5).
  rewrite H1, H2, H3, H4, H5. auto.
Qed.

(** C8.  A mission list request is taken only in Inactive: any other state
    ignores it.  Taken, it moves the protocol to ListStart; the next transmit
    pass sends the count announcement (the store's size, to the latched ground
    station), resets the serve index and moves to ListCountdown.  Left alone,
    the protocol is still in ListCountdown after each of the next 21 passes
    and is back in Inactive after the 22nd (the counter must exceed 20), with
    the counter reset.  None of these countdown passes sends a mission frame,
    and none changes the store, the serve index, the status word or the
    expected upload total. *)
Theorem mission_list_request_times_out :
  forall (sys comp : Z) (s : State),
    let msg := mkMessage sys comp MISSION_REQUEST_LIST in
    let s0 := receiveMessage s msg in
    let s1 := MavLinkTransmit s0 in
    (missionProtocolState s <> MISSION_STATE_INACTIVE ->
       s0 = latchGroundStation msg s)
    /\ (missionProtocolState s = MISSION_STATE_INACTIVE ->
        schedulerIdle (scheduler s) = true ->
        s0 = set_missionProtocolState MISSION_STATE_REQUEST_LIST_START
               (latchGroundStation msg s)
        /\ filter isMissionPacket (sentBetween s0 s1)
           = [mission_count (groundStationSystemId s0) (groundStationComponentId s0)
                (GetMissionCount (mList s))]
        /\ (forall n : nat, (n <= 21)%nat ->
              missionView (transmitPasses n s1)
              = (MISSION_STATE_REQUEST_LIST_COUNTDOWN, 0, Z.of_nat n))
        /\ missionView (transmitPasses 22 s1) = (MISSION_STATE_INACTIVE, 0, 0)
        /\ (forall n : nat, (n < 22)%nat ->
              filter isMissionPacket
                (sentBetween (transmitPasses n s1) (transmitPasses (S n) s1)) = [])
        /\ (forall n : nat,
              let sn := transmitPasses n s1 in
              mList sn = mList s /\ status sn = status s
              /\ mavlinkNewMissionListSize sn = mavlinkNewMissionListSize s)).
Proof.
  intros sys comp s msg s0 s1.
  destruct (latch_frame msg s) as (Hst & Hml & Hu & Hn & Hps & Hcp & Hms & Hcm & Hsch).
  split.
  - intro Hne. subst s0. unfold receiveMessage, handleMessage. simpl payload. cbv iota.
    rewrite Hms. destruct (missionProtocolState s); congruence.
  - intros Hin Hidle.
    assert (Hs0 : s0 = set_missionProtocolState MISSION_STATE_REQUEST_LIST_START
                         (latchGroundStation msg s)).
    { subst s0. unfold receiveMessage, handleMessage. simpl payload. cbv iota.
      now rewrite Hms, Hin. }
    assert (Hidle0 : schedulerIdle (scheduler s0) = true).
    { rewrite Hs0. simpl. now rewrite Hsch. }
    assert (Hml0 : mList s0 = mList s) by (rewrite Hs0; simpl; exact Hml).
    assert (Hst0 : status s0 = status s) by (rewrite Hs0; simpl; exact Hst).
    assert (Hn0 : mavlinkNewMissionListSize s0 = mavlinkNewMissionListSize s)
      by (rewrite Hs0; simpl; exact Hn).
    assert (Hv0 : missionView s0
                  = (MISSION_STATE_REQUEST_LIST_START, currentMission s0,
                     missionProtocolRequestCounter s0)).
    { rewrite Hs0. reflexivity. }
    pose proof (transmit_mission_alone s0 Hidle0) as H. cbv zeta in H. fold s1 in H.
    destruct H as (H & F1 & _ & _ & F4 & F5).
    rewrite Hv0, missionPass_start in H. injection H as Hstate Hcm1 Hmc1 Hsent.
    pose proof (transmit_param_alone s0 Hidle0) as Hp. cbv zeta in Hp. fold s1 in Hp.
    destruct Hp as [Hidle1 _].
    assert (Hcount : forall n, (n <= 21)%nat ->
              missionView (transmitPasses n s1)
              = (MISSION_STATE_REQUEST_LIST_COUNTDOWN, 0, Z.of_nat n)).
    { intros n Hle. rewrite (countdown_passes s1 n Hidle1 Hstate Hmc1 Hle).
      now rewrite Hcm1. }
    split; [exact Hs0|]. split; [now rewrite Hsent, Hml0|]. split; [exact Hcount|].
    assert (Hstep : forall n, (n <= 21)%nat ->
              (missionView (transmitPasses (S n) s1),
               filter isMissionPacket
                 (sentBetween (transmitPasses n s1) (transmitPasses (S n) s1)))
              = (if Z.of_nat n >? 20
                 then (MISSION_STATE_INACTIVE, 0, 0)
                 else (MISSION_STATE_REQUEST_LIST_COUNTDOWN, 0, uint8 (Z.of_nat n + 1)),
                 [])).
    { intros n Hle. rewrite transmitPasses_S.
      pose proof (transmit_mission_alone _ (passes_idle n s1 Hidle1)) as Hm.
      cbv zeta in Hm. destruct Hm as (Hm & _).
      rewrite Hm, (Hcount n Hle). apply missionPass_countdown. }
    split; [|split].
    + pose proof (Hstep 21%nat (Nat.le_refl _)) as H21.
      apply (f_equal fst) in H21. exact H21.
    + intros n Hlt. assert (Hle : (n <= 21)%nat) by lia.
      pose proof (Hstep n Hle) as Hn'. apply (f_equal snd) in Hn'. exact Hn'.
    + intro n. cbv zeta.
      destruct (passes_frame n s1 Hidle1) as (P1 & P2 & P3 & _).
      rewrite P1, P2, P3, F1, F4, F5. auto.
Qed.
(** C8 at power-up (empty store, no ground station latched yet). *)
Lemma mission_list_request_times_out_witness :
  let msg := mkMessage 255 0 MISSION_REQUEST_LIST in
  let s0 := receiveMessage (initialState 8) msg in
  let s1 := MavLinkTransmit s0 in
  s0 = set_missionProtocolState MISSION_STATE_REQUEST_LIST_START
         (latchGroundStation msg (initialState 8))
  /\ filter isMissionPacket (sentBetween s0 s1)
     = [mission_count (groundStationSystemId s0) (groundStationComponentId s0)
          (GetMissionCount (mList (initialState 8)))]
  /\ (forall n : nat, (n <= 21)%nat ->
        missionView (transmitPasses n s1)
        = (MISSION_STATE_REQUEST_LIST_COUNTDOWN, 0, Z.of_nat n))
  /\ missionView (transmitPasses 22 s1) = (MISSION_STATE_INACTIVE, 0, 0)
  /\ (forall n : nat, (n < 22)%nat ->
        filter isMissionPacket
          (sentBetween (transmitPasses n s1) (transmitPasses (S n) s1)) = [])
  /\ (forall n : nat,
        let sn := transmitPasses n s1 in
        mList sn = mList (initialState 8) /\ status sn = status (initialState 8)
        /\ mavlinkNewMissionListSize sn = mavlinkNewMissionListSize (initialState 8)).
Proof.
  exact (proj2 (mission_list_request_times_out 255 0 (initialState 8)) eq_refl eq_refl).
Defined.



(** ** Mission upload, item by item *)










(** ** The properties above at concrete inputs *)

(** C3 for an autonomous vehicle at power-up and an announcement of five. *)
Lemma mission_count_gated_by_autonomy_witness :
  let s := set_status 1 (initialState 8) in
  let s' := receiveMessage s (mkMessage 255 0 (MISSION_COUNT 5)) in
  sentBetween s s' = [mission_ack 255 0 MAV_MISSION_ERROR]
  /\ mList s' = mList s
  /\ GetMissionCount (mList s') = GetMissionCount (mList s)
  /\ mavlinkNewMissionListSize s' = mavlinkNewMissionListSize s.
Proof.
  exact (proj1 (mission_count_gated_by_autonomy 255 0 5 (set_status 1 (initialState 8)))
           eq_refl).
Defined.

(** C4 for the spec's example: item 2 sent to a store of size 1. *)
Lemma mission_item_sequence_checked_witness :
  let s := set_mList (mkMissionList [missionOfItem (waypoint 0 1)] 8 0) (initialState 8) in
  let msg := mkMessage 255 0 (MISSION_ITEM (waypoint 2 0)) in
  let s' := receiveMessage s msg in
  s' = uart1EnqueueData (mission_ack 255 0 MAV_MISSION_INVALID_SEQUENCE)
         (latchGroundStation msg s)
  /\ sentBetween s s' = [mission_ack 255 0 MAV_MISSION_INVALID_SEQUENCE]
  /\ mList s' = mList s.
Proof.
  apply (proj1 (mission_item_sequence_checked 255 0 (waypoint 2 0)
                  (set_mList (mkMissionList [missionOfItem (waypoint 0 1)] 8 0)
                     (initialState 8)))).
  vm_compute. discriminate.
Defined.

(** C7 as stated fails: a parameter-set request for a name outside the
    registry, received at power-up, is not ignored.  It moves the parameter
    protocol to SingleStart, and the next transmit pass sends a PARAM_VALUE
    frame for the stale current parameter (index 0) after the due
    telemetry. *)
Lemma param_set_unknown_name_is_answered :
  let s := initialState 8 in
  let msg := mkMessage 255 0 (PARAM_SET "SPEED" 1) in
  let s0 := receiveMessage s msg in
  (forall n, ~ In ("SPEED"%string, n) parameterRegistry)
  /\ handleMessage msg s <> s
  /\ parameterProtocolState s = PARAM_STATE_INACTIVE
  /\ parameterProtocolState s0 = PARAM_STATE_SINGLETON_TRANSMIT_START
  /\ sentBetween s0 (MavLinkTransmit s0)
     = [heartbeat; sys_status; gps_raw_int; param_value "MODE_AUTO" 0 4 0].
Proof.
  cbv zeta. split; [|split; [|split; [|split]]].
  - intros n H. simpl in H.
    repeat (destruct H as [H|H]; [discriminate H|]). exact H.
  - intro H. apply (f_equal parameterProtocolState) in H. discriminate H.
  - reflexivity.
  - reflexivity.
  - vm_compute. reflexivity.
Qed.

(** C7 as amended, for a write of 1 to MODE_HIL at power-up. *)
Lemma param_set_behaviour_witness :
  let s := initialState 8 in
  let s' := receiveParamSet "MODE_HIL" 1 s in
  nonzero (Z.land (status s') (Z.shiftl 1 1)) = nonzero 1
  /\ currentParameter s' = 1
  /\ sentBetween s s' = [param_value "MODE_HIL" (if nonzero 1 then 1 else 0) parameterCount 1]
  /\ parameterProtocolState s' = PARAM_STATE_SINGLETON_TRANSMIT_START.
Proof.
  apply (proj1 (param_set_behaviour "MODE_HIL" 1 (initialState 8)) eq_refl 1).
  simpl. auto.
Defined.

End MavlinkFacts.

(* ===================================================================== *)
(** * Properties of PrimaryNode.c                                          *)
(* ===================================================================== *)

Module PrimaryNodeFacts.
Import PrimaryNode.

(** ** Bits *)

Lemma land_lor_apart (x flag m : Z) :
  Z.land flag m = 0 -> Z.land (Z.lor x flag) m = Z.land x m.
Proof. intro H. now rewrite Z.land_lor_distr_l, H, Z.lor_0_r. Qed.

Lemma land_clear_apart (x flag m : Z) :
  Z.land flag m = 0 -> Z.land (Z.land x (Z.lnot flag)) m = Z.land x m.
Proof.
  intro H. apply Z.bits_inj'. intros n Hn.
  apply (f_equal (fun z => Z.testbit z n)) in H.
  rewrite Z.land_spec, Z.bits_0 in H.
  rewrite !Z.land_spec, Z.lnot_spec by assumption.
  destruct (Z.testbit x n), (Z.testbit flag n), (Z.testbit m n); simpl in *; congruence.
Qed.

Lemma land_lor_self (x flag : Z) : Z.land (Z.lor x flag) flag = flag.
Proof.
  rewrite Z.land_lor_distr_l, Z.land_diag. apply Z.bits_inj'. intros n _.
  rewrite Z.lor_spec, Z.land_spec.
  destruct (Z.testbit x n), (Z.testbit flag n); reflexivity.
Qed.

Lemma land_clear_self (x flag : Z) : Z.land (Z.land x (Z.lnot flag)) flag = 0.
Proof.
  rewrite <- Z.land_assoc, (Z.land_comm (Z.lnot flag)), Z.land_lnot_diag.
  apply Z.land_0_r.
Qed.

Lemma sharesNoBit_In (flag : Z) (flags : list Z) (f : Z) :
  sharesNoBit flag flags = true -> In f flags -> Z.land f flag = 0.
Proof.
  unfold sharesNoBit. rewrite forallb_forall. intros H Hin.
  apply Z.eqb_eq. exact (H f Hin).
Qed.

Section WithHeader.

Context {hdr : Header}.

(** ** What each block of the loop writes *)

Lemma writesOnly_refl (flag : Z) (s : State) : writesOnly flag s s.
Proof. unfold writesOnly. auto. Qed.

Lemma rtbAnnouncements_app (l r : list Event) :
  rtbAnnouncements (l ++ r) = rtbAnnouncements l ++ rtbAnnouncements r.
Proof. apply filter_app. Qed.

(** The actuator mux writes neither flag word. *)
Lemma mux_frame (inp : Inputs) (r : float) (t : Z) (force : bool) (s : State) :
  let s' := PrimaryNodeMuxAndOutputControllerCommands inp r t force s in
  nodeErrors s' = nodeErrors s /\ nodeStatus s' = nodeStatus s
  /\ lastSensorAvailability s' = lastSensorAvailability s
  /\ lastErrorState s' = lastErrorState s
  /\ nodeSystemTime s' = nodeSystemTime s
  /\ sayStatusCounter s' = sayStatusCounter s
  /\ rtbAnnouncements (outbox s') = rtbAnnouncements (outbox s).
Proof.
  unfold PrimaryNodeMuxAndOutputControllerCommands. cbv zeta.
  repeat match goal with |- context [if ?c then _ else _] => destruct c end;
    simpl; rewrite ?rtbAnnouncements_app, ?app_nil_r; repeat split.
Qed.

Ltac block :=
  intros;
  repeat match goal with
         | |- context [if ?c then _ else _] => destruct c
         end;
  unfold writesOnly; simpl; auto 10.

Lemma checkEcanErrors_writes (inp : Inputs) (s : State) :
  writesOnly 0 s (checkEcanErrors inp s).
Proof. unfold checkEcanErrors; cbv zeta. block. Qed.

Lemma trackGpsEnabled_writes (inp : Inputs) (s : State) :
  writesOnly 0 s (trackGpsEnabled inp s).
Proof. unfold trackGpsEnabled; cbv zeta. block. Qed.

Lemma checkGpsDisconnected_writes (inp : Inputs) (s : State) :
  writesOnly PRIMARY_NODE_RESET_GPS_DISCONNECTED s (checkGpsDisconnected inp s).
Proof. unfold checkGpsDisconnected; cbv zeta. block. Qed.

Lemma trackPropEnabled_writes (inp : Inputs) (s : State) :
  writesOnly PRIMARY_NODE_RESET_ESTOP_OR_ACS300_DISCON s (trackPropEnabled inp s).
Proof. unfold trackPropEnabled; cbv zeta. block. Qed.

Lemma trackRudderEnabled_writes (inp : Inputs) (s : State) :
  writesOnly PRIMARY_NODE_RESET_RUDDER_DISCONNECTED s (trackRudderEnabled inp s).
Proof. unfold trackRudderEnabled; cbv zeta. block. Qed.

Lemma trackRcNodeEnabled_writes (inp : Inputs) (s : State) :
  writesOnly 0 s (trackRcNodeEnabled inp s).
Proof. unfold trackRcNodeEnabled; cbv zeta. block. Qed.

Lemma trackDst800Enabled_writes (inp : Inputs) (s : State) :
  writesOnly PRIMARY_NODE_RESET_DST800_DISCONNECTED s (trackDst800Enabled inp s).
Proof. unfold trackDst800Enabled; cbv zeta. block. Qed.

Lemma trackImuEnabled_writes (inp : Inputs) (s : State) :
  writesOnly PRIMARY_NODE_RESET_IMU_DISCONNECTED s (trackImuEnabled inp s).
Proof. unfold trackImuEnabled; cbv zeta. block. Qed.

Lemma trackRcNodeActive_writes (inp : Inputs) (s : State) :
  writesOnly PRIMARY_NODE_RESET_MANUAL_OVERRIDE s (trackRcNodeActive inp s).
Proof.
  unfold trackRcNodeActive; cbv zeta.
  destruct (rcNodeActive (lastSensorAvailability s)
            && negb (active (rcNode (sensorAvailability inp)))).
  - match goal with
    | |- context [PrimaryNodeMuxAndOutputControllerCommands ?i ?r ?t ?f ?x] =>
        pose proof (mux_frame i r t f x) as H; cbv zeta in H;
        destruct H as (He & _ & Hl & Hle & _ & _ & Ho)
    end.
    unfold writesOnly, remember, set_last, set_rcNodeActive.
    cbn [nodeErrors outbox lastErrorState lastSensorAvailability gpsActive rudderActive].
    rewrite He, Hl, Hle, Ho. simpl. auto 10.
  - block.
Qed.

Lemma trackCalibrating_writes (inp : Inputs) (s : State) :
  writesOnly PRIMARY_NODE_RESET_CALIBRATING s (trackCalibrating inp s).
Proof. unfold trackCalibrating; cbv zeta. block. Qed.

Lemma trackCalibrated_writes (inp : Inputs) (s : State) :
  writesOnly PRIMARY_NODE_RESET_UNCALIBRATED s (trackCalibrated inp s).
Proof. unfold trackCalibrated; cbv zeta. block. Qed.

Lemma checkGcsDisconnected_writes (inp : Inputs) (s : State) :
  writesOnly PRIMARY_NODE_RESET_GCS_DISCONNECTED s (checkGcsDisconnected inp s).
Proof. unfold checkGcsDisconnected; cbv zeta. block. Qed.


(** A word written only at [flag] keeps every bit outside it. *)
Lemma written_apart (flag m e e' : Z) :
  e' = e \/ e' = Z.lor e flag \/ e' = Z.land e (Z.lnot flag) ->
  Z.land flag m = 0 ->
  Z.land e' m = Z.land e m.
Proof.
  intros [E|[E|E]] H; rewrite E; auto using land_lor_apart, land_clear_apart.
Qed.

Lemma writesOnly_errors (flag m : Z) (s s' : State) :
  writesOnly flag s s' -> Z.land flag m = 0 ->
  Z.land (nodeErrors s') m = Z.land (nodeErrors s) m.
Proof. intros (H & _) Hm. eapply written_apart; eauto. Qed.

Lemma writesOnly_quiet (flag : Z) (s s' : State) :
  writesOnly flag s s' ->
  rtbAnnouncements (outbox s') = rtbAnnouncements (outbox s)
  /\ lastErrorState s' = lastErrorState s.
Proof. intros (_ & H1 & H2 & _). auto. Qed.

Lemma writesOnly_activity (flag : Z) (s s' : State) :
  writesOnly flag s s' ->
  gpsActive (lastSensorAvailability s') = gpsActive (lastSensorAvailability s)
  /\ rudderActive (lastSensorAvailability s') = rudderActive (lastSensorAvailability s).
Proof. intros (_ & _ & _ & H1 & H2). auto. Qed.

(** The GPS block: the flag follows the edge between the remembered and the
    current activity, and the remembered activity becomes the current one. *)
Lemma trackGpsActive_spec (inp : Inputs) (s : State) :
  let cur := active (gps (sensorAvailability inp)) in
  let was := gpsActive (lastSensorAvailability s) in
  let s' := trackGpsActive inp s in
  nodeErrors s'
  = (if was && negb cur then Z.lor (nodeErrors s) PRIMARY_NODE_STATUS_GPS_INVALID
     else if negb was && cur
     then Z.land (nodeErrors s) (Z.lnot PRIMARY_NODE_STATUS_GPS_INVALID)
     else nodeErrors s)
  /\ gpsActive (lastSensorAvailability s') = cur
  /\ rudderActive (lastSensorAvailability s') = rudderActive (lastSensorAvailability s)
  /\ rtbAnnouncements (outbox s') = rtbAnnouncements (outbox s)
  /\ lastErrorState s' = lastErrorState s.
Proof.
  unfold trackGpsActive. cbv zeta.
  destruct (gpsActive (lastSensorAvailability s)) eqn:Hw,
           (active (gps (sensorAvailability inp))) eqn:Hc; simpl; auto.
Qed.


(** The rudder block: set on the falling edge; cleared on the rising edge only
    if the rudder is enabled, and only then is the rising edge remembered. *)
Lemma trackRudderActive_spec (inp : Inputs) (s : State) :
  let r := rudder (sensorAvailability inp) in
  let was := rudderActive (lastSensorAvailability s) in
  let s' := trackRudderActive inp s in
  nodeErrors s'
  = (if was && negb (active r)
     then Z.lor (nodeErrors s) PRIMARY_NODE_RESET_RUDDER_ERRORS
     else if enabled r && negb was && active r
     then Z.land (nodeErrors s) (Z.lnot PRIMARY_NODE_RESET_RUDDER_ERRORS)
     else nodeErrors s)
  /\ rudderActive (lastSensorAvailability s')
     = (if was && negb (active r) then false
        else if enabled r && negb was && active r then true
        else was)
  /\ gpsActive (lastSensorAvailability s') = gpsActive (lastSensorAvailability s)
  /\ rtbAnnouncements (outbox s') = rtbAnnouncements (outbox s)
  /\ lastErrorState s' = lastErrorState s.
Proof.
  unfold trackRudderActive. cbv zeta.
  destruct (rudderActive (lastSensorAvailability s)) eqn:Hw,
           (active (rudder (sensorAvailability inp))) eqn:Hc,
           (enabled (rudder (sensorAvailability inp))) eqn:He; simpl; auto.
Qed.

End WithHeader.
Section WithHeader2.

Context {hdr : Header}.

(** ** Chaining the blocks *)

Lemma untouched_refl (m : Z) (w : LastSensorAvailability -> bool) (s : State) :
  untouched m w s s.
Proof. unfold untouched. auto. Qed.

Lemma untouched_trans (m : Z) (w : LastSensorAvailability -> bool) (a b c : State) :
  untouched m w a b -> untouched m w b c -> untouched m w a c.
Proof.
  intros (A1 & A2 & A3 & A4) (B1 & B2 & B3 & B4). unfold untouched.
  rewrite B1, B2, B3, B4. auto.
Qed.

Lemma untouched_any (m : Z) (w : LastSensorAvailability -> bool) (s s' : State) :
  untouched m w s s' -> untouched m anyActivity s s'.
Proof. intros (A1 & A2 & A3 & _). unfold untouched. auto. Qed.

Lemma writesOnly_untouched_gps (flag m : Z) (s s' : State) :
  writesOnly flag s s' -> Z.land flag m = 0 -> untouched m gpsActive s s'.
Proof.
  intros H Hm. pose proof (writesOnly_errors _ _ _ _ H Hm).
  destruct H as (_ & H1 & H2 & H3 & _). unfold untouched. auto.
Qed.

Lemma writesOnly_untouched_rudder (flag m : Z) (s s' : State) :
  writesOnly flag s s' -> Z.land flag m = 0 -> untouched m rudderActive s s'.
Proof.
  intros H Hm. pose proof (writesOnly_errors _ _ _ _ H Hm).
  destruct H as (_ & H1 & H2 & _ & H3). unfold untouched. auto.
Qed.

Lemma trackGpsActive_untouched (m : Z) (inp : Inputs) (s : State) :
  Z.land PRIMARY_NODE_STATUS_GPS_INVALID m = 0 ->
  untouched m rudderActive s (trackGpsActive inp s).
Proof.
  intro Hm. pose proof (trackGpsActive_spec inp s) as H. cbv zeta in H.
  destruct H as (He & _ & Hr & Ha & Hl). unfold untouched.
  repeat split; auto. rewrite He.
  repeat match goal with |- context [if ?c then _ else _] => destruct c end;
    auto using land_lor_apart, land_clear_apart.
Qed.

Lemma trackRudderActive_untouched (m : Z) (inp : Inputs) (s : State) :
  Z.land PRIMARY_NODE_RESET_RUDDER_ERRORS m = 0 ->
  untouched m gpsActive s (trackRudderActive inp s).
Proof.
  intro Hm. pose proof (trackRudderActive_spec inp s) as H. cbv zeta in H.
  destruct H as (He & _ & Hg & Ha & Hl). unfold untouched.
  repeat split; auto. rewrite He.
  repeat match goal with |- context [if ?c then _ else _] => destruct c end;
    auto using land_lor_apart, land_clear_apart.
Qed.

End WithHeader2.

(** [Z.land f m = 0] for a flag [f] listed in a [sharesNoBit m _] at hand. *)
Ltac apart :=
  match goal with
  | |- Z.land 0 _ = 0 => apply Z.land_0_l
  | H : sharesNoBit ?m ?l = true |- Z.land ?f ?m = 0 =>
      apply (sharesNoBit_In m l f H); simpl;
      repeat first [left; reflexivity | right]
  end.

(** One block off the end of a chain. *)
Ltac unchain :=
  eapply untouched_trans;
  [ | first
        [ eapply untouched_any;
          first [ eapply writesOnly_untouched_gps;
                  [ first [ apply checkEcanErrors_writes | apply trackGpsEnabled_writes
                          | apply checkGpsDisconnected_writes | apply trackPropEnabled_writes
                          | apply trackRudderEnabled_writes | apply trackRcNodeEnabled_writes
                          | apply trackDst800Enabled_writes | apply trackImuEnabled_writes
                          | apply trackRcNodeActive_writes | apply trackCalibrating_writes
                          | apply trackCalibrated_writes | apply checkGcsDisconnected_writes ]
                  | apart ]
                | apply trackGpsActive_untouched; apart
                | apply trackRudderActive_untouched; apart ]
        | eapply writesOnly_untouched_gps;
          [ first [ apply checkEcanErrors_writes | apply trackGpsEnabled_writes
                  | apply checkGpsDisconnected_writes | apply trackPropEnabled_writes
                  | apply trackRudderEnabled_writes | apply trackRcNodeEnabled_writes
                  | apply trackDst800Enabled_writes | apply trackImuEnabled_writes
                  | apply trackRcNodeActive_writes | apply trackCalibrating_writes
                  | apply trackCalibrated_writes | apply checkGcsDisconnected_writes ]
          | apart ]
        | eapply writesOnly_untouched_rudder;
          [ first [ apply checkEcanErrors_writes | apply trackGpsEnabled_writes
                  | apply checkGpsDisconnected_writes | apply trackPropEnabled_writes
                  | apply trackRudderEnabled_writes | apply trackRcNodeEnabled_writes
                  | apply trackDst800Enabled_writes | apply trackImuEnabled_writes
                  | apply trackRcNodeActive_writes | apply trackCalibrating_writes
                  | apply trackCalibrated_writes | apply checkGcsDisconnected_writes ]
          | apart ]
        | apply trackGpsActive_untouched; apart
        | apply trackRudderActive_untouched; apart ] ].

Section WithHeader3.

Context {hdr : Header}.

(** The availability blocks leave alone every bit that none of their flags
    holds. *)
Lemma updateFaults_untouched (m : Z) (inp : Inputs) (s : State) :
  sharesNoBit m
    [PRIMARY_NODE_STATUS_GPS_INVALID; PRIMARY_NODE_RESET_GPS_DISCONNECTED;
     PRIMARY_NODE_RESET_ESTOP_OR_ACS300_DISCON; PRIMARY_NODE_RESET_RUDDER_DISCONNECTED;
     PRIMARY_NODE_RESET_DST800_DISCONNECTED; PRIMARY_NODE_RESET_IMU_DISCONNECTED;
     PRIMARY_NODE_RESET_MANUAL_OVERRIDE; PRIMARY_NODE_RESET_RUDDER_ERRORS;
     PRIMARY_NODE_RESET_CALIBRATING; PRIMARY_NODE_RESET_UNCALIBRATED;
     PRIMARY_NODE_RESET_GCS_DISCONNECTED] = true ->
  untouched m anyActivity s (updateFaults inp s).
Proof.
  intro H. unfold updateFaults.
  do 15 unchain. apply untouched_refl.
Qed.

End WithHeader3.

Section WithHeader4.

Context {hdr : Header}.

(** ** Mode changes, the return-to-base check and the timed loop *)

(** [SetAutoMode] writes the error word only at the return-to-base flag, and
    announces no return to base. *)
Lemma SetAutoMode_writes (newMode : PrimaryNodeMode) (s : State) :
  writesOnly PRIMARY_NODE_RESET_RTB s (SetAutoMode newMode s).
Proof.
  unfold SetAutoMode. cbv zeta.
  repeat match goal with |- context [if ?c then _ else _] => destruct c end;
    unfold writesOnly; simpl; rewrite ?rtbAnnouncements_app, ?app_nil_r; auto 10.
Qed.

Lemma MavLinkReceive_writes (inp : Inputs) (s : State) :
  forall m w,
    Z.land PRIMARY_NODE_RESET_RTB m = 0 ->
    (w = gpsActive \/ w = rudderActive) ->
    untouched m w s (MavLinkReceive inp s).
Proof.
  intros m w Hm Hw. unfold MavLinkReceive.
  generalize (modeRequests inp) as l. intro l. revert s.
  induction l as [|x l IH]; intro s; [apply untouched_refl|].
  simpl. eapply untouched_trans; [|apply IH].
  destruct Hw as [-> | ->].
  - eapply writesOnly_untouched_gps; [apply SetAutoMode_writes|exact Hm].
  - eapply writesOnly_untouched_rudder; [apply SetAutoMode_writes|exact Hm].
Qed.

(** The check writes the error word only at the return-to-base flag and
    leaves the remembered activity alone. *)
Lemma checkReturnToBase_writes (s : State) :
  let s' := checkReturnToBase s in
  (nodeErrors s' = nodeErrors s
   \/ nodeErrors s' = Z.lor (nodeErrors s) PRIMARY_NODE_RESET_RTB)
  /\ lastSensorAvailability s' = lastSensorAvailability s.
Proof.
  unfold checkReturnToBase. cbv zeta.
  repeat match goal with |- context [if ?c then _ else _] => destruct c end;
    simpl; auto.
Qed.

(** The timed loop writes the error word only at the startup flag. *)
Lemma PrimaryNode100HzLoop_writes (inp : Inputs) (s : State) :
  writesOnly PRIMARY_NODE_RESET_STARTUP s (PrimaryNode100HzLoop inp s).
Proof.
  unfold PrimaryNode100HzLoop. cbv zeta.
  set (s1 := if nodeSystemTime s =? 0 then raise_error PRIMARY_NODE_RESET_STARTUP s
             else if nodeSystemTime s =? STARTUP_RESET_TIME
                  then clear_error PRIMARY_NODE_RESET_STARTUP s else s).
  assert (H1 : writesOnly PRIMARY_NODE_RESET_STARTUP s s1).
  { subst s1. repeat match goal with |- context [if ?c then _ else _] => destruct c end;
      unfold writesOnly; simpl; auto 10. }
  pose proof (mux_frame inp (rCommand inp) (tCommand inp) false s1) as H2.
  cbv zeta in H2.
  set (s2 := PrimaryNodeMuxAndOutputControllerCommands inp (rCommand inp)
               (tCommand inp) false s1) in *.
  destruct H2 as (He & _ & Hl & Hle & _ & _ & Ho).
  destruct H1 as (E1 & A1 & L1 & G1 & R1).
  repeat match goal with |- context [if ?c then _ else _] => destruct c end;
    unfold writesOnly; simpl;
    rewrite ?rtbAnnouncements_app, ?app_nil_r, ?He, ?Hl, ?Hle, ?Ho; auto 10.
Qed.

End WithHeader4.
Section WithHeader5.

Context {hdr : Header}.

(** ** The sticky activity bits over a whole pass *)





(** What follows the availability blocks in a pass keeps both bits and both
    remembered activities. *)
Lemma pass_tail_untouched (m : Z) (w : LastSensorAvailability -> bool)
    (inp : Inputs) (s : State) :
  Z.land PRIMARY_NODE_RESET_RTB m = 0 ->
  Z.land PRIMARY_NODE_RESET_STARTUP m = 0 ->
  w = gpsActive \/ w = rudderActive ->
  let s1 := checkReturnToBase (MavLinkReceive inp s) in
  let s' := if timerElapsed inp then PrimaryNode100HzLoop inp s1 else s1 in
  Z.land (nodeErrors s') m = Z.land (nodeErrors s) m
  /\ w (lastSensorAvailability s') = w (lastSensorAvailability s).
Proof.
  intros Hrtb Hstart Hw s1 s'.
  destruct (MavLinkReceive_writes inp s m w Hrtb Hw) as (A1 & _ & _ & A4).
  pose proof (checkReturnToBase_writes (MavLinkReceive inp s)) as HB.
  cbv zeta in HB. fold s1 in HB. destruct HB as (B1 & B2).
  assert (B1' : Z.land (nodeErrors s1) m = Z.land (nodeErrors (MavLinkReceive inp s)) m).
  { destruct B1 as [->| ->]; [reflexivity|now apply land_lor_apart]. }
  assert (C : Z.land (nodeErrors s') m = Z.land (nodeErrors s1) m
              /\ w (lastSensorAvailability s') = w (lastSensorAvailability s1)).
  { subst s'. destruct (timerElapsed inp); [|auto].
    pose proof (PrimaryNode100HzLoop_writes inp s1) as HC.
    split; [eapply writesOnly_errors; eauto|].
    destruct (writesOnly_activity _ _ _ HC) as [G R].
    destruct Hw as [-> | ->]; assumption. }
  destruct C as [C1 C2]. rewrite C1, C2, B1', B2, A1, A4. auto.
Qed.


End WithHeader5.

Section WithHeader6.

Context {hdr : Header}.

(** ** Return to base *)

(** A pass that takes no mode request leaves the mode as it is. *)
Lemma MavLinkReceive_none (inp : Inputs) (s : State) :
  modeRequests inp = [] -> MavLinkReceive inp s = s.
Proof. intros H. unfold MavLinkReceive. now rewrite H. Qed.

(** With the announcement latched, the check adds no announcement and leaves
    the error word as it is. *)
Lemma checkReturnToBase_latched (s : State) :
  rtbAnnounced s = true ->
  nodeErrors (checkReturnToBase s) = nodeErrors s
  /\ rtbAnnouncements (outbox (checkReturnToBase s)) = rtbAnnouncements (outbox s).
Proof.
  intros L. unfold checkReturnToBase. cbv zeta.
  destruct (negb (nodeErrors s =? lastErrorState s)); [|auto].
  destruct (IS_AUTONOMOUS s && nonzero (Z.land (nodeErrors s) RTB_RESET_MASK)); [|auto].
  unfold rtbAnnounced in L.
  change (nodeErrors (call (ActuatorsTransmitCommands 0 0 true) s)) with (nodeErrors s).
  rewrite L. cbn [negb].
  split; [reflexivity|].
  change (outbox (set_lastErrorState
                    (nodeErrors (call (ActuatorsTransmitCommands 0 0 true) s))
                    (call (ActuatorsTransmitCommands 0 0 true) s)))
    with (outbox s ++ [ActuatorsTransmitCommands 0 0 true]).
  rewrite rtbAnnouncements_app. cbn [rtbAnnouncements filter]. now rewrite app_nil_r.
Qed.

(** The startup flag is not the return-to-base flag. *)
Lemma startup_apart :
  rtbStandsAlone = true ->
  Z.land PRIMARY_NODE_RESET_STARTUP PRIMARY_NODE_RESET_RTB = 0.
Proof.
  intros Halone. unfold rtbStandsAlone in Halone.
  apply andb_true_iff in Halone as [_ H]. apart.
Qed.

(** The flags written by the fault blocks are not the return-to-base flag. *)
Lemma faults_apart :
  rtbStandsAlone = true ->
  sharesNoBit PRIMARY_NODE_RESET_RTB
    [PRIMARY_NODE_STATUS_GPS_INVALID; PRIMARY_NODE_RESET_GPS_DISCONNECTED;
     PRIMARY_NODE_RESET_ESTOP_OR_ACS300_DISCON;
     PRIMARY_NODE_RESET_RUDDER_DISCONNECTED;
     PRIMARY_NODE_RESET_DST800_DISCONNECTED;
     PRIMARY_NODE_RESET_IMU_DISCONNECTED;
     PRIMARY_NODE_RESET_MANUAL_OVERRIDE; PRIMARY_NODE_RESET_RUDDER_ERRORS;
     PRIMARY_NODE_RESET_CALIBRATING; PRIMARY_NODE_RESET_UNCALIBRATED;
     PRIMARY_NODE_RESET_GCS_DISCONNECTED] = true.
Proof.
  intros Halone. unfold rtbStandsAlone in Halone.
  apply andb_true_iff in Halone as [_ H].
  unfold sharesNoBit in H |- *. cbn [forallb] in H |- *.
  apply andb_true_iff in H as [_ H]. exact H.
Qed.

(** With the announcement latched, the 100 Hz step keeps it and announces
    nothing. *)
Lemma PrimaryNode100HzLoop_latched (inp : Inputs) (s : State) :
  rtbStandsAlone = true ->
  rtbAnnounced s = true ->
  rtbAnnounced (PrimaryNode100HzLoop inp s) = true
  /\ rtbAnnouncements (outbox (PrimaryNode100HzLoop inp s)) = rtbAnnouncements (outbox s).
Proof.
  intros Halone L.
  pose proof (PrimaryNode100HzLoop_writes inp s) as HW.
  pose proof (writesOnly_errors _ _ _ _ HW (startup_apart Halone)) as E4.
  destruct (writesOnly_quiet _ _ _ HW) as [A4 _].
  split; [|exact A4]. unfold rtbAnnounced in L |- *. rewrite E4. exact L.
Qed.

(** With the announcement latched, the end of a pass (the check, then the
    100 Hz step if its timer has elapsed) keeps it and announces nothing. *)
Lemma pass_end_latched (inp : Inputs) (s : State) :
  rtbStandsAlone = true ->
  rtbAnnounced s = true ->
  let s3 := checkReturnToBase s in
  let s' := if timerElapsed inp then PrimaryNode100HzLoop inp s3 else s3 in
  rtbAnnounced s' = true
  /\ rtbAnnouncements (outbox s') = rtbAnnouncements (outbox s).
Proof.
  intros Halone L. cbv zeta.
  destruct (checkReturnToBase_latched s L) as [E3 A3].
  generalize dependent (checkReturnToBase s). intros s3 E3 A3.
  assert (L3 : rtbAnnounced s3 = true).
  { unfold rtbAnnounced in L |- *. rewrite E3. exact L. }
  destruct (timerElapsed inp).
  - destruct (PrimaryNode100HzLoop_latched inp s3 Halone L3) as [L4 A4].
    split; [exact L4|]. rewrite A4. exact A3.
  - split; [exact L3|exact A3].
Qed.

(** Once the announcement is latched, a pass that takes no mode request makes
    no further announcement and keeps the latch. *)
Lemma announced_pass_silent (s : State) (inp : Inputs) :
  rtbStandsAlone = true ->
  modeRequests inp = [] ->
  rtbAnnounced s = true ->
  rtbAnnounced (mainLoopPass s inp) = true
  /\ rtbAnnouncements (outbox (mainLoopPass s inp)) = rtbAnnouncements (outbox s).
Proof.
  intros Halone Hreq Hlatch.
  destruct (updateFaults_untouched PRIMARY_NODE_RESET_RTB inp s (faults_apart Halone))
    as (U1 & U2 & _).
  assert (L1 : rtbAnnounced (updateFaults inp s) = true).
  { unfold rtbAnnounced in Hlatch |- *. rewrite U1. exact Hlatch. }
  pose proof (pass_end_latched inp (updateFaults inp s) Halone L1) as P.
  cbv zeta in P. unfold mainLoopPass. rewrite (MavLinkReceive_none inp _ Hreq).
  destruct P as [P1 P2]. split; [exact P1|]. rewrite P2. exact U2.
Qed.

Lemma announced_loop_silent (inps : list Inputs) :
  rtbStandsAlone = true ->
  Forall (fun inp => modeRequests inp = []) inps ->
  forall s, rtbAnnounced s = true ->
    rtbAnnounced (mainLoop inps s) = true
    /\ rtbAnnouncements (outbox (mainLoop inps s)) = rtbAnnouncements (outbox s).
Proof.
  intros Halone Hall. induction Hall as [|inp inps Hinp Hall IH]; intros s Hs.
  - unfold mainLoop. cbn [fold_left]. auto.
  - unfold mainLoop. cbn [fold_left].
    destruct (announced_pass_silent s inp Halone Hinp Hs) as [L A].
    destruct (IH _ L) as [L' A']. unfold mainLoop in L', A'.
    split; [exact L'|]. now rewrite A', A.
Qed.

(** C1, as the code has it.  When the check finds the error word changed, the
    vehicle autonomous and the return-to-base subset of the error word
    nonzero, it transmits the neutral actuator command (rudder 0.0,
    throttle 0, forced); it announces return to base, with the subset as
    reason, exactly if no announcement is latched, and latches it.  After
    that, whatever the sensors do (the subset may stay nonzero, or clear and
    come back), no pass announces again until a mode request is handled: not
    the rest of this pass, and none of any number of later passes.  (The
    return-to-base flag is a nonzero flag with its bits of the error word to
    itself.) *)
Theorem return_to_base_announced_once :
  rtbStandsAlone = true ->
  forall s : State,
    nodeErrors s <> lastErrorState s ->
    IS_AUTONOMOUS s = true ->
    Z.land (nodeErrors s) RTB_RESET_MASK <> 0 ->
    let s' := checkReturnToBase s in
    outbox s'
    = outbox s
      ++ ActuatorsTransmitCommands 0 0 true
         :: (if rtbAnnounced s then []
             else [rtbAnnouncement (Z.land (nodeErrors s) RTB_RESET_MASK)])
    /\ rtbAnnounced s' = true
    /\ lastErrorState s' = nodeErrors s'
    /\ (forall (inp : Inputs) (later : list Inputs),
          Forall (fun i => modeRequests i = []) later ->
          let rest := if timerElapsed inp then PrimaryNode100HzLoop inp s' else s' in
          rtbAnnouncements (outbox (mainLoop later rest))
          = rtbAnnouncements (outbox s')).
Proof.
  intros Halone s Hchanged Hauto Hrtb s'.
  assert (Hnz : nonzero PRIMARY_NODE_RESET_RTB = true).
  { unfold rtbStandsAlone in Halone. now apply andb_true_iff in Halone as [Hnz _]. }
  assert (Hs' : s' = let s2 := call (ActuatorsTransmitCommands 0 0 true) s in
                     let s1 := if negb (rtbAnnounced s)
                               then raise_error PRIMARY_NODE_RESET_RTB
                                      (call (rtbAnnouncement
                                               (Z.land (nodeErrors s) RTB_RESET_MASK)) s2)
                               else s2 in
                     set_lastErrorState (nodeErrors s1) s1).
  { subst s'. unfold checkReturnToBase.
    replace (negb (nodeErrors s =? lastErrorState s)) with true
      by (symmetry; apply negb_true_iff, Z.eqb_neq; exact Hchanged).
    replace (nonzero (Z.land (nodeErrors s) RTB_RESET_MASK)) with true
      by (symmetry; apply negb_true_iff, Z.eqb_neq; exact Hrtb).
    rewrite Hauto. reflexivity. }
  clearbody s'.
  assert (Hlatch : rtbAnnounced s' = true).
  { rewrite Hs'. cbv zeta. unfold rtbAnnounced at 1.
    destruct (rtbAnnounced s) eqn:E;
      cbn [negb nodeErrors set_lastErrorState raise_error set_nodeErrors call].
    - exact E.
    - now rewrite land_lor_self. }
  split; [|split; [exact Hlatch|split]].
  - rewrite Hs'. cbv zeta. destruct (rtbAnnounced s);
      cbn [negb outbox set_lastErrorState raise_error set_nodeErrors call].
    + reflexivity.
    + now rewrite <- app_assoc.
  - rewrite Hs'. cbv zeta. destruct (rtbAnnounced s); reflexivity.
  - clear Hs'. intros inp later Hlater rest.
    assert (Hrest : rtbAnnounced rest = true
                    /\ rtbAnnouncements (outbox rest) = rtbAnnouncements (outbox s')).
    { subst rest. destruct (timerElapsed inp); [|auto].
      apply PrimaryNode100HzLoop_latched; assumption. }
    clearbody rest. destruct Hrest as [Lr Ar].
    destruct (announced_loop_silent later Halone Hlater rest Lr) as [_ A].
    now rewrite A, Ar.
Qed.

(** ** [SetAutoMode] *)

(** From manual mode, a request for autonomous mode while the return-to-base
    subset is nonzero changes nothing. *)
Lemma SetAutoMode_refused (s : State) :
  IS_AUTONOMOUS s = false ->
  Z.land (nodeErrors s) RTB_RESET_MASK <> 0 ->
  SetAutoMode PRIMARY_MODE_AUTONOMOUS s = s.
Proof.
  intros Hman Hrtb. unfold SetAutoMode. cbv zeta. rewrite Hman.
  replace (nonzero (Z.land (nodeErrors s) RTB_RESET_MASK)) with true
    by (symmetry; apply negb_true_iff, Z.eqb_neq; exact Hrtb).
  reflexivity.
Qed.

(** C2, where the code departs from it.  [SetAutoMode] called while the
    vehicle is autonomous leaves autonomous mode whatever mode is asked for:
    a request for autonomous mode, made while autonomous (for instance in
    return to base, with the subset nonzero), puts the vehicle in manual mode
    and clears the latched announcement, where the function's own comment
    promises an idempotent call. *)
Theorem SetAutoMode_while_autonomous_leaves :
  forall (newMode : PrimaryNodeMode) (s : State),
    IS_AUTONOMOUS s = true ->
    let s' := SetAutoMode newMode s in
    IS_AUTONOMOUS s' = false
    /\ GetAutoMode s' = PRIMARY_MODE_MANUAL
    /\ rtbAnnounced s' = false
    /\ s' <> s.
Proof.
  intros newMode s Hauto s'.
  assert (Hs' : s' = let s1 := clear_status PRIMARY_NODE_STATUS_AUTOMODE s in
                     let s2 := if nonzero (Z.land (nodeErrors s1) PRIMARY_NODE_RESET_RTB)
                               then s1 |> clear_error PRIMARY_NODE_RESET_RTB
                                       |> call (MavLinkSendStatusText MAV_SEVERITY_NOTICE
                                                  (literal "Exiting return-to-base protocol"))
                               else s1 in
                     s2 |> call (MavLinkSendHeartbeat MAVLINK_CHAN_GROUNDSTATION)
                        |> call (MavLinkSendHeartbeat MAVLINK_CHAN_DATALOGGER)).
  { subst s'. unfold SetAutoMode. cbv zeta. rewrite Hauto.
    rewrite andb_false_r. reflexivity. }
  assert (Hmode : IS_AUTONOMOUS s' = false).
  { rewrite Hs'. cbv zeta. unfold IS_AUTONOMOUS.
    destruct (nonzero (Z.land (nodeErrors (clear_status PRIMARY_NODE_STATUS_AUTOMODE s))
                         PRIMARY_NODE_RESET_RTB));
      cbn [nodeStatus nodeErrors clear_status set_nodeStatus clear_error set_nodeErrors call];
      now rewrite land_clear_self. }
  split; [exact Hmode|]. split; [|split].
  - unfold GetAutoMode. unfold IS_AUTONOMOUS in Hmode. now rewrite Hmode.
  - rewrite Hs'. cbv zeta. unfold rtbAnnounced.
    destruct (nonzero (Z.land (nodeErrors (clear_status PRIMARY_NODE_STATUS_AUTOMODE s))
                         PRIMARY_NODE_RESET_RTB)) eqn:E;
      cbn [nodeStatus nodeErrors clear_status set_nodeStatus clear_error set_nodeErrors call]
        in E |- *.
    + now rewrite land_clear_self.
    + exact E.
  - intro E. rewrite E in Hmode. congruence.
Qed.

End WithHeader6.

(** ** The properties above at concrete inputs *)


(** C1 on the sample header: autonomous, the GPS just timed out. *)
Lemma return_to_base_announced_once_witness :
  let s := mkState 1 2 1000 (mkLast true true true true true true true true false) 0
             (mkCommands 0 0 0 0) 0 [] in
  let s' := @checkReturnToBase sampleHeader s in
  outbox s' = [ActuatorsTransmitCommands 0 0 true; @rtbAnnouncement 2]
  /\ @rtbAnnounced sampleHeader s' = true
  /\ lastErrorState s' = nodeErrors s'
  /\ (forall (inp : Inputs) (later : list Inputs),
        Forall (fun i => modeRequests i = []) later ->
        let rest := if timerElapsed inp
                    then @PrimaryNode100HzLoop sampleHeader inp s' else s' in
        rtbAnnouncements (outbox (@mainLoop sampleHeader later rest))
        = rtbAnnouncements (outbox s')).
Proof.
  apply (@return_to_base_announced_once sampleHeader eq_refl
           (mkState 1 2 1000 (mkLast true true true true true true true true false) 0
              (mkCommands 0 0 0 0) 0 [])).
  - vm_compute. discriminate.
  - reflexivity.
  - vm_compute. discriminate.
Defined.

(** C1 as stated fails: the announcement is not made once per rising edge.
    On the sample header, an autonomous vehicle loses the ground station,
    hears it again, and loses it again, without a mode request in between.
    The condition (autonomous, return-to-base subset nonzero) rises in the
    first pass and again in the third; both times the neutral command is
    forced, but only the first pass announces: the latch set then is still
    set in the third pass. *)
Lemma return_to_base_not_announced_on_second_edge :
  let inCondition (s : State) :=
    @IS_AUTONOMOUS sampleHeader s
    && nonzero (Z.land (nodeErrors s) (@RTB_RESET_MASK sampleHeader)) in
  let s0 := mkState 1 0 1000 (mkLast true true true true true true true true false) 0
              (mkCommands 0 0 0 0) 0 [] in
  let heard := healthyInputs 1000 in
  let silent := mkInputs (ecanErrors heard) (sensorAvailability heard)
                  (rudderSensorData heard) 3000 0 0 [] false 0 0 (-1) in
  let s1 := @mainLoopPass sampleHeader s0 silent in
  let s2 := @mainLoopPass sampleHeader s1 heard in
  let s3 := @mainLoopPass sampleHeader s2 silent in
  map inCondition [s0; s1; s2; s3] = [false; true; false; true]
  /\ map (@IS_AUTONOMOUS sampleHeader) [s0; s1; s2; s3] = [true; true; true; true]
  /\ outbox s1 = [ActuatorsTransmitCommands 0 0 true; @rtbAnnouncement 1024]
  /\ outbox s2 = outbox s1
  /\ outbox s3 = outbox s1 ++ [ActuatorsTransmitCommands 0 0 true]
  /\ length (rtbAnnouncements (outbox s3)) = 1%nat.
Proof.
  cbv zeta. vm_compute. repeat split.
Qed.

(** C2 on the sample header: in return to base (autonomous, GPS timed out,
    announcement latched), a request for autonomous mode ends in manual mode
    with the latch cleared. *)
Lemma SetAutoMode_while_autonomous_leaves_witness :
  let s := mkState 1 (2 + 2048) 1000 (mkLast true true true true true true true true false)
             (2 + 2048) (mkCommands 0 0 0 0) 0 [] in
  let s' := @SetAutoMode sampleHeader PRIMARY_MODE_AUTONOMOUS s in
  Z.land (nodeErrors s) (@RTB_RESET_MASK sampleHeader) <> 0
  /\ @IS_AUTONOMOUS sampleHeader s' = false
  /\ @GetAutoMode sampleHeader s' = PRIMARY_MODE_MANUAL
  /\ @rtbAnnounced sampleHeader s' = false
  /\ s' <> s.
Proof.
  split; [vm_compute; discriminate|].
  exact (@SetAutoMode_while_autonomous_leaves sampleHeader PRIMARY_MODE_AUTONOMOUS
           (mkState 1 (2 + 2048) 1000 (mkLast true true true true true true true true false)
              (2 + 2048) (mkCommands 0 0 0 0) 0 []) eq_refl).
Defined.

End PrimaryNodeFacts.

(* ===================================================================== *)
(** * Further properties of mavlink.c                                      *)
(* ===================================================================== *)

Module MavlinkReceiveFacts.
Import Mavlink MavlinkSystem MavlinkFacts.

(** ** The ground-station latch *)

Lemma handleMessage_ids (msg : mavlink_message_t) (s : State) :
  groundStationSystemId (handleMessage msg s) = groundStationSystemId s
  /\ groundStationComponentId (handleMessage msg s) = groundStationComponentId s.
Proof.
  unfold handleMessage. destruct (payload msg).
  - unfold receiveMissionCount. cbv zeta.
    repeat match goal with |- context [if ?c then _ else _] => destruct c end;
      split; reflexivity.
  - unfold receiveMissionItem. cbv zeta.
    destruct (GetMissionCount (mList s) =? item_seq item); [|split; reflexivity].
    destruct (AppendMission (missionOfItem item) (mList s)) as [ml1 st].
    repeat match goal with |- context [if ?c then _ else _] => destruct c end;
      split; reflexivity.
  - destruct (missionProtocolState s); split; reflexivity.
  - cbv zeta. destruct (currentMission s =? uint8 seq); split; reflexivity.
  - split; reflexivity.
  - cbv zeta. unfold MavLinkSendCurrentMission. cbv zeta.
    match goal with |- context [if ?c then _ else _] => destruct c end;
      split; reflexivity.
  - split; reflexivity.
  - destruct (parameterProtocolState s); split; reflexivity.
  - destruct (parameterProtocolState s); split; reflexivity.
  - unfold receiveParamSet.
    destruct (parameterProtocolState s); try (split; reflexivity).
    cbv zeta. unfold setParameterBit. cbv zeta.
    repeat match goal with |- context [if ?c then _ else _] => destruct c end;
      split; reflexivity.
  - split; reflexivity.
Qed.

Lemma receiveMessage_ids (msg : mavlink_message_t) (s : State) :
  let s' := receiveMessage s msg in
  (groundStationSystemId s', groundStationComponentId s')
  = if nonzero (groundStationSystemId s) || nonzero (groundStationComponentId s)
    then (groundStationSystemId s, groundStationComponentId s)
    else (sysid msg, compid msg).
Proof.
  cbv zeta. unfold receiveMessage.
  destruct (handleMessage_ids msg (latchGroundStation msg s)) as [A B].
  rewrite A, B. unfold latchGroundStation.
  destruct (nonzero (groundStationSystemId s)), (nonzero (groundStationComponentId s));
    reflexivity.
Qed.

(** X1.  The link latches onto the first ground station that names itself and
    stays with it.  Once a station is latched (one of the two ids nonzero) no
    frame changes the ids, whatever its sender and content.  While none is
    latched, a frame from system 0, component 0 latches nothing (the ids it
    writes are the ones that mean no station), and the first frame with a
    nonzero system or component id sets both ids. *)
Theorem ground_station_latched_once (msgs : list mavlink_message_t) (s : State) :
  let named (m : mavlink_message_t) := nonzero (sysid m) || nonzero (compid m) in
  let s' := MavLinkReceive msgs s in
  (groundStationSystemId s', groundStationComponentId s')
  = if nonzero (groundStationSystemId s) || nonzero (groundStationComponentId s)
    then (groundStationSystemId s, groundStationComponentId s)
    else match find named msgs with
         | Some m => (sysid m, compid m)
         | None => (0, 0)
         end.
Proof.
  cbv zeta. revert s. induction msgs as [|m msgs IH]; intro s.
  - unfold MavLinkReceive. cbn [fold_left find]. unfold nonzero.
    destruct (groundStationSystemId s =? 0) eqn:A,
             (groundStationComponentId s =? 0) eqn:B; cbn [negb orb]; try reflexivity.
    apply Z.eqb_eq in A, B. now rewrite A, B.
  - unfold MavLinkReceive. cbn [fold_left find].
    fold (MavLinkReceive msgs (receiveMessage s m)). rewrite IH.
    pose proof (receiveMessage_ids m s) as R. cbv zeta in R.
    destruct (nonzero (groundStationSystemId s) || nonzero (groundStationComponentId s)) eqn:L;
      injection R as R1 R2; rewrite R1, R2.
    + rewrite L. reflexivity.
    + destruct (nonzero (sysid m) || nonzero (compid m)); reflexivity.
Qed.

(** ** Reading one parameter *)

Lemma parameterPass_single (c dc : Z) :
  0 <= c ->
  parameterPass (PARAM_STATE_SINGLETON_TRANSMIT_START, c, dc)
  = ((PARAM_STATE_INACTIVE, c, dc), if c <? 4 then [c] else []).
Proof.
  intros Hc. unfold parameterPass, paramOnly, MavLinkTransmit.
  cbn [transmitParameterProtocol transmitMissionProtocol parameterProtocolState
       missionProtocolState set_parameterProtocolState set_scheduler scheduler
       AddTransientMessage IncrementTimestep now periodic transients
       app map filter fold_left transmitMessage currentParameter].
  destruct (c =? 0) eqn:E0; [apply Z.eqb_eq in E0; subst c; reflexivity|].
  destruct (c =? 1) eqn:E1; [apply Z.eqb_eq in E1; subst c; reflexivity|].
  destruct (c =? 2) eqn:E2; [apply Z.eqb_eq in E2; subst c; reflexivity|].
  destruct (c =? 3) eqn:E3; [apply Z.eqb_eq in E3; subst c; reflexivity|].
  apply Z.eqb_neq in E0, E1, E2, E3.
  replace (c <? 4) with false by (symmetry; apply Z.ltb_ge; lia).
  reflexivity.
Qed.

(** X2.  A request to read one parameter, received while the parameter protocol
    is inactive, sends nothing at once; the next transmit pass sends the
    parameter with the requested index (as the [uint8_t] the handler keeps of
    it) if that index is below the parameter count 4 and nothing otherwise,
    and in both cases leaves the protocol inactive again.  A request by name
    (index -1, kept as 255) is thus never answered. *)
Theorem param_request_read_answered_once (sys comp i : Z) (s : State) :
  schedulerIdle (scheduler s) = true ->
  parameterProtocolState s = PARAM_STATE_INACTIVE ->
  let s1 := receiveMessage s (mkMessage sys comp (PARAM_REQUEST_READ i)) in
  let s2 := MavLinkTransmit s1 in
  sentBetween s s1 = []
  /\ paramIndices (sentBetween s1 s2) = (if uint8 i <? 4 then [uint8 i] else [])
  /\ parameterProtocolState s2 = PARAM_STATE_INACTIVE
  /\ currentParameter s2 = uint8 i.
Proof.
  intros Hidle Hst s1 s2.
  set (msg := mkMessage sys comp (PARAM_REQUEST_READ i)) in *.
  destruct (latch_frame msg s) as (_ & _ & Hu & _ & Hps & _ & _ & _ & Hsch).
  assert (Hs1 : s1 = set_parameterProtocolState PARAM_STATE_SINGLETON_TRANSMIT_START
                       (set_currentParameter (uint8 i) (latchGroundStation msg s))).
  { subst s1. unfold receiveMessage, handleMessage. cbn [payload msg].
    now rewrite Hps, Hst. }
  clearbody s1.
  assert (Hidle1 : schedulerIdle (scheduler s1) = true).
  { rewrite Hs1. cbn [scheduler set_parameterProtocolState set_currentParameter].
    now rewrite Hsch. }
  pose proof (transmit_param_alone s1 Hidle1) as T. cbv zeta in T. fold s2 in T.
  destruct T as [_ T].
  assert (V : paramView s1
              = (PARAM_STATE_SINGLETON_TRANSMIT_START, uint8 i, delayCountdown s1)).
  { rewrite Hs1. reflexivity. }
  rewrite V, parameterPass_single in T
    by (unfold uint8; apply Z.mod_pos_bound; lia).
  inversion T as [[T1 T2 T3 T4]].
  split.
  { apply sentBetween_quiet. rewrite Hs1.
    cbn [uart1 set_parameterProtocolState set_currentParameter]. exact Hu. }
  repeat split; auto.
Qed.

(** ** Uploads the handlers do not guard *)

(** X3.  A mission item whose sequence number is the store's size is appended to
    the store whenever the store has room, in every state of the link:
    neither the autonomous mode that blocks a count announcement nor the
    absence of any announcement keeps the item out. *)
Theorem mission_item_stored_in_any_mode (sys comp : Z) (it : mavlink_mission_item_t)
    (s : State) :
  item_seq it = GetMissionCount (mList s) ->
  Z.of_nat (length (missions (mList s))) < maxSize (mList s) ->
  let s' := receiveMessage s (mkMessage sys comp (MISSION_ITEM it)) in
  missions (mList s') = missions (mList s) ++ [missionOfItem it]
  /\ status s' = status s
  /\ mavlinkNewMissionListSize s' = mavlinkNewMissionListSize s.
Proof.
  intros Hseq Hroom s'. subst s'.
  set (msg := mkMessage sys comp (MISSION_ITEM it)).
  destruct (latch_frame msg s) as (Hst & Hml & _ & Hn & _).
  unfold receiveMessage, handleMessage. cbn [payload msg].
  unfold receiveMissionItem. cbv zeta. rewrite Hml, <- Hseq, Z.eqb_refl.
  unfold AppendMission. cbv zeta.
  replace (Z.of_nat (length (missions (mList s))) <? maxSize (mList s)) with true
    by (symmetry; apply Z.ltb_lt; exact Hroom).
  assert (K : forall ml seq, missions (SetCurrentMission seq ml) = missions ml).
  { intros ml seq. unfold SetCurrentMission.
    now destruct ((0 <=? seq) && (seq <? Z.of_nat (length (missions ml)))). }
  repeat match goal with |- context [if ?c then _ else _] => destruct c end;
    cbn [mList status mavlinkNewMissionListSize uart1EnqueueData set_mList];
    rewrite ?K; cbn [missions]; auto.
Qed.

(** X4.  A count announcement that is refused in manual mode still empties the
    store.  Announcing no mission is answered with MAV_MISSION_ERROR and
    announcing more than the store can hold with MAV_MISSION_NO_SPACE, and in
    both cases the missions held before are gone, no mission is current and
    the refused count is recorded as the expected total. *)
Theorem refused_count_still_clears_store (sys comp count : Z) (s : State) :
  autonomous s = false ->
  count = 0 \/ maxSize (mList s) < count ->
  let s' := receiveMessage s (mkMessage sys comp (MISSION_COUNT count)) in
  sentBetween s s'
  = [mission_ack sys comp (if count =? 0 then MAV_MISSION_ERROR else MAV_MISSION_NO_SPACE)]
  /\ missions (mList s') = []
  /\ GetCurrentMission (mList s') = -1
  /\ mavlinkNewMissionListSize s' = count.
Proof.
  intros Hman Hcount s'. subst s'.
  set (msg := mkMessage sys comp (MISSION_COUNT count)).
  destruct (latch_frame msg s) as (Hst & Hml & Hu & _).
  unfold receiveMessage, handleMessage. cbn [payload msg].
  unfold receiveMissionCount. fold (autonomous (latchGroundStation msg s)).
  replace (autonomous (latchGroundStation msg s)) with false
    by (unfold autonomous in *; now rewrite Hst).
  cbv zeta. cbn [set_mavlinkNewMissionListSize set_mList mavlinkNewMissionListSize mList].
  rewrite Hml. cbn [ClearMissionList maxSize sysid compid msg].
  destruct (count =? 0) eqn:E0.
  - split; [apply sentBetween_app;
             cbn [uart1 uart1EnqueueData set_mavlinkNewMissionListSize set_mList];
             now rewrite Hu|].
    repeat split.
  - apply Z.eqb_neq in E0.
    replace (count >? maxSize (mList s)) with true
      by (symmetry; apply Z.gtb_lt; lia).
    split; [apply sentBetween_app;
             cbn [uart1 uart1EnqueueData set_mavlinkNewMissionListSize set_mList];
             now rewrite Hu|].
    repeat split.
Qed.

(** X25.  Clearing the store is not guarded.  MISSION_CLEAR_ALL empties the store
    and is acknowledged with MAV_MISSION_ACCEPTED in every state of the link,
    autonomous mode included (where a count announcement is refused); after
    it the store counts no mission, so that [MavLinkSendCurrentMission] sends
    nothing.  The mode is as it was. *)
Theorem mission_clear_all_is_unguarded (sys comp : Z) (s : State) :
  let s' := receiveMessage s (mkMessage sys comp MISSION_CLEAR_ALL) in
  sentBetween s s' = [mission_ack sys comp MAV_MISSION_ACCEPTED]
  /\ missions (mList s') = []
  /\ GetMissionCount (mList s') = 0
  /\ MavLinkSendCurrentMission s' = s'
  /\ autonomous s' = autonomous s.
Proof.
  intros s'. subst s'.
  set (msg := mkMessage sys comp MISSION_CLEAR_ALL).
  destruct (latch_frame msg s) as (Hst & _ & Hu & _).
  unfold receiveMessage, handleMessage. cbn [payload msg sysid compid].
  split.
  { apply sentBetween_app. cbn [uart1 uart1EnqueueData set_mList]. now rewrite Hu. }
  split; [reflexivity|]. split; [reflexivity|].
  split; [reflexivity|].
  unfold autonomous. cbn [status uart1EnqueueData set_mList]. now rewrite Hst.
Qed.

(** ** The autonomous bit, set as a parameter *)

(** X5.  The parameter MODE_AUTO is the bit the mission upload is gated on.  Set
    to a nonzero value (while the parameter protocol is inactive), it makes
    the next count announcement fail with MAV_MISSION_ERROR and leaves the
    store alone; set to zero, it lets the next count announcement clear the
    store. *)
Theorem mode_auto_parameter_gates_upload (sys comp count : Z) (data : float) (s : State) :
  parameterProtocolState s = PARAM_STATE_INACTIVE ->
  let s1 := receiveMessage s (mkMessage sys comp (PARAM_SET "MODE_AUTO" data)) in
  let s2 := receiveMessage s1 (mkMessage sys comp (MISSION_COUNT count)) in
  autonomous s1 = nonzero data
  /\ mList s1 = mList s
  /\ (if nonzero data
      then sentBetween s1 s2 = [mission_ack sys comp MAV_MISSION_ERROR]
           /\ mList s2 = mList s
      else mList s2 = ClearMissionList (mList s)).
Proof.
  intros Hst s1 s2.
  set (m1 := mkMessage sys comp (PARAM_SET "MODE_AUTO" data)) in *.
  set (m2 := mkMessage sys comp (MISSION_COUNT count)) in *.
  destruct (latch_frame m1 s) as (Hs & Hml & _ & _ & Hps & _).
  assert (H1 : autonomous s1 = nonzero data /\ mList s1 = mList s).
  { subst s1. unfold receiveMessage, handleMessage. cbn [payload m1].
    unfold receiveParamSet. rewrite Hps, Hst. cbn [String.eqb Ascii.eqb Bool.eqb andb].
    cbv iota.
    destruct (setParameterBit_spec 0 "MODE_AUTO" data (latchGroundStation m1 s)
                ltac:(lia)) as (B & _).
    cbv zeta in B. unfold autonomous.
    cbn [status mList set_parameterProtocolState].
    split.
    - change (Z.shiftl 1 0) with 1 in B. unfold nonzero in B at 1.
      unfold _transmitParameter0.
      destruct (nonzero data).
      + apply negb_true_iff, Z.eqb_neq in B. apply Z.gtb_lt.
        pose proof (Z.land_nonneg (status (setParameterBit 0 (_transmitParameter 0 "MODE_AUTO")
                                             data (latchGroundStation m1 s))) 1) as [_ N].
        assert (P1 : 0 <= 1) by lia. specialize (N (or_intror P1)). lia.
      + apply negb_false_iff, Z.eqb_eq in B. rewrite B. reflexivity.
    - unfold setParameterBit, _transmitParameter0, _transmitParameter. cbv zeta.
      destruct (nonzero data); cbn [mList uart1EnqueueData set_currentParameter set_status];
        exact Hml. }
  destruct H1 as [A1 M1]. split; [exact A1|]. split; [exact M1|].
  clearbody s1.
  destruct (latch_frame m2 s1) as (Hs2 & Hml2 & Hu2 & _).
  subst s2. unfold receiveMessage, handleMessage. cbn [payload m2].
  unfold receiveMissionCount. fold (autonomous (latchGroundStation m2 s1)).
  replace (autonomous (latchGroundStation m2 s1)) with (autonomous s1)
    by (unfold autonomous; now rewrite Hs2).
  rewrite A1. cbv zeta. cbn [sysid compid m2].
  destruct (nonzero data).
  - split; [apply sentBetween_app; cbn [uart1 uart1EnqueueData]; now rewrite Hu2|].
    cbn [mList uart1EnqueueData]. now rewrite Hml2.
  - repeat match goal with |- context [if ?c then _ else _] => destruct c end;
      cbn [mList uart1EnqueueData set_mavlinkNewMissionListSize set_mList];
      now rewrite Hml2, M1.
Qed.

(** X1 at power-up: a frame from 0/0, then one from 7/9, then one from
    255/190. *)
Lemma ground_station_latched_once_witness :
  let s' := MavLinkReceive
              [mkMessage 0 0 MISSION_REQUEST_LIST;
               mkMessage 7 9 (PARAM_SET "MODE_HIL" 1);
               mkMessage 255 190 MISSION_CLEAR_ALL] (initialState 8) in
  (groundStationSystemId s', groundStationComponentId s') = (7, 9).
Proof.
  exact (ground_station_latched_once
           [mkMessage 0 0 MISSION_REQUEST_LIST;
            mkMessage 7 9 (PARAM_SET "MODE_HIL" 1);
            mkMessage 255 190 MISSION_CLEAR_ALL] (initialState 8)).
Defined.

Lemma param_request_read_answered_once_witness :
  let s1 := receiveMessage (initialState 8) (mkMessage 255 190 (PARAM_REQUEST_READ (-1))) in
  let s2 := MavLinkTransmit s1 in
  sentBetween (initialState 8) s1 = []
  /\ paramIndices (sentBetween s1 s2) = []
  /\ parameterProtocolState s2 = PARAM_STATE_INACTIVE
  /\ currentParameter s2 = 255.
Proof.
  apply (param_request_read_answered_once 255 190 (-1) (initialState 8)); reflexivity.
Defined.

Lemma mission_item_stored_in_any_mode_witness :
  let s := set_status 1 (initialState 8) in
  let s' := receiveMessage s (mkMessage 255 190 (MISSION_ITEM (waypoint 0 0))) in
  missions (mList s') = [missionOfItem (waypoint 0 0)]
  /\ status s' = 1
  /\ mavlinkNewMissionListSize s' = 0.
Proof.
  apply (mission_item_stored_in_any_mode 255 190 (waypoint 0 0)
           (set_status 1 (initialState 8))).
  - reflexivity.
  - cbn; lia.
Defined.

Lemma refused_count_still_clears_store_witness :
  let s := set_mList (mkMissionList [missionOfItem (waypoint 0 1)] 8 0) (initialState 8) in
  let s' := receiveMessage s (mkMessage 255 190 (MISSION_COUNT 9)) in
  sentBetween s s' = [mission_ack 255 190 MAV_MISSION_NO_SPACE]
  /\ missions (mList s') = []
  /\ GetCurrentMission (mList s') = -1
  /\ mavlinkNewMissionListSize s' = 9.
Proof.
  apply (refused_count_still_clears_store 255 190 9
           (set_mList (mkMissionList [missionOfItem (waypoint 0 1)] 8 0) (initialState 8))).
  - reflexivity.
  - right. cbn. lia.
Defined.

Lemma mode_auto_parameter_gates_upload_witness :
  let s := set_mList (mkMissionList [missionOfItem (waypoint 0 1)] 8 0) (initialState 8) in
  let s1 := receiveMessage s (mkMessage 255 190 (PARAM_SET "MODE_AUTO" 1)) in
  let s2 := receiveMessage s1 (mkMessage 255 190 (MISSION_COUNT 3)) in
  autonomous s1 = true
  /\ mList s1 = mList s
  /\ sentBetween s1 s2 = [mission_ack 255 190 MAV_MISSION_ERROR]
  /\ mList s2 = mList s.
Proof.
  apply (mode_auto_parameter_gates_upload 255 190 3 1
           (set_mList (mkMissionList [missionOfItem (waypoint 0 1)] 8 0) (initialState 8))).
  reflexivity.
Defined.

End MavlinkReceiveFacts.

Module MavlinkDownloadFacts.
Import Mavlink MavlinkSystem MavlinkFacts MavlinkReceiveFacts.

(** ** The frame queue only grows *)

Lemma transmitMessage_extends (s : State) (id : MsgId) :
  exists l, uart1 (transmitMessage s id) = uart1 s ++ l.
Proof.
  assert (P : forall n name st, uart1 (_transmitParameter n name st)
                                = uart1 st ++ [param_value name
                                     (if nonzero (Z.land (status st) (Z.shiftl 1 n))
                                      then 1 else 0) parameterCount n])
    by reflexivity.
  destruct id; cbn [transmitMessage]; try (eexists; reflexivity).
  - cbv zeta.
    unfold _transmitParameter0, _transmitParameter1, _transmitParameter2, _transmitParameter3.
    repeat match goal with |- context [if ?c =? ?d then _ else _] => destruct (c =? d) end;
      match goal with
      | |- context [match parameterProtocolState ?x with _ => _ end] =>
          destruct (parameterProtocolState x)
      end;
      cbn [uart1 set_parameterProtocolState set_currentParameter]; rewrite ?P;
      try (eexists; reflexivity); exists []; now rewrite app_nil_r.
  - cbv zeta. unfold MavLinkMissionItemSend.
    destruct (GetMission (currentMission s) (mList s));
      cbn [uart1 set_missionProtocolState set_missionProtocolRequestCounter
           set_currentMission uart1EnqueueData];
      [eexists; reflexivity|exists []; now rewrite app_nil_r].
Qed.

Lemma transmitMessages_extend (ids : list MsgId) :
  forall s, exists l, uart1 (fold_left transmitMessage ids s) = uart1 s ++ l.
Proof.
  induction ids as [|id ids IH]; intro s; cbn [fold_left].
  - exists []. now rewrite app_nil_r.
  - destruct (IH (transmitMessage s id)) as [l2 H2].
    destruct (transmitMessage_extends s id) as [l1 H1].
    exists (l1 ++ l2). now rewrite H2, H1, app_assoc.
Qed.

Lemma switches_uart1 (s : State) :
  uart1 (transmitMissionProtocol (transmitParameterProtocol s)) = uart1 s.
Proof.
  unfold transmitMissionProtocol, transmitParameterProtocol.
  destruct (parameterProtocolState s);
    repeat match goal with
           | |- context [if ?c then _ else _] => destruct c
           | |- context [match missionProtocolState ?x with _ => _ end] =>
               destruct (missionProtocolState x)
           end; reflexivity.
Qed.

Lemma MavLinkTransmit_extends (s : State) :
  exists l, uart1 (MavLinkTransmit s) = uart1 s ++ l.
Proof.
  unfold MavLinkTransmit. cbv zeta. unfold IncrementTimestep. cbv zeta.
  match goal with
  | |- context [fold_left transmitMessage ?ids ?st] =>
      destruct (transmitMessages_extend ids st) as [l H]
  end.
  exists l. rewrite H. cbn [uart1 set_scheduler]. now rewrite switches_uart1.
Qed.

Lemma sentBetween_extends (s s1 s2 : State) (a : list Packet) :
  uart1 s1 = uart1 s ++ a ->
  (exists l, uart1 s2 = uart1 s1 ++ l) ->
  uart1 s2 = uart1 s ++ a ++ sentBetween s1 s2.
Proof.
  intros H1 [l H2]. rewrite (sentBetween_app s1 s2 l H2), H2, H1.
  now rewrite app_assoc.
Qed.

(** ** Serving a download *)

Lemma latch_same_sender (sys comp : Z) (p p' : Payload) (s s' : State) :
  groundStationSystemId s'
  = groundStationSystemId (latchGroundStation (mkMessage sys comp p) s) ->
  groundStationComponentId s'
  = groundStationComponentId (latchGroundStation (mkMessage sys comp p) s) ->
  groundStationSystemId (latchGroundStation (mkMessage sys comp p') s')
  = groundStationSystemId s'
  /\ groundStationComponentId (latchGroundStation (mkMessage sys comp p') s')
     = groundStationComponentId s'.
Proof.
  unfold latchGroundStation, nonzero. cbn [sysid compid].
  destruct (groundStationSystemId s =? 0) eqn:A, (groundStationComponentId s =? 0) eqn:B;
    cbn [negb andb groundStationSystemId groundStationComponentId set_groundStation];
    intros H1 H2;
    destruct (groundStationSystemId s' =? 0) eqn:A', (groundStationComponentId s' =? 0) eqn:B';
    cbn [negb andb groundStationSystemId groundStationComponentId set_groundStation];
    split; first [reflexivity | congruence].
Qed.

Lemma missionPass_response_none (cm mc : Z) (ml : MissionList) (gs gc : Z) :
  GetMission cm ml = None ->
  missionPass (MISSION_STATE_REQUEST_LIST_RESPONSE, cm, mc) ml gs gc
  = ((MISSION_STATE_REQUEST_LIST_COUNTDOWN, uint8 (cm + 1), 0), []).
Proof.
  intro H. unfold missionPass, missionOnly, MavLinkTransmit.
  cbn [transmitParameterProtocol transmitMissionProtocol parameterProtocolState
       missionProtocolState set_missionProtocolState set_scheduler scheduler
       AddTransientMessage IncrementTimestep now periodic transients
       app map filter fold_left transmitMessage].
  unfold MavLinkMissionItemSend.
  cbn [currentMission mList set_missionProtocolState set_scheduler]. rewrite H.
  reflexivity.
Qed.

Lemma combine_seq_snoc {A : Type} (l : list A) :
  forall (k a : nat) (m : A),
    nth_error l k = Some m ->
    combine (seq a (S k)) l = combine (seq a k) l ++ [(a + k, m)%nat].
Proof.
  induction l as [|x l IH]; intros k a m H.
  - destruct k; discriminate.
  - destruct k as [|k].
    + cbn in H. injection H as ->. cbn. now rewrite Nat.add_0_r.
    + cbn [nth_error] in H. change (seq a (S (S k))) with (a :: seq (S a) (S k)).
      change (seq a (S k)) with (a :: seq (S a) k). cbn [combine app].
      rewrite (IH k (S a) m H).
      replace (S a + k)%nat with (a + S k)%nat by lia. reflexivity.
Qed.

(** One served request: the state [s] has the serve index [k] and the store
    holds a mission there. *)
Lemma serve_one (sys comp : Z) (s : State) (k : nat) (m : Mission) :
  schedulerIdle (scheduler s) = true ->
  currentMission s = Z.of_nat k ->
  (k < 255)%nat ->
  nth_error (missions (mList s)) k = Some m ->
  let r := receiveMessage s (mkMessage sys comp (MISSION_REQUEST (Z.of_nat k))) in
  let s' := MavLinkTransmit r in
  uart1 r = uart1 s
  /\ filter isMissionPacket (sentBetween r s')
     = [mission_item (groundStationSystemId r) (groundStationComponentId r)
          (Z.of_nat k) m (Z.of_nat k =? uint8 (GetCurrentMission (mList s)))]
  /\ missionView s' = (MISSION_STATE_REQUEST_LIST_COUNTDOWN, Z.of_nat (S k), 0)
  /\ mList s' = mList s
  /\ schedulerIdle (scheduler s') = true
  /\ groundStationSystemId s' = groundStationSystemId r
  /\ groundStationComponentId s' = groundStationComponentId r
  /\ groundStationSystemId r
     = groundStationSystemId
         (latchGroundStation (mkMessage sys comp (MISSION_REQUEST (Z.of_nat k))) s)
  /\ groundStationComponentId r
     = groundStationComponentId
         (latchGroundStation (mkMessage sys comp (MISSION_REQUEST (Z.of_nat k))) s).
Proof.
  intros Hidle Hcm Hk Hm r s'.
  set (msg := mkMessage sys comp (MISSION_REQUEST (Z.of_nat k))) in *.
  destruct (latch_frame msg s) as (_ & Hml & Hu & _ & _ & _ & _ & Hcur & Hsch).
  assert (U8 : uint8 (Z.of_nat k) = Z.of_nat k) by (apply Z.mod_small; lia).
  assert (Hr : r = set_missionProtocolState MISSION_STATE_REQUEST_LIST_RESPONSE
                     (latchGroundStation msg s)).
  { subst r. unfold receiveMessage, handleMessage. cbn [payload msg]. cbv zeta.
    now rewrite Hcur, Hcm, U8, Z.eqb_refl. }
  clearbody r.
  assert (Hidle' : schedulerIdle (scheduler r) = true).
  { rewrite Hr. cbn [scheduler set_missionProtocolState]. now rewrite Hsch. }
  pose proof (transmit_mission_alone r Hidle') as T. cbv zeta in T. fold s' in T.
  destruct T as (T & T1 & T2 & T3 & _).
  destruct (transmit_param_alone r Hidle') as [I _]. fold s' in I.
  assert (V : missionView r
              = (MISSION_STATE_REQUEST_LIST_RESPONSE, Z.of_nat k,
                 missionProtocolRequestCounter r)).
  { rewrite Hr. unfold missionView.
    cbn [missionProtocolState currentMission missionProtocolRequestCounter
         set_missionProtocolState]. now rewrite Hcur, Hcm. }
  assert (Mr : mList r = mList s) by (rewrite Hr; exact Hml).
  rewrite V, Mr in T.
  rewrite (missionPass_response _ _ _ _ _ m) in T.
  2:{ unfold GetMission. replace (Z.of_nat k <? 0) with false
        by (symmetry; apply Z.ltb_ge; lia). now rewrite Nat2Z.id. }
  inversion T as [[T4 T5 T6 T7]].
  assert (U8' : uint8 (Z.of_nat k + 1) = Z.of_nat (S k)) by (unfold uint8; rewrite Z.mod_small; lia).
  split; [rewrite Hr; exact Hu|]. split; [reflexivity|].
  split; [unfold missionView; now rewrite T4, T5, T6, U8'|].
  split; [now rewrite T1|]. split; [exact I|].
  split; [exact T2|]. split; [exact T3|].
  rewrite Hr. split; reflexivity.
Qed.

(** X6.  A download serves the store in order.  From an inactive mission protocol,
    the list request followed by a transmit pass sends the count announcement
    with the store's size; each request for the next mission, followed by a
    transmit pass, sends that mission with its index and its current flag.
    After [k] such requests the mission frames sent are the count and the
    first [k] missions of the store, in order, addressed to the latched ground
    station; the serve index is [k], the protocol is counting down, and the
    store is unchanged. *)
Theorem download_serves_store_in_order (sys comp : Z) (k : nat) (s : State) :
  schedulerIdle (scheduler s) = true ->
  missionProtocolState s = MISSION_STATE_INACTIVE ->
  (length (missions (mList s)) <= 255)%nat ->
  (k <= length (missions (mList s)))%nat ->
  let s0 := latchGroundStation (mkMessage sys comp MISSION_REQUEST_LIST) s in
  let gs := groundStationSystemId s0 in
  let gc := groundStationComponentId s0 in
  let s' := downloadRun sys comp k s in
  filter isMissionPacket (sentBetween s s')
  = mission_count gs gc (Z.of_nat (length (missions (mList s))))
      :: itemFrames gs gc k (mList s)
  /\ missionView s' = (MISSION_STATE_REQUEST_LIST_COUNTDOWN, Z.of_nat k, 0)
  /\ mList s' = mList s.
Proof.
  intros Hidle Hst Hcap Hk. cbv zeta.
  set (msg0 := mkMessage sys comp MISSION_REQUEST_LIST).
  set (gs := groundStationSystemId (latchGroundStation msg0 s)).
  set (gc := groundStationComponentId (latchGroundStation msg0 s)).
  assert (G : exists a,
             uart1 (downloadRun sys comp k s) = uart1 s ++ a
             /\ filter isMissionPacket a
                = mission_count gs gc (Z.of_nat (length (missions (mList s))))
                    :: itemFrames gs gc k (mList s)
             /\ missionView (downloadRun sys comp k s)
                = (MISSION_STATE_REQUEST_LIST_COUNTDOWN, Z.of_nat k, 0)
             /\ mList (downloadRun sys comp k s) = mList s
             /\ schedulerIdle (scheduler (downloadRun sys comp k s)) = true
             /\ groundStationSystemId (downloadRun sys comp k s) = gs
             /\ groundStationComponentId (downloadRun sys comp k s) = gc).
  { induction k as [|k IH].
    - cbn [downloadRun]. fold msg0.
      destruct (latch_frame msg0 s) as (_ & Hml & Hu & _ & _ & _ & Hms & _ & Hsch).
      set (r := receiveMessage s msg0).
      assert (Hr : r = set_missionProtocolState MISSION_STATE_REQUEST_LIST_START
                         (latchGroundStation msg0 s)).
      { subst r. unfold receiveMessage, handleMessage. cbn [payload msg0].
        now rewrite Hms, Hst. }
      clearbody r.
      assert (Hidle' : schedulerIdle (scheduler r) = true).
      { rewrite Hr. cbn [scheduler set_missionProtocolState]. now rewrite Hsch. }
      pose proof (transmit_mission_alone r Hidle') as T. cbv zeta in T.
      destruct T as (T & T1 & T2 & T3 & _).
      destruct (transmit_param_alone r Hidle') as [I _].
      assert (V : missionView r
                  = (MISSION_STATE_REQUEST_LIST_START, currentMission r,
                     missionProtocolRequestCounter r)).
      { rewrite Hr. reflexivity. }
      assert (Mr : mList r = mList s) by (rewrite Hr; exact Hml).
      assert (Ur : uart1 r = uart1 s) by (rewrite Hr; exact Hu).
      assert (Gs : groundStationSystemId r = gs) by (rewrite Hr; reflexivity).
      assert (Gc : groundStationComponentId r = gc) by (rewrite Hr; reflexivity).
      rewrite V, missionPass_start, Mr, Gs, Gc in T.
      inversion T as [[T4 T5 T6 T7]].
      exists (sentBetween r (MavLinkTransmit r)).
      split.
      { pose proof (sentBetween_extends r r (MavLinkTransmit r) [] ltac:(now rewrite app_nil_r)
                      (MavLinkTransmit_extends r)) as E.
        cbn [app] in E. now rewrite E, Ur. }
      split.
      { rewrite T7. unfold GetMissionCount, uint8. rewrite Z.mod_small by lia.
        reflexivity. }
      split; [unfold missionView; now rewrite T4, T5, T6|].
      split; [now rewrite T1|]. split; [exact I|].
      split; [now rewrite T2|now rewrite T3].
    - destruct IH as (a & Ua & Fa & Va & Ma & Ia & Ga & Ca); [lia|].
      cbn [downloadRun].
      remember (downloadRun sys comp k s) as sk eqn:Ek. clear Ek.
      assert (Hcm : currentMission sk = Z.of_nat k).
      { unfold missionView in Va. now inversion Va. }
      destruct (nth_error (missions (mList s)) k) as [m|] eqn:Hm.
      2:{ apply nth_error_None in Hm. lia. }
      pose proof (serve_one sys comp sk k m Ia Hcm ltac:(lia)) as S1.
      rewrite Ma in S1. specialize (S1 Hm). cbv zeta in S1.
      destruct S1 as (R1 & R2 & R3 & R4 & R5 & R6 & R7 & R8 & R9).
      destruct (latch_same_sender sys comp MISSION_REQUEST_LIST
                  (MISSION_REQUEST (Z.of_nat k)) s sk Ga Ca) as [L1 L2].
      rewrite L1, Ga in R8. rewrite L2, Ca in R9.
      set (r := receiveMessage sk (mkMessage sys comp (MISSION_REQUEST (Z.of_nat k)))) in *.
      exists (a ++ sentBetween r (MavLinkTransmit r)).
      split.
      { apply sentBetween_extends; [now rewrite R1|apply MavLinkTransmit_extends]. }
      split.
      { rewrite filter_mission_app, Fa, R2, R8, R9. cbn [app]. f_equal.
        unfold itemFrames. rewrite (combine_seq_snoc _ k 0%nat m Hm), map_app.
        cbn [map fst snd Nat.add]. reflexivity. }
      split; [exact R3|]. split; [exact R4|]. split; [exact R5|].
      split; [now rewrite R6|now rewrite R7]. }
  destruct G as (a & Ua & Fa & Va & Ma & _).
  rewrite (sentBetween_app _ _ _ Ua). auto.
Qed.

(** X7.  A request past the end of the store.  A request for the mission at the
    serve index, when the store holds no mission there, is taken like any
    other: the next transmit pass sends no mission frame at all, yet it
    advances the serve index and restarts the countdown. *)
Theorem mission_request_past_end_is_swallowed (sys comp seq : Z) (s : State) :
  schedulerIdle (scheduler s) = true ->
  currentMission s = uint8 seq ->
  GetMission (currentMission s) (mList s) = None ->
  let r := receiveMessage s (mkMessage sys comp (MISSION_REQUEST seq)) in
  let s' := MavLinkTransmit r in
  filter isMissionPacket (sentBetween s s') = []
  /\ missionView s'
     = (MISSION_STATE_REQUEST_LIST_COUNTDOWN, uint8 (currentMission s + 1), 0).
Proof.
  intros Hidle Hcm Hnone r s'.
  set (msg := mkMessage sys comp (MISSION_REQUEST seq)) in *.
  destruct (latch_frame msg s) as (_ & Hml & Hu & _ & _ & _ & _ & Hcur & Hsch).
  assert (Hr : r = set_missionProtocolState MISSION_STATE_REQUEST_LIST_RESPONSE
                     (latchGroundStation msg s)).
  { subst r. unfold receiveMessage, handleMessage. cbn [payload msg]. cbv zeta.
    now rewrite Hcur, Hcm, Z.eqb_refl. }
  clearbody r.
  assert (Hidle' : schedulerIdle (scheduler r) = true).
  { rewrite Hr. cbn [scheduler set_missionProtocolState]. now rewrite Hsch. }
  pose proof (transmit_mission_alone r Hidle') as T. cbv zeta in T. fold s' in T.
  destruct T as (T & _).
  assert (V : missionView r
              = (MISSION_STATE_REQUEST_LIST_RESPONSE, currentMission s,
                 missionProtocolRequestCounter r)).
  { rewrite Hr. unfold missionView.
    cbn [missionProtocolState currentMission missionProtocolRequestCounter
         set_missionProtocolState]. now rewrite Hcur. }
  assert (Mr : mList r = mList s) by (rewrite Hr; exact Hml).
  assert (Ur : uart1 r = uart1 s) by (rewrite Hr; exact Hu).
  rewrite V, Mr, (missionPass_response_none _ _ _ _ _ Hnone) in T.
  inversion T as [[T4 T5 T6 T7]].
  split.
  - unfold sentBetween in *. now rewrite <- Ur.
  - unfold missionView. now rewrite T4, T5, T6.
Qed.

(** ** The idle link *)

Lemma parameterPass_inactive (c dc : Z) :
  parameterPass (PARAM_STATE_INACTIVE, c, dc) = ((PARAM_STATE_INACTIVE, c, dc), []).
Proof. reflexivity. Qed.

Lemma missionPass_inactive (cm mc : Z) (ml : MissionList) (gs gc : Z) :
  missionPass (MISSION_STATE_INACTIVE, cm, mc) ml gs gc
  = ((MISSION_STATE_INACTIVE, cm, mc), []).
Proof. reflexivity. Qed.

(** X8.  With both protocols inactive and nothing queued, the transmitter only
    sends its periodic telemetry: over any number of transmit passes no
    parameter and no mission frame goes out, both protocols stay inactive,
    and the mission store, the status word, the expected upload total and
    the latched ground-station ids stay as they are. *)
Theorem idle_link_sends_only_telemetry (n : nat) (s : State) :
  schedulerIdle (scheduler s) = true ->
  parameterProtocolState s = PARAM_STATE_INACTIVE ->
  missionProtocolState s = MISSION_STATE_INACTIVE ->
  let s' := transmitPasses n s in
  paramIndices (sentBetween s s') = []
  /\ filter isMissionPacket (sentBetween s s') = []
  /\ parameterProtocolState s' = PARAM_STATE_INACTIVE
  /\ missionProtocolState s' = MISSION_STATE_INACTIVE
  /\ mList s' = mList s
  /\ status s' = status s
  /\ mavlinkNewMissionListSize s' = mavlinkNewMissionListSize s
  /\ groundStationSystemId s' = groundStationSystemId s
  /\ groundStationComponentId s' = groundStationComponentId s.
Proof.
  intros Hidle Hp Hm. cbv zeta.
  destruct (passes_frame n s Hidle) as (F1 & F2 & F3 & F4 & F5).
  assert (G : exists a,
             uart1 (transmitPasses n s) = uart1 s ++ a
             /\ paramIndices a = [] /\ filter isMissionPacket a = []
             /\ parameterProtocolState (transmitPasses n s) = PARAM_STATE_INACTIVE
             /\ missionProtocolState (transmitPasses n s) = MISSION_STATE_INACTIVE).
  { induction n as [|n IH].
    - exists []. cbn [transmitPasses]. rewrite app_nil_r. auto.
    - destruct IH as (a & Ua & Pa & Ma & Sp & Sm).
      { apply (passes_frame n s Hidle). } { apply (passes_frame n s Hidle). }
      { apply (passes_frame n s Hidle). } { apply (passes_frame n s Hidle). }
      { apply (passes_frame n s Hidle). }
      rewrite transmitPasses_S.
      pose proof (passes_idle n s Hidle) as Hi.
      remember (transmitPasses n s) as sn eqn:En. clear En.
      destruct (transmit_param_alone sn Hi) as [_ TP].
      destruct (transmit_mission_alone sn Hi) as (TM & _).
      assert (VP : paramView sn = (PARAM_STATE_INACTIVE, currentParameter sn, delayCountdown sn)).
      { unfold paramView. now rewrite Sp. }
      assert (VM : missionView sn
                   = (MISSION_STATE_INACTIVE, currentMission sn,
                      missionProtocolRequestCounter sn)).
      { unfold missionView. now rewrite Sm. }
      rewrite VP, parameterPass_inactive in TP.
      rewrite VM, missionPass_inactive in TM.
      inversion TP as [[P1 P2 P3 P4]]. inversion TM as [[M1 M2 M3 M4]].
      exists (a ++ sentBetween sn (MavLinkTransmit sn)).
      split; [apply sentBetween_extends; [exact Ua|apply MavLinkTransmit_extends]|].
      rewrite paramIndices_app, filter_mission_app, Pa, Ma, P4, M4. auto. }
  destruct G as (a & Ua & Pa & Ma & Sp & Sm).
  rewrite (sentBetween_app _ _ _ Ua). repeat split; auto.
Qed.

Lemma download_serves_store_in_order_witness :
  let ml := mkMissionList [missionOfItem (waypoint 0 0); missionOfItem (waypoint 1 1)] 8 1 in
  let s := set_mList ml (initialState 8) in
  let s' := downloadRun 255 190 2 s in
  filter isMissionPacket (sentBetween s s')
  = [mission_count 255 190 2;
     mission_item 255 190 0 (missionOfItem (waypoint 0 0)) false;
     mission_item 255 190 1 (missionOfItem (waypoint 1 1)) true]
  /\ missionView s' = (MISSION_STATE_REQUEST_LIST_COUNTDOWN, 2, 0)
  /\ mList s' = ml.
Proof.
  apply (download_serves_store_in_order 255 190 2
           (set_mList
              (mkMissionList [missionOfItem (waypoint 0 0); missionOfItem (waypoint 1 1)] 8 1)
              (initialState 8))).
  - reflexivity.
  - reflexivity.
  - cbn; lia.
  - cbn; lia.
Defined.

Lemma mission_request_past_end_is_swallowed_witness :
  let r := receiveMessage (initialState 8) (mkMessage 255 190 (MISSION_REQUEST 256)) in
  let s' := MavLinkTransmit r in
  filter isMissionPacket (sentBetween (initialState 8) s') = []
  /\ missionView s' = (MISSION_STATE_REQUEST_LIST_COUNTDOWN, 1, 0).
Proof.
  apply (mission_request_past_end_is_swallowed 255 190 256 (initialState 8)); reflexivity.
Defined.

Lemma idle_link_sends_only_telemetry_witness :
  let s' := transmitPasses 8 (initialState 8) in
  paramIndices (sentBetween (initialState 8) s') = []
  /\ filter isMissionPacket (sentBetween (initialState 8) s') = []
  /\ parameterProtocolState s' = PARAM_STATE_INACTIVE
  /\ missionProtocolState s' = MISSION_STATE_INACTIVE
  /\ mList s' = mList (initialState 8)
  /\ status s' = 0
  /\ mavlinkNewMissionListSize s' = 0
  /\ groundStationSystemId s' = 0
  /\ groundStationComponentId s' = 0.
Proof.
  apply (idle_link_sends_only_telemetry 8 (initialState 8)); reflexivity.
Defined.

End MavlinkDownloadFacts.

Module MavlinkSystemFacts.
Import Mavlink MavlinkSystem.

(** ** Bits of the mode field *)

Lemma uint8_bit (x n : Z) : Z.testbit (uint8 x) n = (n <? 8) && Z.testbit x n.
Proof. unfold uint8. change 256 with (2 ^ 8). apply Z.testbit_mod_pow2. lia. Qed.

Lemma small_bit (f n : Z) : 0 <= f < 256 -> (n <? 8) = false -> Z.testbit f n = false.
Proof.
  intros Hf Hn. apply Z.ltb_ge in Hn.
  rewrite <- (Z.mod_small f 256 Hf). change 256 with (2 ^ 8).
  apply Z.mod_pow2_bits_high. lia.
Qed.

Lemma apart_bit (a b n : Z) : Z.land a b = 0 -> Z.testbit a n && Z.testbit b n = false.
Proof. intro H. rewrite <- Z.land_spec, H. apply Z.bits_0. Qed.

Section WithModeFlags.

Context {flags : ModeFlags}.

(** What [modeFlagsApart] says, flag by flag and pair by pair. *)
Lemma modeFlagsApart_spec :
  modeFlagsApart = true ->
  (0 <= MAV_MODE_FLAG_SAFETY_ARMED < 256
   /\ 0 <= MAV_MODE_FLAG_MANUAL_INPUT_ENABLED < 256
   /\ 0 <= MAV_MODE_FLAG_HIL_ENABLED < 256
   /\ 0 <= MAV_MODE_FLAG_GUIDED_ENABLED < 256
   /\ 0 <= MAV_MODE_FLAG_AUTO_ENABLED < 256)
  /\ Z.land MAV_MODE_FLAG_SAFETY_ARMED MAV_MODE_FLAG_MANUAL_INPUT_ENABLED = 0
  /\ Z.land MAV_MODE_FLAG_SAFETY_ARMED MAV_MODE_FLAG_HIL_ENABLED = 0
  /\ Z.land MAV_MODE_FLAG_SAFETY_ARMED MAV_MODE_FLAG_GUIDED_ENABLED = 0
  /\ Z.land MAV_MODE_FLAG_SAFETY_ARMED MAV_MODE_FLAG_AUTO_ENABLED = 0
  /\ Z.land MAV_MODE_FLAG_MANUAL_INPUT_ENABLED MAV_MODE_FLAG_HIL_ENABLED = 0
  /\ Z.land MAV_MODE_FLAG_MANUAL_INPUT_ENABLED MAV_MODE_FLAG_GUIDED_ENABLED = 0
  /\ Z.land MAV_MODE_FLAG_MANUAL_INPUT_ENABLED MAV_MODE_FLAG_AUTO_ENABLED = 0
  /\ Z.land MAV_MODE_FLAG_HIL_ENABLED MAV_MODE_FLAG_GUIDED_ENABLED = 0
  /\ Z.land MAV_MODE_FLAG_HIL_ENABLED MAV_MODE_FLAG_AUTO_ENABLED = 0
  /\ Z.land MAV_MODE_FLAG_GUIDED_ENABLED MAV_MODE_FLAG_AUTO_ENABLED = 0.
Proof.
  unfold modeFlagsApart. cbn [forallb fst snd]. intro H.
  repeat match goal with
         | H : _ && _ = true |- _ => apply andb_true_iff in H; destruct H
         end.
  repeat match goal with
         | H : (_ <=? _) = true |- _ => apply Z.leb_le in H
         | H : (_ <? _) = true |- _ => apply Z.ltb_lt in H
         | H : (_ =? _) = true |- _ => apply Z.eqb_eq in H
         end.
  repeat split; assumption.
Qed.

(** The bits of both sides of an equation between mode words, one bit at a
    time, with what is known about that bit of each flag. *)
Ltac mode_bits :=
  apply Z.bits_inj'; intros n Hn;
  repeat match goal with
         | H : Z.land ?a ?b = 0 |- _ =>
             pose proof (apart_bit a b n H); clear H
         | H : 0 <= ?f < 256 |- _ =>
             pose proof (small_bit f n H); clear H
         end;
  repeat first [ rewrite uint8_bit | rewrite Z.land_spec | rewrite Z.lor_spec
               | rewrite Z.lnot_spec by assumption | rewrite Z.bits_0 ];
  repeat match goal with
         | |- context [Z.testbit ?x n] =>
             let b := fresh "b" in
             let E := fresh "E" in
             remember (Z.testbit x n) as b eqn:E; clear E
         end;
  destruct (n <? 8);
  repeat match goal with
         | H : (false = false -> _) |- _ => specialize (H eq_refl)
         | H : (true = false -> _) |- _ => clear H
         end;
  repeat match goal with
         | b : bool |- _ => destruct b
         end;
  cbn in *; congruence.

(** X9.  After [MavLinkSendStatusAndErrors] the system state is the first that
    applies of: booting (startup reset, bit 0), calibrating (bit 5), standby
    (any other reset bit), active.  In the mode field the armed flag is set
    unless the startup reset is on; the auto and guided flags are set and the
    manual-input flag cleared if status bit 0 (autonomous) is on, and the
    other way round if it is off, so that auto and manual input never stand
    together; the HIL flag follows status bit 1; every bit outside the five
    flags is as it was.  A second call with the same status and reset changes
    nothing.  (The five flags fit the 8-bit field and share no bit.) *)
Theorem system_mode_follows_status (status reset : Z) (sys : mavlink_system_t) :
  modeFlagsApart = true ->
  0 <= mode sys < 256 ->
  let sys' := MavLinkSendStatusAndErrors status reset sys in
  let startup := nonzero (Z.land reset 1) in
  let auto := nonzero (Z.land status 1) in
  let hil := nonzero (Z.land status 2) in
  state sys' = (if startup then MAV_STATE_BOOT
                else if nonzero (Z.land reset 32) then MAV_STATE_CALIBRATING
                else if reset >? 0 then MAV_STATE_STANDBY
                else MAV_STATE_ACTIVE)
  /\ Z.land (mode sys') MAV_MODE_FLAG_SAFETY_ARMED
     = (if startup then 0 else MAV_MODE_FLAG_SAFETY_ARMED)
  /\ Z.land (mode sys') MAV_MODE_FLAG_AUTO_ENABLED
     = (if auto then MAV_MODE_FLAG_AUTO_ENABLED else 0)
  /\ Z.land (mode sys') MAV_MODE_FLAG_GUIDED_ENABLED
     = (if auto then MAV_MODE_FLAG_GUIDED_ENABLED else 0)
  /\ Z.land (mode sys') MAV_MODE_FLAG_MANUAL_INPUT_ENABLED
     = (if auto then 0 else MAV_MODE_FLAG_MANUAL_INPUT_ENABLED)
  /\ Z.land (mode sys') MAV_MODE_FLAG_HIL_ENABLED
     = (if hil then MAV_MODE_FLAG_HIL_ENABLED else 0)
  /\ (forall m : Z,
        Z.land m MAV_MODE_FLAG_SAFETY_ARMED = 0 ->
        Z.land m MAV_MODE_FLAG_AUTO_ENABLED = 0 ->
        Z.land m MAV_MODE_FLAG_GUIDED_ENABLED = 0 ->
        Z.land m MAV_MODE_FLAG_MANUAL_INPUT_ENABLED = 0 ->
        Z.land m MAV_MODE_FLAG_HIL_ENABLED = 0 ->
        Z.land (mode sys') m = Z.land (mode sys) m)
  /\ MavLinkSendStatusAndErrors status reset sys' = sys'.
Proof.
  intros Hflags Hmode. cbv zeta.
  destruct (modeFlagsApart_spec Hflags)
    as ((F1 & F2 & F3 & F4 & F5) & P1 & P2 & P3 & P4 & P5 & P6 & P7 & P8 & P9 & P10).
  unfold MavLinkSendStatusAndErrors. cbv zeta.
  change (Z.shiftl 1 0) with 1. change (Z.shiftl 1 5) with 32. change (Z.shiftl 1 1) with 2.
  destruct (nonzero (Z.land reset 1)); [|destruct (nonzero (Z.land reset 32));
                                          [|destruct (reset >? 0)]];
    destruct (nonzero (Z.land status 1)); destruct (nonzero (Z.land status 2));
    cbn [state mode];
    (split; [reflexivity|]);
    (split; [mode_bits|]); (split; [mode_bits|]); (split; [mode_bits|]);
    (split; [mode_bits|]); (split; [mode_bits|]);
    (split; [intros m M1 M2 M3 M4 M5; mode_bits|]);
    f_equal; mode_bits.
Qed.

End WithModeFlags.

(** A call on the flag values of the common message set: autonomous, no
    reset, from the power-up mode 0. *)
Lemma system_mode_follows_status_witness :
  let sys' := @MavLinkSendStatusAndErrors commonModeFlags 1 0
                (mkSystem MAV_STATE_UNINIT 0) in
  state sys' = MAV_STATE_ACTIVE
  /\ Z.land (mode sys') 128 = 128
  /\ Z.land (mode sys') 4 = 4
  /\ Z.land (mode sys') 8 = 8
  /\ Z.land (mode sys') 64 = 0
  /\ Z.land (mode sys') 32 = 0
  /\ (forall m : Z,
        Z.land m 128 = 0 -> Z.land m 4 = 0 -> Z.land m 8 = 0 ->
        Z.land m 64 = 0 -> Z.land m 32 = 0 ->
        Z.land (mode sys') m = Z.land 0 m)
  /\ @MavLinkSendStatusAndErrors commonModeFlags 1 0 sys' = sys'.
Proof.
  apply (@system_mode_follows_status commonModeFlags 1 0 (mkSystem MAV_STATE_UNINIT 0)).
  - reflexivity.
  - cbn; lia.
Defined.

End MavlinkSystemFacts.

(* ===================================================================== *)
(** * Further properties of PrimaryNode.c                                  *)
(* ===================================================================== *)

Module PrimaryNodeLedFacts.
Import PrimaryNode PrimaryNodeHelpers.

(** ** Blinking *)

Lemma succ_mod (p m : Z) :
  0 < p -> (m + 1) mod p = if m mod p =? p - 1 then 0 else m mod p + 1.
Proof.
  intros Hp. pose proof (Z.mod_pos_bound m p Hp) as Hr.
  pose proof (Z.div_mod m p ltac:(lia)) as Hm.
  destruct (m mod p =? p - 1) eqn:E.
  - apply Z.eqb_eq in E. symmetry.
    apply (Z.mod_unique_pos (m + 1) p (m / p + 1) 0); lia.
  - apply Z.eqb_neq in E. symmetry.
    apply (Z.mod_unique_pos (m + 1) p (m / p) (m mod p + 1)); lia.
Qed.

(** One call of a blink body with half-period [H] and period [P]: after [m]
    calls from a zero counter the counter is [m mod P] and (from the first call
    on) the latch is on for the counts [1 .. H] of each period. *)
Lemma blink_step (H P m : Z) (l : Led) :
  0 < H -> H < P - 1 -> P <= 256 -> 0 <= m ->
  blinkCounter l = m mod P ->
  (1 <= m -> LAT l = if (1 <=? m mod P) && (m mod P <=? H) then ON else OFF) ->
  let l' := if blinkCounter l =? 0 then mkLed 1 ON
            else if blinkCounter l =? H then mkLed (uint8 (blinkCounter l + 1)) OFF
            else if blinkCounter l =? P - 1 then mkLed 0 (LAT l)
            else mkLed (uint8 (blinkCounter l + 1)) (LAT l) in
  blinkCounter l' = (m + 1) mod P
  /\ LAT l' = if (1 <=? (m + 1) mod P) && ((m + 1) mod P <=? H) then ON else OFF.
Proof.
  intros HH HP HP' Hm Hc Hl. cbv zeta.
  assert (Hp : 0 < P) by lia.
  pose proof (Z.mod_pos_bound m P Hp) as Hr.
  rewrite (succ_mod P m Hp). rewrite Hc.
  destruct (m mod P =? 0) eqn:E0.
  - apply Z.eqb_eq in E0. rewrite E0.
    replace (0 =? P - 1) with false by (symmetry; apply Z.eqb_neq; lia).
    cbn [blinkCounter LAT]. split; [reflexivity|].
    replace (1 <=? 0 + 1) with true by (symmetry; apply Z.leb_le; lia).
    replace (0 + 1 <=? H) with true by (symmetry; apply Z.leb_le; lia).
    reflexivity.
  - apply Z.eqb_neq in E0.
    assert (H1 : 1 <= m).
    { destruct (Z.eq_dec m 0) as [->|]; [|lia]. rewrite Z.mod_0_l in E0; lia. }
    specialize (Hl H1).
    assert (U : m mod P < P - 1 -> uint8 (m mod P + 1) = m mod P + 1).
    { intros. unfold uint8. apply Z.mod_small. lia. }
    destruct (m mod P =? H) eqn:EH.
    + apply Z.eqb_eq in EH. rewrite EH in *.
      replace (H =? P - 1) with false by (symmetry; apply Z.eqb_neq; lia).
      cbn [blinkCounter LAT]. split; [apply U; lia|].
      replace (H + 1 <=? H) with false by (symmetry; apply Z.leb_gt; lia).
      now rewrite andb_false_r.
    + apply Z.eqb_neq in EH.
      destruct (m mod P =? P - 1) eqn:EP.
      * apply Z.eqb_eq in EP. cbn [blinkCounter LAT]. split; [reflexivity|].
        rewrite Hl.
        replace (m mod P <=? H) with false by (symmetry; apply Z.leb_gt; lia).
        now rewrite andb_false_r.
      * apply Z.eqb_neq in EP. cbn [blinkCounter LAT]. split; [apply U; lia|].
        rewrite Hl.
        replace (1 <=? m mod P) with true by (symmetry; apply Z.leb_le; lia).
        replace (1 <=? m mod P + 1) with true by (symmetry; apply Z.leb_le; lia).
        cbn [andb].
        destruct (m mod P <=? H) eqn:L1.
        -- apply Z.leb_le in L1.
           replace (m mod P + 1 <=? H) with true by (symmetry; apply Z.leb_le; lia).
           reflexivity.
        -- apply Z.leb_gt in L1.
           replace (m mod P + 1 <=? H) with false by (symmetry; apply Z.leb_gt; lia).
           reflexivity.
Qed.

(** X10.  The status LED: whatever the latch shows at power-up, after the [n]-th
    call the counter is [n mod 200] and the LED is on exactly when
    [n mod 200] lies in [1 .. 100]: on for 100 calls, off for 100 calls. *)
Theorem status_led_blinks (n : nat) (lat0 : Level) :
  let l := Nat.iter (S n) SetStatusModeLed (mkLed 0 lat0) in
  let k := Z.of_nat (S n) mod 200 in
  blinkCounter l = k
  /\ LAT l = if (1 <=? k) && (k <=? 100) then ON else OFF.
Proof.
  cbv zeta.
  assert (G : forall m : nat,
             let l := Nat.iter m SetStatusModeLed (mkLed 0 lat0) in
             blinkCounter l = Z.of_nat m mod 200
             /\ (1 <= Z.of_nat m ->
                 LAT l = if (1 <=? Z.of_nat m mod 200) && (Z.of_nat m mod 200 <=? 100)
                         then ON else OFF)).
  { induction m as [|m [IHc IHl]]; cbv zeta.
    - split; [reflexivity|]. cbn. lia.
    - rewrite Nat.iter_succ. rewrite Nat2Z.inj_succ, <- Z.add_1_r.
      pose proof (blink_step 100 200 (Z.of_nat m) _ ltac:(lia) ltac:(lia) ltac:(lia)
                    (Nat2Z.is_nonneg m) IHc IHl) as [S1 S2].
      change (200 - 1) with 199 in S1, S2.
      unfold SetStatusModeLed at 1 3. split; [exact S1|]. intros _. exact S2. }
  destruct (G (S n)) as [G1 G2]. split; [exact G1|]. apply G2. lia.
Qed.


(** A run of calls of one blink body, the counter starting at zero. *)
Lemma blink_run {X : Type} (H P : Z) (g : X -> Led -> Led) (xs : list X) (lat0 : Level) :
  0 < H -> H < P - 1 -> P <= 256 ->
  (forall x, In x xs -> forall l,
      g x l = if blinkCounter l =? 0 then mkLed 1 ON
              else if blinkCounter l =? H then mkLed (uint8 (blinkCounter l + 1)) OFF
              else if blinkCounter l =? P - 1 then mkLed 0 (LAT l)
              else mkLed (uint8 (blinkCounter l + 1)) (LAT l)) ->
  let l := fold_left (fun l x => g x l) xs (mkLed 0 lat0) in
  let k := Z.of_nat (length xs) mod P in
  blinkCounter l = k
  /\ (xs <> [] -> LAT l = if (1 <=? k) && (k <=? H) then ON else OFF).
Proof.
  intros HH HP HP'. induction xs as [|x xs IH] using rev_ind; intros Hg; cbv zeta.
  - split; [now rewrite Z.mod_0_l by lia|]. congruence.
  - rewrite fold_left_app, length_app. cbn [fold_left length].
    rewrite Nat2Z.inj_add. change (Z.of_nat 1) with 1.
    destruct IH as [IHc IHl].
    { intros y Hy. apply Hg. apply in_or_app. now left. }
    rewrite (Hg x) by (apply in_or_app; right; now left).
    assert (IHl' : 1 <= Z.of_nat (length xs) ->
                   LAT (fold_left (fun l x => g x l) xs (mkLed 0 lat0))
                   = if (1 <=? Z.of_nat (length xs) mod P)
                        && (Z.of_nat (length xs) mod P <=? H) then ON else OFF).
    { intros Hlen. apply IHl. destruct xs; [cbn in Hlen; lia|congruence]. }
    pose proof (blink_step H P (Z.of_nat (length xs)) _ HH HP HP'
                  (Nat2Z.is_nonneg _) IHc IHl') as [S1 S2].
    split; [exact S1|]. intros _. exact S2.
Qed.

(** X11.  The reset LED.  A call made with no error flag set switches it off and
    zeroes its counter.  Over the calls that follow, as long as each finds
    some error flag set, the counter is the number of those calls modulo 100
    and the LED is on exactly when that number modulo 100 lies in [1 .. 50]:
    lit from the first call with an error, on for 50 calls, off for 50. *)
Theorem reset_led_blinks_while_errors (s0 s : State) (ss : list State) (l0 : Led) :
  nodeErrors s0 = 0 ->
  Forall (fun st => nodeErrors st <> 0) (s :: ss) ->
  let quiet := SetResetModeLed s0 l0 in
  let l := fold_left (fun l st => SetResetModeLed st l) (s :: ss) quiet in
  let k := Z.of_nat (length (s :: ss)) mod 100 in
  quiet = mkLed 0 OFF
  /\ blinkCounter l = k
  /\ LAT l = if (1 <=? k) && (k <=? 50) then ON else OFF.
Proof.
  intros H0 Hall quiet l k.
  assert (Hq : quiet = mkLed 0 OFF).
  { subst quiet. unfold SetResetModeLed, nonzero. now rewrite H0. }
  split; [exact Hq|]. subst l k. rewrite Hq.
  pose proof (blink_run 50 100 (fun st l => SetResetModeLed st l) (s :: ss) OFF
                ltac:(lia) ltac:(lia) ltac:(lia)) as R.
  cbv zeta in R. destruct R as [R1 R2].
  - intros x Hx l. rewrite Forall_forall in Hall. specialize (Hall x Hx).
    unfold SetResetModeLed, nonzero.
    replace (nodeErrors x =? 0) with false by (symmetry; now apply Z.eqb_neq).
    reflexivity.
  - split; [exact R1|]. apply R2. congruence.
Qed.

(** X12.  The GPS LED.  A call that finds the GPS active lights it; a call that
    finds the GPS neither active nor enabled switches it off; both zero the
    counter.  Over the calls that follow, as long as each finds the GPS
    enabled but not active, the LED is on exactly when the number of those
    calls modulo 50 lies in [1 .. 25]. *)
Theorem gps_led_blinks_while_no_fix (sa0 sa : SensorAvailability)
    (sas : list SensorAvailability) (l0 : Led) :
  active (gps sa0) || negb (enabled (gps sa0)) = true ->
  Forall (fun a => active (gps a) = false /\ enabled (gps a) = true) (sa :: sas) ->
  let steady := SetGpsLed sa0 l0 in
  let l := fold_left (fun l a => SetGpsLed a l) (sa :: sas) steady in
  let k := Z.of_nat (length (sa :: sas)) mod 50 in
  steady = mkLed 0 (if active (gps sa0) then ON else OFF)
  /\ blinkCounter l = k
  /\ LAT l = if (1 <=? k) && (k <=? 25) then ON else OFF.
Proof.
  intros H0 Hall steady l k.
  assert (Hq : steady = mkLed 0 (if active (gps sa0) then ON else OFF)).
  { subst steady. unfold SetGpsLed.
    destruct (active (gps sa0)); [reflexivity|].
    cbn [orb] in H0. apply negb_true_iff in H0. now rewrite H0. }
  split; [exact Hq|]. subst l k. rewrite Hq.
  pose proof (blink_run 25 50 (fun a l => SetGpsLed a l) (sa :: sas)
                (if active (gps sa0) then ON else OFF)
                ltac:(lia) ltac:(lia) ltac:(lia)) as R.
  cbv zeta in R. destruct R as [R1 R2].
  - intros x Hx l. rewrite Forall_forall in Hall. destruct (Hall x Hx) as [Ha He].
    unfold SetGpsLed. now rewrite Ha, He.
  - split; [exact R1|]. apply R2. congruence.
Qed.

Section WithHeader.

Context {hdr : Header}.

(** X13.  The automode LED.  Without manual override a call makes it solid: on in
    autonomous mode, off in manual mode, counter zero.  Over the calls that
    follow, as long as each finds the manual-override flag set, the LED
    blinks whatever the mode is: on exactly when the number of those calls
    modulo 50 lies in [1 .. 25]. *)
Theorem auto_led_blinks_in_override (s0 s : State) (ss : list State) (l0 : Led) :
  Z.land (nodeErrors s0) PRIMARY_NODE_RESET_MANUAL_OVERRIDE = 0 ->
  Forall (fun st => Z.land (nodeErrors st) PRIMARY_NODE_RESET_MANUAL_OVERRIDE <> 0)
    (s :: ss) ->
  let solid := SetAutoModeLed s0 l0 in
  let l := fold_left (fun l st => SetAutoModeLed st l) (s :: ss) solid in
  let k := Z.of_nat (length (s :: ss)) mod 50 in
  solid = mkLed 0 (if IS_AUTONOMOUS s0 then ON else OFF)
  /\ blinkCounter l = k
  /\ LAT l = if (1 <=? k) && (k <=? 25) then ON else OFF.
Proof.
  intros H0 Hall solid l k.
  assert (Hq : solid = mkLed 0 (if IS_AUTONOMOUS s0 then ON else OFF)).
  { subst solid. unfold SetAutoModeLed, nonzero. rewrite H0. cbn [Z.eqb negb].
    now destruct (IS_AUTONOMOUS s0). }
  split; [exact Hq|]. subst l k. rewrite Hq.
  pose proof (blink_run 25 50 (fun st l => SetAutoModeLed st l) (s :: ss)
                (if IS_AUTONOMOUS s0 then ON else OFF)
                ltac:(lia) ltac:(lia) ltac:(lia)) as R.
  cbv zeta in R. destruct R as [R1 R2].
  - intros x Hx l. rewrite Forall_forall in Hall. specialize (Hall x Hx).
    unfold SetAutoModeLed, nonzero.
    replace (Z.land (nodeErrors x) PRIMARY_NODE_RESET_MANUAL_OVERRIDE =? 0) with false
      by (symmetry; now apply Z.eqb_neq).
    reflexivity.
  - split; [exact R1|]. apply R2. congruence.
Qed.

End WithHeader.

(** The reset LED over three ticks with the startup flag set. *)
Lemma reset_led_blinks_while_errors_witness :
  let e := mkState 0 1 0 (mkLast true true true true true true true true false) 0
             (mkCommands 0 0 0 0) 0 [] in
  let l := fold_left (fun l st => SetResetModeLed st l) [e; e; e]
             (SetResetModeLed idleState (mkLed 7 ON)) in
  SetResetModeLed idleState (mkLed 7 ON) = mkLed 0 OFF
  /\ blinkCounter l = 3
  /\ LAT l = ON.
Proof.
  apply (reset_led_blinks_while_errors idleState
           (mkState 0 1 0 (mkLast true true true true true true true true false) 0
              (mkCommands 0 0 0 0) 0 [])
           [_; _] (mkLed 7 ON)).
  - reflexivity.
  - repeat constructor; cbn; lia.
Defined.

(** The GPS LED: a fix, then two ticks without one. *)
Lemma gps_led_blinks_while_no_fix_witness :
  let fix_ := sensorAvailability (healthyInputs 0) in
  let lost := mkSensorAvailability (mkAvailability true false 0) (imu fix_) (dst800 fix_)
                (prop fix_) (rudder fix_) (rcNode fix_) in
  let l := fold_left (fun l a => SetGpsLed a l) [lost; lost] (SetGpsLed fix_ (mkLed 0 OFF)) in
  SetGpsLed fix_ (mkLed 0 OFF) = mkLed 0 ON
  /\ blinkCounter l = 2
  /\ LAT l = ON.
Proof.
  apply (gps_led_blinks_while_no_fix (sensorAvailability (healthyInputs 0))
           (mkSensorAvailability (mkAvailability true false 0)
              (imu (sensorAvailability (healthyInputs 0)))
              (dst800 (sensorAvailability (healthyInputs 0)))
              (prop (sensorAvailability (healthyInputs 0)))
              (rudder (sensorAvailability (healthyInputs 0)))
              (rcNode (sensorAvailability (healthyInputs 0))))
           [_] (mkLed 0 OFF)).
  - reflexivity.
  - repeat constructor.
Defined.

(** The automode LED on the sample header: autonomous, then 26 ticks of
    manual override. *)
Lemma auto_led_blinks_in_override_witness :
  let a := mkState 1 0 1000 (mkLast true true true true true true true true false) 0
             (mkCommands 0 0 0 0) 0 [] in
  let o := mkState 1 64 1000 (mkLast true true true true true true true true true) 0
             (mkCommands 0 0 0 0) 0 [] in
  let l := fold_left (fun l st => @SetAutoModeLed sampleHeader st l) (o :: repeat o 25)
             (@SetAutoModeLed sampleHeader a (mkLed 0 OFF)) in
  @SetAutoModeLed sampleHeader a (mkLed 0 OFF) = mkLed 0 ON
  /\ blinkCounter l = 26
  /\ LAT l = OFF.
Proof.
  apply (@auto_led_blinks_in_override sampleHeader
           (mkState 1 0 1000 (mkLast true true true true true true true true false) 0
              (mkCommands 0 0 0 0) 0 [])
           (mkState 1 64 1000 (mkLast true true true true true true true true true) 0
              (mkCommands 0 0 0 0) 0 [])
           (repeat _ 25) (mkLed 0 OFF)).
  - reflexivity.
  - repeat constructor; cbn; lia.
Defined.

End PrimaryNodeLedFacts.

Module PrimaryNodeFilterFacts.
Import PrimaryNode PrimaryNodeHelpers.

(** ** The 2 Hz node status *)

Lemma TransmitNodeStatus2Hz_step (m : Z) :
  0 <= m ->
  TransmitNodeStatus2Hz (m mod 100) = ((m + 1) mod 100, (m + 1) mod 50 =? 0).
Proof.
  intros Hm. unfold TransmitNodeStatus2Hz, uint8.
  destruct (m mod 100 =? 49) eqn:E49; [|destruct (m mod 100 =? 99) eqn:E99].
  - apply Z.eqb_eq in E49. rewrite E49. f_equal.
    + Z.div_mod_to_equations; lia.
    + symmetry. apply Z.eqb_eq. Z.div_mod_to_equations; lia.
  - apply Z.eqb_eq in E99. f_equal.
    + Z.div_mod_to_equations; lia.
    + symmetry. apply Z.eqb_eq. Z.div_mod_to_equations; lia.
  - apply Z.eqb_neq in E49, E99. f_equal.
    + Z.div_mod_to_equations; lia.
    + symmetry. apply Z.eqb_neq. Z.div_mod_to_equations; lia.
Qed.

(** X14.  [TransmitNodeStatus2Hz] called [n] times from a zero counter calls
    [NodeTransmitStatus] on the calls numbered 50, 100, 150, ... and on no
    other: every fiftieth call, twice a second at 100 Hz. *)
Theorem node_status_every_fiftieth_call (n : nat) :
  nodeStatusCalls n 0 = map (fun k => Z.of_nat k mod 50 =? 0) (seq 1 n).
Proof.
  change 0 with (Z.of_nat 0 mod 100) at 1. generalize 0%nat as m. revert n.
  induction n as [|n IH]; intros m; [reflexivity|].
  cbn [nodeStatusCalls seq map].
  rewrite (TransmitNodeStatus2Hz_step (Z.of_nat m)) by lia.
  replace (Z.of_nat m + 1) with (Z.of_nat (S m)) by lia.
  now rewrite IH.
Qed.

(** ** The manual throttle filter *)

(** X15.  For a command in the documented range [-1000 .. 1000]: inside the
    deadband (-40, 40) the result is 0; outside it is [tc * 7 / 10] with C's
    division (rounding towards zero), which has the sign of [tc] and a
    magnitude within [28 .. 700]; the filter is odd and monotone. *)
Theorem manual_throttle_filter (tc tc' : Z) :
  -1000 <= tc <= 1000 ->
  -1000 <= tc' <= 1000 ->
  let r := ProcessManualThrottleCommand tc in
  (-40 < tc < 40 -> r = 0)
  /\ (40 <= Z.abs tc ->
      r = Z.quot (tc * 7) 10 /\ 28 <= Z.abs r <= 700 /\ Z.sgn r = Z.sgn tc)
  /\ ProcessManualThrottleCommand (- tc) = - r
  /\ (tc <= tc' -> r <= ProcessManualThrottleCommand tc').
Proof.
  intros Htc Htc'.
  assert (F : forall x, -1000 <= x <= 1000 ->
                ProcessManualThrottleCommand x
                = if (-40 <? x) && (x <? 40) then 0 else Z.quot (x * 7) 10).
  { intros x Hx. unfold ProcessManualThrottleCommand, int16. rewrite Z.gtb_ltb.
    destruct ((-40 <? x) && (x <? 40)); [reflexivity|].
    replace ((x * 7 + 32768) mod 65536 - 32768) with (x * 7)
      by (Z.div_mod_to_equations; lia).
    Z.quot_rem_to_equations. Z.div_mod_to_equations. lia. }
  cbv zeta. rewrite (F tc Htc), (F tc' Htc'), (F (- tc)) by lia.
  destruct (-40 <? tc) eqn:A1, (tc <? 40) eqn:A2, (-40 <? - tc) eqn:A3,
           (- tc <? 40) eqn:A4, (-40 <? tc') eqn:A5, (tc' <? 40) eqn:A6; cbn [andb];
    rewrite ?Z.ltb_lt, ?Z.ltb_ge in *; try lia;
    (split; [|split; [|split]]);
    try (intros; Z.quot_rem_to_equations; lia).
Qed.

Lemma manual_throttle_filter_witness :
  let r := ProcessManualThrottleCommand (-995) in
  (-40 < -995 < 40 -> r = 0)
  /\ (40 <= Z.abs (-995) ->
      r = Z.quot (-995 * 7) 10 /\ 28 <= Z.abs r <= 700 /\ Z.sgn r = Z.sgn (-995))
  /\ ProcessManualThrottleCommand (- -995) = - r
  /\ (-995 <= 39 -> r <= ProcessManualThrottleCommand 39).
Proof.
  apply (manual_throttle_filter (-995) 39); lia.
Defined.

End PrimaryNodeFilterFacts.

Module PrimaryNodeLoopFacts.
Import PrimaryNode PrimaryNodeHelpers PrimaryNodeFacts.

Section WithHeader.

Context {hdr : Header}.

(** ** What the loop does to the mode and to the system time *)

Lemma sameMode_refl (m : Z) (s : State) : sameMode m s s.
Proof. unfold sameMode. auto. Qed.

Lemma sameMode_trans (m : Z) (s1 s2 s3 : State) :
  sameMode m s1 s2 -> sameMode m s2 s3 -> sameMode m s1 s3.
Proof. unfold sameMode. intros [A B] [C D]. split; congruence. Qed.

Ltac modeblock :=
  intros; unfold sameMode; cbv zeta;
  repeat match goal with
         | |- context [if ?c then _ else _] => destruct c
         end;
  simpl; auto using land_lor_apart, land_clear_apart.

Lemma checkEcanErrors_mode (m : Z) (inp : Inputs) (s : State) :
  Z.land PRIMARY_NODE_STATUS_ECAN_TX_ERR m = 0 ->
  Z.land PRIMARY_NODE_STATUS_ECAN_RX_ERR m = 0 ->
  sameMode m s (checkEcanErrors inp s).
Proof.
  intros Ht Hr. unfold checkEcanErrors. cbv zeta.
  match goal with
  | |- sameMode _ _ (if nonzero (Z.land (nodeStatus ?s1) _) then _ else _) =>
      assert (H1 : sameMode m s s1) by modeblock; remember s1 as s1' eqn:E; clear E
  end.
  eapply sameMode_trans; [exact H1|]. modeblock.
Qed.

Lemma trackGpsEnabled_mode (m : Z) (inp : Inputs) (s : State) :
  sameMode m s (trackGpsEnabled inp s).
Proof. unfold trackGpsEnabled. modeblock. Qed.

Lemma trackGpsActive_mode (m : Z) (inp : Inputs) (s : State) :
  sameMode m s (trackGpsActive inp s).
Proof. unfold trackGpsActive. modeblock. Qed.

Lemma checkGpsDisconnected_mode (m : Z) (inp : Inputs) (s : State) :
  sameMode m s (checkGpsDisconnected inp s).
Proof. unfold checkGpsDisconnected. modeblock. Qed.

Lemma trackPropEnabled_mode (m : Z) (inp : Inputs) (s : State) :
  sameMode m s (trackPropEnabled inp s).
Proof. unfold trackPropEnabled. modeblock. Qed.

Lemma trackRudderEnabled_mode (m : Z) (inp : Inputs) (s : State) :
  sameMode m s (trackRudderEnabled inp s).
Proof. unfold trackRudderEnabled. modeblock. Qed.

Lemma trackRcNodeEnabled_mode (m : Z) (inp : Inputs) (s : State) :
  Z.land PRIMARY_NODE_STATUS_RC_NODE_DISCONNECTED m = 0 ->
  sameMode m s (trackRcNodeEnabled inp s).
Proof. intros H. unfold trackRcNodeEnabled. modeblock. Qed.

Lemma trackDst800Enabled_mode (m : Z) (inp : Inputs) (s : State) :
  sameMode m s (trackDst800Enabled inp s).
Proof. unfold trackDst800Enabled. modeblock. Qed.

Lemma trackImuEnabled_mode (m : Z) (inp : Inputs) (s : State) :
  sameMode m s (trackImuEnabled inp s).
Proof. unfold trackImuEnabled. modeblock. Qed.

Lemma trackRcNodeActive_mode (m : Z) (inp : Inputs) (s : State) :
  sameMode m s (trackRcNodeActive inp s).
Proof.
  unfold trackRcNodeActive. cbv zeta.
  destruct (rcNodeActive (lastSensorAvailability s)
            && negb (active (rcNode (sensorAvailability inp)))).
  - match goal with
    | |- context [PrimaryNodeMuxAndOutputControllerCommands ?i ?r ?t ?f ?s1] =>
        pose proof (mux_frame i r t f s1) as M; cbv zeta in M;
        destruct M as (_ & M2 & _ & _ & M5 & _)
    end.
    unfold sameMode, remember, set_last. cbn [nodeStatus nodeSystemTime].
    rewrite M2, M5. cbn [nodeStatus nodeSystemTime clear_error set_nodeErrors]. auto.
  - modeblock.
Qed.

Lemma trackRudderActive_mode (m : Z) (inp : Inputs) (s : State) :
  sameMode m s (trackRudderActive inp s).
Proof. unfold trackRudderActive. modeblock. Qed.

Lemma trackCalibrating_mode (m : Z) (inp : Inputs) (s : State) :
  sameMode m s (trackCalibrating inp s).
Proof. unfold trackCalibrating. modeblock. Qed.

Lemma trackCalibrated_mode (m : Z) (inp : Inputs) (s : State) :
  sameMode m s (trackCalibrated inp s).
Proof. unfold trackCalibrated. modeblock. Qed.

Lemma checkGcsDisconnected_mode (m : Z) (inp : Inputs) (s : State) :
  sameMode m s (checkGcsDisconnected inp s).
Proof. unfold checkGcsDisconnected. modeblock. Qed.

(** The availability blocks write the status word only at the two ECAN flags
    and the RC-node flag, and leave the system time alone. *)
Lemma updateFaults_mode (m : Z) (inp : Inputs) (s : State) :
  sharesNoBit m
    [PRIMARY_NODE_STATUS_ECAN_TX_ERR; PRIMARY_NODE_STATUS_ECAN_RX_ERR;
     PRIMARY_NODE_STATUS_RC_NODE_DISCONNECTED] = true ->
  sameMode m s (updateFaults inp s).
Proof.
  intro H. unfold updateFaults.
  repeat (eapply sameMode_trans;
          [|first [ apply checkGcsDisconnected_mode | apply trackCalibrated_mode
                  | apply trackCalibrating_mode | apply trackRudderActive_mode
                  | apply trackRcNodeActive_mode | apply trackImuEnabled_mode
                  | apply trackDst800Enabled_mode
                  | apply trackRcNodeEnabled_mode; apart
                  | apply trackRudderEnabled_mode | apply trackPropEnabled_mode
                  | apply trackGpsActive_mode | apply checkGpsDisconnected_mode
                  | apply trackGpsEnabled_mode
                  | apply checkEcanErrors_mode; apart ]]).
  apply sameMode_refl.
Qed.

Lemma checkReturnToBase_mode (s : State) :
  nodeStatus (checkReturnToBase s) = nodeStatus s
  /\ nodeSystemTime (checkReturnToBase s) = nodeSystemTime s.
Proof.
  unfold checkReturnToBase. cbv zeta.
  repeat match goal with |- context [if ?c then _ else _] => destruct c end;
    simpl; auto.
Qed.

Lemma SetAutoMode_time (newMode : PrimaryNodeMode) (s : State) :
  nodeSystemTime (SetAutoMode newMode s) = nodeSystemTime s.
Proof.
  unfold SetAutoMode. cbv zeta.
  repeat match goal with |- context [if ?c then _ else _] => destruct c end;
    reflexivity.
Qed.

Lemma MavLinkReceive_time (inp : Inputs) (s : State) :
  nodeSystemTime (MavLinkReceive inp s) = nodeSystemTime s.
Proof.
  unfold MavLinkReceive. generalize (modeRequests inp) as l. intro l. revert s.
  induction l as [|x l IH]; intro s; [reflexivity|].
  cbn [fold_left]. rewrite IH. apply SetAutoMode_time.
Qed.

(** What the 100 Hz step does to the two flag words and to the time. *)
Lemma PrimaryNode100HzLoop_words (inp : Inputs) (s : State) :
  let s' := PrimaryNode100HzLoop inp s in
  nodeStatus s' = nodeStatus s
  /\ nodeErrors s'
     = (if nodeSystemTime s =? 0 then Z.lor (nodeErrors s) PRIMARY_NODE_RESET_STARTUP
        else if nodeSystemTime s =? STARTUP_RESET_TIME
        then Z.land (nodeErrors s) (Z.lnot PRIMARY_NODE_RESET_STARTUP)
        else nodeErrors s)
  /\ nodeSystemTime s'
     = (if nodeSystemTime s <? UINT32_MAX then nodeSystemTime s + 1
        else nodeSystemTime s).
Proof.
  unfold PrimaryNode100HzLoop. cbv zeta.
  set (s1 := if nodeSystemTime s =? 0 then raise_error PRIMARY_NODE_RESET_STARTUP s
             else if nodeSystemTime s =? STARTUP_RESET_TIME
                  then clear_error PRIMARY_NODE_RESET_STARTUP s else s).
  assert (H1 : nodeStatus s1 = nodeStatus s
               /\ nodeSystemTime s1 = nodeSystemTime s
               /\ nodeErrors s1
                  = (if nodeSystemTime s =? 0
                     then Z.lor (nodeErrors s) PRIMARY_NODE_RESET_STARTUP
                     else if nodeSystemTime s =? STARTUP_RESET_TIME
                     then Z.land (nodeErrors s) (Z.lnot PRIMARY_NODE_RESET_STARTUP)
                     else nodeErrors s)).
  { subst s1. destruct (nodeSystemTime s =? 0); [simpl; auto|].
    destruct (nodeSystemTime s =? STARTUP_RESET_TIME); simpl; auto. }
  clearbody s1. destruct H1 as (A1 & A2 & A3).
  pose proof (mux_frame inp (rCommand inp) (tCommand inp) false s1) as H2.
  cbv zeta in H2.
  set (s2 := PrimaryNodeMuxAndOutputControllerCommands inp (rCommand inp)
               (tCommand inp) false s1) in *.
  clearbody s2. destruct H2 as (He & Hs & _ & _ & Ht & _ & _).
  rewrite <- A3, <- A1, <- A2, <- He, <- Hs, <- Ht.
  repeat match goal with |- context [if ?c then _ else _] => destruct c eqn:? end;
    simpl in *; try congruence; auto.
Qed.


Lemma updateFaults_time (inp : Inputs) (s : State) :
  nodeSystemTime (updateFaults inp s) = nodeSystemTime s.
Proof.
  apply (updateFaults_mode 0). unfold sharesNoBit. cbn [forallb].
  now rewrite !Z.land_0_r.
Qed.

(** X16.  A fault never changes the mode.  Over a pass of the main loop that
    handles no mode request, whatever the sensors, the links and the timer
    do, the mode [GetAutoMode] reports is the one it reported before: a
    vehicle that enters return to base stays autonomous.  (The automode flag
    has its bits of the status word to itself.) *)
Theorem faults_never_change_mode (inp : Inputs) (s : State) :
  autoModeStandsAlone = true ->
  modeRequests inp = [] ->
  GetAutoMode (mainLoopPass s inp) = GetAutoMode s.
Proof.
  intros Halone Hreq. unfold autoModeStandsAlone in Halone.
  destruct (updateFaults_mode PRIMARY_NODE_STATUS_AUTOMODE inp s Halone) as [U _].
  unfold mainLoopPass. rewrite (MavLinkReceive_none inp _ Hreq).
  destruct (checkReturnToBase_mode (updateFaults inp s)) as [C _].
  remember (checkReturnToBase (updateFaults inp s)) as s3 eqn:E3. clear E3.
  assert (G3 : GetAutoMode s3 = GetAutoMode s).
  { unfold GetAutoMode. now rewrite C, U. }
  destruct (timerElapsed inp); [|exact G3].
  destruct (PrimaryNode100HzLoop_words inp s3) as [W _].
  rewrite <- G3. unfold GetAutoMode. now rewrite W.
Qed.

(** ** The startup hold *)

Lemma startup_untouched_by_faults :
  startupStandsAlone = true ->
  sharesNoBit PRIMARY_NODE_RESET_STARTUP
    [PRIMARY_NODE_STATUS_GPS_INVALID; PRIMARY_NODE_RESET_GPS_DISCONNECTED;
     PRIMARY_NODE_RESET_ESTOP_OR_ACS300_DISCON; PRIMARY_NODE_RESET_RUDDER_DISCONNECTED;
     PRIMARY_NODE_RESET_DST800_DISCONNECTED; PRIMARY_NODE_RESET_IMU_DISCONNECTED;
     PRIMARY_NODE_RESET_MANUAL_OVERRIDE; PRIMARY_NODE_RESET_RUDDER_ERRORS;
     PRIMARY_NODE_RESET_CALIBRATING; PRIMARY_NODE_RESET_UNCALIBRATED;
     PRIMARY_NODE_RESET_GCS_DISCONNECTED] = true.
Proof.
  intros H. unfold startupStandsAlone in H.
  unfold sharesNoBit. apply forallb_forall. intros f Hf. apply Z.eqb_eq.
  apply (sharesNoBit_In _ _ _ H). cbn [In] in Hf |- *. tauto.
Qed.

(** The startup flag and the system time over one pass. *)
Lemma pass_startup (inp : Inputs) (s : State) :
  startupStandsAlone = true ->
  let t := nodeSystemTime s in
  let s' := mainLoopPass s inp in
  nodeSystemTime s'
  = (if timerElapsed inp then if t <? UINT32_MAX then t + 1 else t else t)
  /\ Z.land (nodeErrors s') PRIMARY_NODE_RESET_STARTUP
     = (if timerElapsed inp
        then if t =? 0 then PRIMARY_NODE_RESET_STARTUP
             else if t =? STARTUP_RESET_TIME then 0
             else Z.land (nodeErrors s) PRIMARY_NODE_RESET_STARTUP
        else Z.land (nodeErrors s) PRIMARY_NODE_RESET_STARTUP).
Proof.
  intros Halone t s'.
  pose proof (startup_untouched_by_faults Halone) as H11.
  assert (Hrtb : Z.land PRIMARY_NODE_RESET_RTB PRIMARY_NODE_RESET_STARTUP = 0).
  { unfold startupStandsAlone in Halone. clear H11. apart. }
  destruct (updateFaults_untouched PRIMARY_NODE_RESET_STARTUP inp s H11) as (U1 & _).
  pose proof (updateFaults_time inp s) as U2.
  subst s'. unfold mainLoopPass.
  remember (updateFaults inp s) as s1 eqn:E1. clear E1.
  destruct (MavLinkReceive_writes inp s1 PRIMARY_NODE_RESET_STARTUP gpsActive Hrtb
              (or_introl eq_refl)) as (M1 & _).
  pose proof (MavLinkReceive_time inp s1) as M2.
  remember (MavLinkReceive inp s1) as s2 eqn:E2. clear E2.
  pose proof (checkReturnToBase_writes s2) as C. cbv zeta in C. destruct C as (C1 & _).
  destruct (checkReturnToBase_mode s2) as (_ & C2).
  remember (checkReturnToBase s2) as s3 eqn:E3. clear E3.
  assert (C1' : Z.land (nodeErrors s3) PRIMARY_NODE_RESET_STARTUP
                = Z.land (nodeErrors s) PRIMARY_NODE_RESET_STARTUP).
  { rewrite <- U1, <- M1. destruct C1 as [->| ->]; [reflexivity|].
    now apply land_lor_apart. }
  assert (T3 : nodeSystemTime s3 = t) by (subst t; congruence).
  destruct (timerElapsed inp); [|auto].
  destruct (PrimaryNode100HzLoop_words inp s3) as (_ & W2 & W3).
  rewrite W2, W3, T3. split; [reflexivity|].
  destruct (t =? 0); [apply land_lor_self|].
  destruct (t =? STARTUP_RESET_TIME); [apply land_clear_self|exact C1'].
Qed.

Lemma ticksIn_snoc (inps : list Inputs) (inp : Inputs) :
  ticksIn (inps ++ [inp]) = ticksIn inps + (if timerElapsed inp then 1 else 0).
Proof.
  unfold ticksIn. rewrite filter_app, length_app. cbn [filter].
  destruct (timerElapsed inp); cbn [length]; lia.
Qed.

Lemma ticksIn_nonneg (inps : list Inputs) : 0 <= ticksIn inps.
Proof. unfold ticksIn. lia. Qed.

(** X17.  The startup hold.  From power-up (system time 0), over any run of the
    main loop, the system time counts the passes in which the 100 Hz timer
    had elapsed, up to [UINT32_MAX] where it stays; the startup flag is set
    by the first such pass, still set after the 200th, cleared by the 201st
    and never set again, whatever the sensors and the mode requests do.
    (The startup flag has its bits of the error word to itself.) *)
Theorem startup_flag_held_for_200_ticks (inps : list Inputs) (s : State) :
  startupStandsAlone = true ->
  nodeSystemTime s = 0 ->
  let n := ticksIn inps in
  let s' := mainLoop inps s in
  nodeSystemTime s' = Z.min n UINT32_MAX
  /\ (n = 0 -> Z.land (nodeErrors s') PRIMARY_NODE_RESET_STARTUP
               = Z.land (nodeErrors s) PRIMARY_NODE_RESET_STARTUP)
  /\ (1 <= n <= 200 -> Z.land (nodeErrors s') PRIMARY_NODE_RESET_STARTUP
                       = PRIMARY_NODE_RESET_STARTUP)
  /\ (200 < n -> Z.land (nodeErrors s') PRIMARY_NODE_RESET_STARTUP = 0).
Proof.
  intros Halone H0. cbv zeta.
  induction inps as [|inp inps IH] using rev_ind.
  - unfold mainLoop, ticksIn. cbn [fold_left filter length Z.of_nat].
    unfold UINT32_MAX. repeat split; intros; lia.
  - unfold mainLoop in *. rewrite fold_left_app. cbn [fold_left].
    remember (fold_left mainLoopPass inps s) as s1 eqn:E1. clear E1.
    destruct IH as (T & Z0 & Z1 & Z2).
    rewrite ticksIn_snoc. pose proof (ticksIn_nonneg inps) as Hn.
    remember (ticksIn inps) as n eqn:En. clear En.
    destruct (pass_startup inp s1 Halone) as [P1 P2]. rewrite P1, P2, T.
    unfold UINT32_MAX, STARTUP_RESET_TIME in *.
    destruct (timerElapsed inp).
    + destruct (Z.min n 4294967295 <? 4294967295) eqn:L;
        [apply Z.ltb_lt in L|apply Z.ltb_ge in L];
        (destruct (Z.min n 4294967295 =? 0) eqn:A;
         [apply Z.eqb_eq in A|apply Z.eqb_neq in A]);
        (destruct (Z.min n 4294967295 =? 200) eqn:B;
         [apply Z.eqb_eq in B|apply Z.eqb_neq in B]);
        repeat split; intros; try lia; auto;
        try (apply Z1; lia); try (apply Z2; lia).
    + rewrite Z.add_0_r. repeat split; auto.
Qed.

(** ** The actuator output in a fault *)

(** X18.  In autonomous mode with any error flag set (which is the case throughout
    a return to base), a 100 Hz step transmits no actuator command and speaks
    no status: the commands of the controller are withheld.  (The one step
    that clears the startup flag is excepted.) *)
Theorem autonomous_fault_silences_actuators (inp : Inputs) (s : State) :
  IS_AUTONOMOUS s = true ->
  nodeErrors s <> 0 ->
  nodeSystemTime s <> STARTUP_RESET_TIME ->
  outbox (PrimaryNode100HzLoop inp s) = outbox s.
Proof.
  intros Hauto Herr Ht. unfold PrimaryNode100HzLoop. cbv zeta.
  replace (nodeSystemTime s =? STARTUP_RESET_TIME) with false
    by (symmetry; now apply Z.eqb_neq).
  set (s1 := if nodeSystemTime s =? 0 then raise_error PRIMARY_NODE_RESET_STARTUP s else s).
  assert (H1 : nodeStatus s1 = nodeStatus s /\ outbox s1 = outbox s
               /\ nonzero (nodeErrors s1) = true).
  { subst s1. destruct (nodeSystemTime s =? 0);
      cbn [raise_error set_nodeErrors nodeStatus outbox nodeErrors];
      (split; [reflexivity|split; [reflexivity|]]);
      apply negb_true_iff, Z.eqb_neq; [|exact Herr].
    intro E. apply Z.lor_eq_0_iff in E. tauto. }
  clearbody s1. destruct H1 as (A1 & A2 & A3).
  assert (Hauto1 : IS_AUTONOMOUS s1 = true) by (unfold IS_AUTONOMOUS in *; now rewrite A1).
  assert (M : PrimaryNodeMuxAndOutputControllerCommands inp (rCommand inp) (tCommand inp)
                false s1
              = set_currentCommands
                  (mkCommands (rCommand inp) (manTc inp) (manRc inp) (manTc inp)) s1).
  { unfold PrimaryNodeMuxAndOutputControllerCommands. cbv zeta.
    change (IS_AUTONOMOUS (set_currentCommands ?c s1)) with (IS_AUTONOMOUS s1).
    change (nodeErrors (set_currentCommands ?c s1)) with (nodeErrors s1).
    rewrite Hauto1, A3. reflexivity. }
  rewrite M.
  change (IS_AUTONOMOUS (set_currentCommands ?c s1)) with (IS_AUTONOMOUS s1).
  change (nodeErrors (set_currentCommands ?c s1)) with (nodeErrors s1).
  rewrite Hauto1, A3. cbn [negb andb].
  match goal with |- context [if ?c then _ else _] => destruct c end;
    cbn [outbox set_nodeSystemTime set_currentCommands]; exact A2.
Qed.

(** ** The end of a manual override *)

(** X19.  When the RC node stops being active (the remembered activity was set),
    the pass clears the manual-override flag and hands control back by a
    forced actuator command: in manual mode the operator's filtered command;
    in autonomous mode, if no other error flag is set, the last autonomous
    rudder command with the operator's throttle; in autonomous mode with
    another error pending, nothing. *)
Theorem override_end_forces_command (inp : Inputs) (s : State) :
  rcNodeActive (lastSensorAvailability s) = true ->
  active (rcNode (sensorAvailability inp)) = false ->
  let s' := trackRcNodeActive inp s in
  let others := Z.land (nodeErrors s) (Z.lnot PRIMARY_NODE_RESET_MANUAL_OVERRIDE) in
  nodeErrors s' = others
  /\ rcNodeActive (lastSensorAvailability s') = false
  /\ outbox s'
     = outbox s
       ++ (if IS_AUTONOMOUS s
           then if others =? 0
                then [ActuatorsTransmitCommands
                        (autonomousRudderCommand (currentCommands s)) (manTc inp) true]
                else []
           else [ActuatorsTransmitCommands (manRc inp) (manTc inp) true]).
Proof.
  intros Hwas Hnow. cbv zeta. unfold trackRcNodeActive. cbv zeta.
  rewrite Hwas, Hnow. cbn [negb andb].
  set (s1 := clear_error PRIMARY_NODE_RESET_MANUAL_OVERRIDE s).
  assert (E1 : nodeErrors s1 = Z.land (nodeErrors s) (Z.lnot PRIMARY_NODE_RESET_MANUAL_OVERRIDE))
    by reflexivity.
  assert (A1 : IS_AUTONOMOUS s1 = IS_AUTONOMOUS s) by reflexivity.
  assert (O1 : outbox s1 = outbox s) by reflexivity.
  assert (C1 : currentCommands s1 = currentCommands s) by reflexivity.
  clearbody s1.
  unfold PrimaryNodeMuxAndOutputControllerCommands. cbv zeta.
  change (IS_AUTONOMOUS (set_currentCommands ?c s1)) with (IS_AUTONOMOUS s1).
  change (nodeErrors (set_currentCommands ?c s1)) with (nodeErrors s1).
  rewrite A1, E1, C1. unfold nonzero.
  rewrite land_clear_self. cbn [Z.eqb negb].
  destruct (IS_AUTONOMOUS s);
    [destruct (Z.land (nodeErrors s) (Z.lnot PRIMARY_NODE_RESET_MANUAL_OVERRIDE) =? 0)|];
    cbn [negb andb remember set_last call set_currentCommands nodeErrors
         lastSensorAvailability outbox set_rcNodeActive rcNodeActive
         autonomousRudderCommand autonomousThrottleCommand
         primaryManualRudderCommand primaryManualThrottleCommand];
    rewrite ?E1, ?O1, ?app_nil_r; auto.
Qed.

End WithHeader.

(** The startup hold on the sample header: two timer ticks in three passes. *)
Lemma startup_flag_held_for_200_ticks_witness :
  let inps := [healthyInputs 0;
               mkInputs (mkEcanStatus false false false false)
                 (sensorAvailability (healthyInputs 0)) (mkRudderSensorData false true)
                 0 0 0 [] true 0 0 (-1);
               mkInputs (mkEcanStatus false false false false)
                 (sensorAvailability (healthyInputs 0)) (mkRudderSensorData false true)
                 0 0 0 [] true 0 0 (-1)] in
  let s := mkState 0 0 0 (mkLast true true true true true true true true false) 0
             (mkCommands 0 0 0 0) 0 [] in
  let s' := @mainLoop sampleHeader inps s in
  nodeSystemTime s' = 2
  /\ (2 = 0 -> Z.land (nodeErrors s') 1 = Z.land (nodeErrors s) 1)
  /\ (1 <= 2 <= 200 -> Z.land (nodeErrors s') 1 = 1)
  /\ (200 < 2 -> Z.land (nodeErrors s') 1 = 0).
Proof.
  apply (@startup_flag_held_for_200_ticks sampleHeader
           [healthyInputs 0;
            mkInputs (mkEcanStatus false false false false)
              (sensorAvailability (healthyInputs 0)) (mkRudderSensorData false true)
              0 0 0 [] true 0 0 (-1);
            mkInputs (mkEcanStatus false false false false)
              (sensorAvailability (healthyInputs 0)) (mkRudderSensorData false true)
              0 0 0 [] true 0 0 (-1)]
           (mkState 0 0 0 (mkLast true true true true true true true true false) 0
              (mkCommands 0 0 0 0) 0 [])).
  - reflexivity.
  - reflexivity.
Defined.

(** A pass on the sample header: autonomous, the GPS drops out, no mode
    request. *)
Lemma faults_never_change_mode_witness :
  let inp := mkInputs (mkEcanStatus true false false true)
               (mkSensorAvailability
                  (mkAvailability false false 0) (mkAvailability true true 1000)
                  (mkAvailability true true 1000) (mkAvailability true true 1000)
                  (mkAvailability true true 1000) (mkAvailability false false 1000))
               (mkRudderSensorData false true) 0 0 0 [] true 0 0 (-1) in
  let s := mkState 1 0 1000 (mkLast true true true true true true true true false) 0
             (mkCommands 0 0 0 0) 0 [] in
  @GetAutoMode sampleHeader (@mainLoopPass sampleHeader s inp)
  = @GetAutoMode sampleHeader s.
Proof.
  apply (@faults_never_change_mode sampleHeader); reflexivity.
Defined.

(** A 100 Hz step in return to base on the sample header. *)
Lemma autonomous_fault_silences_actuators_witness :
  let s := mkState 1 (2 + 2048) 1000 (mkLast true false true true true true true true false)
             (2 + 2048) (mkCommands 0 0 0 0) 0 [] in
  outbox (@PrimaryNode100HzLoop sampleHeader (healthyInputs 0) s) = outbox s.
Proof.
  apply (@autonomous_fault_silences_actuators sampleHeader).
  - reflexivity.
  - cbn; lia.
  - cbn; unfold STARTUP_RESET_TIME; lia.
Defined.

(** The RC node lets go, on the sample header, in manual mode. *)
Lemma override_end_forces_command_witness :
  let s := mkState 0 64 1000 (mkLast true true true true true true true true true) 64
             (mkCommands 0 0 0 0) 0 [] in
  let inp := mkInputs (mkEcanStatus false false false false)
               (sensorAvailability (healthyInputs 0)) (mkRudderSensorData false true)
               0 11 250 [] false 0 0 (-1) in
  let s' := @trackRcNodeActive sampleHeader inp s in
  nodeErrors s' = 0
  /\ rcNodeActive (lastSensorAvailability s') = false
  /\ outbox s' = [ActuatorsTransmitCommands 11 250 true].
Proof.
  apply (@override_end_forces_command sampleHeader
           (mkInputs (mkEcanStatus false false false false)
              (sensorAvailability (healthyInputs 0)) (mkRudderSensorData false true)
              0 11 250 [] false 0 0 (-1))
           (mkState 0 64 1000 (mkLast true true true true true true true true true) 64
              (mkCommands 0 0 0 0) 0 [])); reflexivity.
Defined.

End PrimaryNodeLoopFacts.

Module PrimaryNodeFaultFacts.
Import PrimaryNode PrimaryNodeHelpers PrimaryNodeFacts PrimaryNodeLoopFacts.

Section WithHeader.

Context {hdr : Header}.

(** ** The spoken status *)

Lemma audioUpdates_app (l r : list Event) :
  audioUpdates (l ++ r) = audioUpdates l ++ audioUpdates r.
Proof. apply filter_app. Qed.

(** One 100 Hz step of a healthy autonomous vehicle that reaches no waypoint. *)
Lemma tick_audio (inp : Inputs) (s : State) :
  IS_AUTONOMOUS s = true ->
  nodeErrors s = 0 ->
  0 < nodeSystemTime s ->
  wpReachedIndex inp = -1 ->
  0 <= sayStatusCounter s <= SAY_STATUS_COUNTER_LIMIT ->
  let s' := PrimaryNode100HzLoop inp s in
  IS_AUTONOMOUS s' = true
  /\ nodeErrors s' = 0
  /\ 0 < nodeSystemTime s'
  /\ sayStatusCounter s'
     = (if sayStatusCounter s =? SAY_STATUS_COUNTER_LIMIT then 0 else sayStatusCounter s + 1)
  /\ audioUpdates (outbox s')
     = audioUpdates (outbox s)
       ++ (if sayStatusCounter s =? SAY_STATUS_COUNTER_LIMIT
           then [SendAudioStatusUpdate] else []).
Proof.
  intros Hauto Herr Ht Hwp Hc s'.
  destruct (PrimaryNode100HzLoop_words inp s) as (W1 & W2 & W3). fold s' in W1, W2, W3.
  assert (E' : nodeErrors s' = 0).
  { rewrite W2, Herr.
    replace (nodeSystemTime s =? 0) with false by (symmetry; apply Z.eqb_neq; lia).
    destruct (nodeSystemTime s =? STARTUP_RESET_TIME); [apply Z.land_0_l|reflexivity]. }
  split; [unfold IS_AUTONOMOUS in *; now rewrite W1|].
  split; [exact E'|].
  split; [rewrite W3; destruct (nodeSystemTime s <? UINT32_MAX); lia|].
  subst s'. unfold PrimaryNode100HzLoop. cbv zeta.
  replace (nodeSystemTime s =? 0) with false by (symmetry; apply Z.eqb_neq; lia).
  set (s1 := if nodeSystemTime s =? STARTUP_RESET_TIME
             then clear_error PRIMARY_NODE_RESET_STARTUP s else s).
  assert (H1 : nodeStatus s1 = nodeStatus s /\ nodeErrors s1 = 0
               /\ sayStatusCounter s1 = sayStatusCounter s /\ outbox s1 = outbox s).
  { subst s1. destruct (nodeSystemTime s =? STARTUP_RESET_TIME);
      cbn [clear_error set_nodeErrors nodeStatus nodeErrors sayStatusCounter outbox];
      rewrite ?Herr, ?Z.land_0_l; auto. }
  clearbody s1. destruct H1 as (A1 & A2 & A3 & A4).
  assert (Hauto1 : IS_AUTONOMOUS s1 = true) by (unfold IS_AUTONOMOUS in *; now rewrite A1).
  assert (M : PrimaryNodeMuxAndOutputControllerCommands inp (rCommand inp) (tCommand inp)
                false s1
              = call (ActuatorsTransmitCommands (rCommand inp) (manTc inp) false)
                  (set_currentCommands
                     (mkCommands (rCommand inp) (manTc inp) (manRc inp) (manTc inp)) s1)).
  { unfold PrimaryNodeMuxAndOutputControllerCommands. cbv zeta.
    change (IS_AUTONOMOUS (set_currentCommands ?c s1)) with (IS_AUTONOMOUS s1).
    change (nodeErrors (set_currentCommands ?c s1)) with (nodeErrors s1).
    rewrite Hauto1, A2. reflexivity. }
  rewrite M.
  set (s2 := call (ActuatorsTransmitCommands (rCommand inp) (manTc inp) false)
               (set_currentCommands
                  (mkCommands (rCommand inp) (manTc inp) (manRc inp) (manTc inp)) s1)).
  assert (H2 : IS_AUTONOMOUS s2 = true /\ nodeErrors s2 = 0
               /\ sayStatusCounter s2 = sayStatusCounter s
               /\ audioUpdates (outbox s2) = audioUpdates (outbox s)).
  { subst s2. split; [exact Hauto1|]. split; [exact A2|]. split; [exact A3|].
    cbn [call outbox set_currentCommands]. rewrite audioUpdates_app, A4.
    cbn [audioUpdates filter]. apply app_nil_r. }
  clearbody s2. destruct H2 as (B1 & B2 & B3 & B4).
  rewrite B1, B2, Hwp, B3. change (-1 =? -1) with true.
  change (nonzero 0) with false. cbn [negb andb].
  unfold SAY_STATUS_COUNTER_LIMIT in *.
  destruct (sayStatusCounter s >=? 3000) eqn:G.
  - assert (sayStatusCounter s = 3000) by (apply Z.geb_le in G; lia).
    replace (sayStatusCounter s =? 3000) with true by (symmetry; apply Z.eqb_eq; lia).
    cbv iota.
    match goal with |- context [if ?c then _ else _] => destruct c end;
      cbn [sayStatusCounter outbox set_nodeSystemTime set_sayStatusCounter call];
      rewrite audioUpdates_app, B4; auto.
  - assert (sayStatusCounter s < 3000) by (rewrite Z.geb_leb in G; apply Z.leb_gt in G; lia).
    replace (sayStatusCounter s =? 3000) with false by (symmetry; apply Z.eqb_neq; lia).
    cbv iota.
    assert (U : uint16 (sayStatusCounter s + 1) = sayStatusCounter s + 1).
    { unfold uint16. apply Z.mod_small. lia. }
    match goal with |- context [if ?c then _ else _] => destruct c end;
      cbn [sayStatusCounter outbox set_nodeSystemTime set_sayStatusCounter call];
      rewrite U, B4, app_nil_r; auto.
Qed.

(** X20.  The spoken status of a healthy autonomous vehicle.  Past the first tick,
    autonomous, no error flag set, the counter at zero (as [SetAutoMode]
    leaves it), and no waypoint reached on the way: after [n] steps of the
    100 Hz loop the counter is [n mod 3001] and [n / 3001] status updates
    have been spoken, one every 3001 steps (the counter runs from 0 to the
    limit 3000 inclusive). *)
Theorem audio_status_every_3001_ticks (inps : list Inputs) (s : State) :
  IS_AUTONOMOUS s = true ->
  nodeErrors s = 0 ->
  0 < nodeSystemTime s ->
  sayStatusCounter s = 0 ->
  Forall (fun inp => wpReachedIndex inp = -1) inps ->
  let s' := hundredHzTicks inps s in
  let n := Z.of_nat (length inps) in
  sayStatusCounter s' = n mod 3001
  /\ Z.of_nat (length (audioUpdates (outbox s')))
     = Z.of_nat (length (audioUpdates (outbox s))) + n / 3001.
Proof.
  intros Hauto Herr Ht Hc Hall. cbv zeta.
  assert (G : IS_AUTONOMOUS (hundredHzTicks inps s) = true
              /\ nodeErrors (hundredHzTicks inps s) = 0
              /\ 0 < nodeSystemTime (hundredHzTicks inps s)
              /\ sayStatusCounter (hundredHzTicks inps s) = Z.of_nat (length inps) mod 3001
              /\ Z.of_nat (length (audioUpdates (outbox (hundredHzTicks inps s))))
                 = Z.of_nat (length (audioUpdates (outbox s)))
                   + Z.of_nat (length inps) / 3001).
  { induction inps as [|inp inps IH] using rev_ind.
    - unfold hundredHzTicks. cbn [fold_left length Z.of_nat].
      rewrite Hc. repeat split; auto. cbn. lia.
    - apply Forall_app in Hall as [Hall Hinp]. inversion Hinp as [|? ? Hwp _]; subst.
      destruct (IH Hall) as (I1 & I2 & I3 & I4 & I5). clear IH.
      unfold hundredHzTicks in *. rewrite fold_left_app. cbn [fold_left].
      remember (fold_left (fun st i => PrimaryNode100HzLoop i st) inps s) as s1 eqn:E1.
      clear E1.
      rewrite length_app. cbn [length]. rewrite Nat2Z.inj_add. change (Z.of_nat 1) with 1.
      remember (Z.of_nat (length inps)) as n eqn:En.
      assert (Hn : 0 <= n) by lia. clear En.
      destruct (tick_audio inp s1 I1 I2 I3 Hwp) as (T1 & T2 & T3 & T4 & T5).
      { rewrite I4. unfold SAY_STATUS_COUNTER_LIMIT. Z.div_mod_to_equations. lia. }
      split; [exact T1|]. split; [exact T2|]. split; [exact T3|].
      rewrite T4, T5, length_app, Nat2Z.inj_add, I5, I4.
      unfold SAY_STATUS_COUNTER_LIMIT.
      destruct (n mod 3001 =? 3000) eqn:E;
        [apply Z.eqb_eq in E|apply Z.eqb_neq in E]; cbn [length Z.of_nat];
        split; Z.div_mod_to_equations; lia. }
  destruct G as (_ & _ & _ & G4 & G5). auto.
Qed.

(** ** Losing the ground station *)

(** The check, when it fires. *)
Lemma checkReturnToBase_fires (s : State) :
  nonzero PRIMARY_NODE_RESET_RTB = true ->
  nodeErrors s <> lastErrorState s ->
  IS_AUTONOMOUS s = true ->
  Z.land (nodeErrors s) RTB_RESET_MASK <> 0 ->
  let s' := checkReturnToBase s in
  outbox s'
  = outbox s
    ++ ActuatorsTransmitCommands 0 0 true
       :: (if rtbAnnounced s then []
           else [rtbAnnouncement (Z.land (nodeErrors s) RTB_RESET_MASK)])
  /\ rtbAnnounced s' = true
  /\ nodeStatus s' = nodeStatus s.
Proof.
  intros Hnz Hchanged Hauto Hrtb s'.
  assert (Hs' : s' = let s2 := call (ActuatorsTransmitCommands 0 0 true) s in
                     let s1 := if negb (rtbAnnounced s)
                               then raise_error PRIMARY_NODE_RESET_RTB
                                      (call (rtbAnnouncement
                                               (Z.land (nodeErrors s) RTB_RESET_MASK)) s2)
                               else s2 in
                     set_lastErrorState (nodeErrors s1) s1).
  { subst s'. unfold checkReturnToBase.
    replace (negb (nodeErrors s =? lastErrorState s)) with true
      by (symmetry; apply negb_true_iff, Z.eqb_neq; exact Hchanged).
    replace (nonzero (Z.land (nodeErrors s) RTB_RESET_MASK)) with true
      by (symmetry; apply negb_true_iff, Z.eqb_neq; exact Hrtb).
    rewrite Hauto. reflexivity. }
  clearbody s'. rewrite Hs'. cbv zeta.
  split; [|split].
  - destruct (rtbAnnounced s);
      cbn [negb outbox set_lastErrorState raise_error set_nodeErrors call].
    + reflexivity.
    + now rewrite <- app_assoc.
  - unfold rtbAnnounced at 1.
    destruct (rtbAnnounced s) eqn:E;
      cbn [negb nodeErrors set_lastErrorState raise_error set_nodeErrors call].
    + exact E.
    + now rewrite land_lor_self.
  - destruct (rtbAnnounced s); reflexivity.
Qed.

(** With the ground station silent for the disconnection time, the
    availability blocks leave the ground-station flag set. *)
Lemma gcs_flag_raised (inp : Inputs) (s : State) :
  nonzero PRIMARY_NODE_RESET_GCS_DISCONNECTED = true ->
  GCS_DISCONNECTION_TIME <= timeSinceLastGcsMessage inp ->
  Z.land (nodeErrors (updateFaults inp s)) PRIMARY_NODE_RESET_GCS_DISCONNECTED <> 0.
Proof.
  intros Hnz Ht. unfold updateFaults.
  match goal with |- context [checkGcsDisconnected inp ?x] => generalize x end.
  intros s0. unfold checkGcsDisconnected.
  replace (timeSinceLastGcsMessage inp <? GCS_DISCONNECTION_TIME) with false
    by (symmetry; apply Z.ltb_ge; lia).
  replace (timeSinceLastGcsMessage inp >=? GCS_DISCONNECTION_TIME) with true
    by (symmetry; apply Z.geb_le; lia).
  destruct (nonzero (Z.land (nodeErrors s0) PRIMARY_NODE_RESET_GCS_DISCONNECTED)) eqn:E.
  - apply negb_true_iff, Z.eqb_neq in E. exact E.
  - cbn [raise_error set_nodeErrors nodeErrors]. rewrite land_lor_self.
    apply negb_true_iff, Z.eqb_neq in Hnz. exact Hnz.
Qed.

Lemma PrimaryNode100HzLoop_outbox (inp : Inputs) (s : State) :
  exists l, outbox (PrimaryNode100HzLoop inp s) = outbox s ++ l.
Proof.
  unfold PrimaryNode100HzLoop. cbv zeta.
  set (s1 := if nodeSystemTime s =? 0 then raise_error PRIMARY_NODE_RESET_STARTUP s
             else if nodeSystemTime s =? STARTUP_RESET_TIME
                  then clear_error PRIMARY_NODE_RESET_STARTUP s else s).
  assert (H1 : outbox s1 = outbox s).
  { subst s1. repeat match goal with |- context [if ?c then _ else _] => destruct c end;
      reflexivity. }
  clearbody s1. rewrite <- H1.
  set (s2 := PrimaryNodeMuxAndOutputControllerCommands inp (rCommand inp)
               (tCommand inp) false s1).
  assert (H2 : exists l, outbox s2 = outbox s1 ++ l).
  { subst s2. unfold PrimaryNodeMuxAndOutputControllerCommands. cbv zeta.
    repeat match goal with |- context [if ?c then _ else _] => destruct c end;
      cbn [outbox call set_currentCommands]; eauto.
    exists []. now rewrite app_nil_r. }
  clearbody s2. destruct H2 as [l2 H2].
  repeat match goal with |- context [if ?c then _ else _] => destruct c end;
    cbn [outbox call set_sayStatusCounter set_nodeSystemTime]; rewrite H2, <- ?app_assoc;
    eexists; reflexivity.
Qed.

(** The end of a pass in which the check fires. *)
Lemma pass_end_fires (inp : Inputs) (s1 : State) :
  rtbStandsAlone = true ->
  nodeErrors s1 <> lastErrorState s1 ->
  IS_AUTONOMOUS s1 = true ->
  Z.land (nodeErrors s1) RTB_RESET_MASK <> 0 ->
  let s3 := checkReturnToBase s1 in
  let s' := if timerElapsed inp then PrimaryNode100HzLoop inp s3 else s3 in
  In (ActuatorsTransmitCommands 0 0 true) (outbox s')
  /\ rtbAnnounced s' = true
  /\ rtbAnnouncements (outbox s')
     = rtbAnnouncements (outbox s1)
       ++ (if rtbAnnounced s1 then []
           else [rtbAnnouncement (Z.land (nodeErrors s1) RTB_RESET_MASK)])
  /\ GetAutoMode s' = PRIMARY_MODE_AUTONOMOUS.
Proof.
  intros Hrtb C1 A1 R1. cbv zeta.
  assert (Rnz : nonzero PRIMARY_NODE_RESET_RTB = true).
  { unfold rtbStandsAlone in Hrtb. now apply andb_true_iff in Hrtb as [? _]. }
  destruct (checkReturnToBase_fires s1 Rnz C1 A1 R1) as (F1 & F2 & F3).
  generalize dependent (checkReturnToBase s1). intros s3 F1 F2 F3.
  assert (G3 : GetAutoMode s3 = PRIMARY_MODE_AUTONOMOUS).
  { unfold GetAutoMode. unfold IS_AUTONOMOUS in A1. now rewrite F3, A1. }
  assert (N3 : rtbAnnouncements (outbox s3)
               = rtbAnnouncements (outbox s1)
                 ++ (if rtbAnnounced s1 then []
                     else [rtbAnnouncement (Z.land (nodeErrors s1) RTB_RESET_MASK)])).
  { rewrite F1, rtbAnnouncements_app. destruct (rtbAnnounced s1); reflexivity. }
  assert (I3 : In (ActuatorsTransmitCommands 0 0 true) (outbox s3)).
  { rewrite F1. apply in_or_app. right. now left. }
  destruct (timerElapsed inp); [|auto].
  destruct (PrimaryNode100HzLoop_latched inp s3 Hrtb F2) as [L4 A4].
  destruct (PrimaryNode100HzLoop_words inp s3) as (W1 & _).
  destruct (PrimaryNode100HzLoop_outbox inp s3) as [l O4].
  split; [rewrite O4; apply in_or_app; now left|].
  split; [exact L4|]. split; [now rewrite A4|].
  rewrite <- G3. unfold GetAutoMode. now rewrite W1.
Qed.

(** X21.  Losing the ground station in autonomous mode.  In a pass that handles no
    mode request, with the ground station silent for at least
    [GCS_DISCONNECTION_TIME] and not remembered as lost at the last check, an
    autonomous vehicle goes into return to base within that same pass: the
    neutral actuator command is forced out, the return-to-base flag ends up
    set, exactly one announcement is added unless one was latched already,
    and the vehicle is still autonomous.  (The return-to-base and automode
    flags have their bits to themselves; the ground-station flag is one of
    the return-to-base mask.) *)
Theorem gcs_loss_triggers_return_to_base (inp : Inputs) (s : State) :
  rtbStandsAlone = true ->
  autoModeStandsAlone = true ->
  gcsTriggersReturnToBase = true ->
  IS_AUTONOMOUS s = true ->
  Z.land (lastErrorState s) PRIMARY_NODE_RESET_GCS_DISCONNECTED = 0 ->
  GCS_DISCONNECTION_TIME <= timeSinceLastGcsMessage inp ->
  modeRequests inp = [] ->
  In (ActuatorsTransmitCommands 0 0 true) (outbox (mainLoopPass s inp))
  /\ rtbAnnounced (mainLoopPass s inp) = true
  /\ rtbAnnouncements (outbox (mainLoopPass s inp))
     = rtbAnnouncements (outbox s)
       ++ (if rtbAnnounced s then []
           else [rtbAnnouncement
                   (Z.land (nodeErrors (updateFaults inp s)) RTB_RESET_MASK)])
  /\ GetAutoMode (mainLoopPass s inp) = PRIMARY_MODE_AUTONOMOUS.
Proof.
  intros Hrtb Hmode Hgcs Hauto Hlast Htime Hreq.
  unfold gcsTriggersReturnToBase in Hgcs. apply andb_true_iff in Hgcs as [Gnz Gin].
  apply Z.eqb_eq in Gin.
  pose proof (gcs_flag_raised inp s Gnz Htime) as Hflag.
  destruct (updateFaults_untouched PRIMARY_NODE_RESET_RTB inp s (faults_apart Hrtb))
    as (U1 & U2 & U3 & _).
  unfold autoModeStandsAlone in Hmode.
  destruct (updateFaults_mode PRIMARY_NODE_STATUS_AUTOMODE inp s Hmode) as [M1 _].
  assert (L1 : rtbAnnounced (updateFaults inp s) = rtbAnnounced s).
  { unfold rtbAnnounced. now rewrite U1. }
  assert (A1 : IS_AUTONOMOUS (updateFaults inp s) = true).
  { unfold IS_AUTONOMOUS in *. now rewrite M1. }
  assert (C1 : nodeErrors (updateFaults inp s) <> lastErrorState (updateFaults inp s)).
  { intro E. rewrite E, U3 in Hflag. contradiction. }
  assert (R1 : Z.land (nodeErrors (updateFaults inp s)) RTB_RESET_MASK <> 0).
  { intro E. apply Hflag. rewrite <- Gin, Z.land_assoc.
    rewrite (Z.land_comm (nodeErrors (updateFaults inp s))), <- Z.land_assoc, E.
    apply Z.land_0_r. }
  pose proof (pass_end_fires inp (updateFaults inp s) Hrtb C1 A1 R1) as P.
  cbv zeta in P. rewrite L1, U2 in P.
  unfold mainLoopPass. rewrite (MavLinkReceive_none inp _ Hreq). exact P.
Qed.

End WithHeader.

(** Three ticks of a healthy autonomous vehicle on the sample header. *)
Lemma audio_status_every_3001_ticks_witness :
  let s := mkState 1 0 1000 (mkLast true true true true true true true true false) 0
             (mkCommands 0 0 0 0) 0 [] in
  let s' := @hundredHzTicks sampleHeader
              [healthyInputs 0; healthyInputs 0; healthyInputs 0] s in
  sayStatusCounter s' = 3
  /\ Z.of_nat (length (audioUpdates (outbox s')))
     = Z.of_nat (length (audioUpdates (outbox s))) + 0.
Proof.
  apply (@audio_status_every_3001_ticks sampleHeader
           [healthyInputs 0; healthyInputs 0; healthyInputs 0]
           (mkState 1 0 1000 (mkLast true true true true true true true true false) 0
              (mkCommands 0 0 0 0) 0 [])).
  - reflexivity.
  - reflexivity.
  - cbn; lia.
  - reflexivity.
  - repeat constructor.
Defined.

(** The ground station falls silent, on the sample header. *)
Lemma gcs_loss_triggers_return_to_base_witness :
  let s := mkState 1 0 1000 (mkLast true true true true true true true true false) 0
             (mkCommands 0 0 0 0) 0 [] in
  let inp := mkInputs (mkEcanStatus false false false false)
               (sensorAvailability (healthyInputs 1000)) (mkRudderSensorData false true)
               3000 0 0 [] false 0 0 (-1) in
  let s' := @mainLoopPass sampleHeader s inp in
  In (ActuatorsTransmitCommands 0 0 true) (outbox s')
  /\ @rtbAnnounced sampleHeader s' = true
  /\ rtbAnnouncements (outbox s') = [rtbAnnouncement 1024]
  /\ @GetAutoMode sampleHeader s' = PRIMARY_MODE_AUTONOMOUS.
Proof.
  apply (@gcs_loss_triggers_return_to_base sampleHeader
           (mkInputs (mkEcanStatus false false false false)
              (sensorAvailability (healthyInputs 1000)) (mkRudderSensorData false true)
              3000 0 0 [] false 0 0 (-1))
           (mkState 1 0 1000 (mkLast true true true true true true true true false) 0
              (mkCommands 0 0 0 0) 0 [])).
  - reflexivity.
  - reflexivity.
  - reflexivity.
  - reflexivity.
  - reflexivity.
  - unfold GCS_DISCONNECTION_TIME; cbn; lia.
  - reflexivity.
Defined.

End PrimaryNodeFaultFacts.

Module PrimaryNodeModeFacts.
Import PrimaryNode PrimaryNodeHelpers PrimaryNodeFacts PrimaryNodeLoopFacts.

Lemma lor_then_clear (x f : Z) : Z.land x f = 0 -> Z.land (Z.lor x f) (Z.lnot f) = x.
Proof.
  intro H. apply Z.bits_inj'. intros n Hn.
  apply (f_equal (fun z => Z.testbit z n)) in H.
  rewrite Z.land_spec, Z.bits_0 in H.
  rewrite Z.land_spec, Z.lor_spec, Z.lnot_spec by assumption.
  destruct (Z.testbit x n), (Z.testbit f n); simpl in *; congruence.
Qed.

Section WithHeader.

Context {hdr : Header}.

(** ** Entering and leaving autonomous mode *)

(** X22.  From manual mode with the return-to-base subset clear, a request for
    autonomous mode is granted: the vehicle is autonomous, a heartbeat goes
    to the ground station and to the datalogger, the status is spoken, the
    status counter restarts and all parameters are transmitted, in that
    order; the error word is untouched.  A request for manual mode then
    takes the vehicle back: two heartbeats, and the status word is exactly
    what it was before the round trip.  (The automode flag is a positive
    value; no return-to-base announcement is latched.) *)
Theorem SetAutoMode_round_trip (s : State) :
  0 < PRIMARY_NODE_STATUS_AUTOMODE ->
  IS_AUTONOMOUS s = false ->
  Z.land (nodeErrors s) RTB_RESET_MASK = 0 ->
  rtbAnnounced s = false ->
  let a := SetAutoMode PRIMARY_MODE_AUTONOMOUS s in
  let m := SetAutoMode PRIMARY_MODE_MANUAL a in
  GetAutoMode a = PRIMARY_MODE_AUTONOMOUS
  /\ outbox a = outbox s ++ [MavLinkSendHeartbeat MAVLINK_CHAN_GROUNDSTATION;
                            MavLinkSendHeartbeat MAVLINK_CHAN_DATALOGGER;
                            SendAudioStatusUpdate; MavLinkTransmitAllParameters]
  /\ sayStatusCounter a = 0
  /\ nodeErrors a = nodeErrors s
  /\ GetAutoMode m = PRIMARY_MODE_MANUAL
  /\ outbox m = outbox a ++ [MavLinkSendHeartbeat MAVLINK_CHAN_GROUNDSTATION;
                            MavLinkSendHeartbeat MAVLINK_CHAN_DATALOGGER]
  /\ nodeStatus m = nodeStatus s
  /\ nodeErrors m = nodeErrors s.
Proof.
  intros Hpos Hman Hrtb Hlatch a m.
  assert (Hbit : Z.land (nodeStatus s) PRIMARY_NODE_STATUS_AUTOMODE = 0).
  { unfold IS_AUTONOMOUS in Hman. rewrite Z.gtb_ltb in Hman. apply Z.ltb_ge in Hman.
    pose proof (Z.land_nonneg (nodeStatus s) PRIMARY_NODE_STATUS_AUTOMODE) as [_ N].
    specialize (N (or_intror (Z.lt_le_incl _ _ Hpos))). lia. }
  assert (Ha : a = s |> raise_status PRIMARY_NODE_STATUS_AUTOMODE
                     |> call (MavLinkSendHeartbeat MAVLINK_CHAN_GROUNDSTATION)
                     |> call (MavLinkSendHeartbeat MAVLINK_CHAN_DATALOGGER)
                     |> call SendAudioStatusUpdate
                     |> set_sayStatusCounter 0
                     |> call MavLinkTransmitAllParameters).
  { subst a. unfold SetAutoMode. cbv zeta. rewrite Hman, Hrtb. reflexivity. }
  clearbody a.
  assert (Sa : nodeStatus a = Z.lor (nodeStatus s) PRIMARY_NODE_STATUS_AUTOMODE)
    by (rewrite Ha; reflexivity).
  assert (Ea : nodeErrors a = nodeErrors s) by (rewrite Ha; reflexivity).
  assert (Aa : IS_AUTONOMOUS a = true).
  { unfold IS_AUTONOMOUS. rewrite Sa, land_lor_self. now apply Z.gtb_lt. }
  assert (Hm : m = clear_status PRIMARY_NODE_STATUS_AUTOMODE a
                   |> call (MavLinkSendHeartbeat MAVLINK_CHAN_GROUNDSTATION)
                   |> call (MavLinkSendHeartbeat MAVLINK_CHAN_DATALOGGER)).
  { subst m. unfold SetAutoMode. cbv zeta. rewrite Aa. cbn [andb negb].
    change (nodeErrors (clear_status PRIMARY_NODE_STATUS_AUTOMODE a)) with (nodeErrors a).
    unfold rtbAnnounced in Hlatch. rewrite Ea, Hlatch. reflexivity. }
  clearbody m.
  assert (Sm : nodeStatus m = nodeStatus s).
  { rewrite Hm. cbn [call clear_status set_nodeStatus nodeStatus].
    rewrite Sa. now apply lor_then_clear. }
  split; [unfold GetAutoMode; unfold IS_AUTONOMOUS in Aa; now rewrite Aa|].
  split.
  { rewrite Ha. cbn [call set_sayStatusCounter raise_status set_nodeStatus outbox].
    now rewrite <- !app_assoc. }
  split; [rewrite Ha; reflexivity|]. split; [exact Ea|].
  split.
  { unfold GetAutoMode. rewrite Sm. unfold IS_AUTONOMOUS in Hman. now rewrite Hman. }
  split.
  { rewrite Hm. cbn [call clear_status set_nodeStatus outbox]. now rewrite <- !app_assoc. }
  split; [exact Sm|]. rewrite Hm. exact Ea.
Qed.

(** ** What is reported as driving the boat *)

(** X23.  With no error flag set, what [GetCurrentActuatorCommands] reports after
    the mux has run is the very command the mux has just transmitted, in
    either mode. *)
Theorem reported_command_is_transmitted (inp : Inputs) (r : float) (t : Z)
    (force : bool) (secRc : float) (secTc : Z) (s : State) :
  nodeErrors s = 0 ->
  let s' := PrimaryNodeMuxAndOutputControllerCommands inp r t force s in
  let '(rudder, throttle) := GetCurrentActuatorCommands secRc secTc s' in
  outbox s' = outbox s ++ [ActuatorsTransmitCommands rudder throttle force].
Proof.
  intros Herr. cbv zeta.
  unfold PrimaryNodeMuxAndOutputControllerCommands, GetCurrentActuatorCommands. cbv zeta.
  change (IS_AUTONOMOUS (set_currentCommands ?c s)) with (IS_AUTONOMOUS s).
  change (nodeErrors (set_currentCommands ?c s)) with (nodeErrors s).
  rewrite Herr. rewrite Z.land_0_l. change (nonzero 0) with false. cbn [negb andb].
  destruct (IS_AUTONOMOUS s) eqn:A; cbn [negb andb].
  - change (nodeErrors (call ?e (set_currentCommands ?c s))) with (nodeErrors s).
    change (IS_AUTONOMOUS (call ?e (set_currentCommands ?c s))) with (IS_AUTONOMOUS s).
    rewrite Herr, A, Z.land_0_l. reflexivity.
  - change (nodeErrors (call ?e (set_currentCommands ?c s))) with (nodeErrors s).
    change (IS_AUTONOMOUS (call ?e (set_currentCommands ?c s))) with (IS_AUTONOMOUS s).
    rewrite Herr, A, Z.land_0_l. reflexivity.
Qed.

(** X24.  In manual mode with an error flag set that is not the manual override
    (a lost GPS, say), the mux still transmits the operator's command, while
    [GetCurrentActuatorCommands] reports that nothing drives the boat:
    rudder 0.0, throttle 0. *)
Theorem manual_fault_reports_neutral (inp : Inputs) (r : float) (t : Z)
    (force : bool) (secRc : float) (secTc : Z) (s : State) :
  IS_AUTONOMOUS s = false ->
  nodeErrors s <> 0 ->
  Z.land (nodeErrors s) PRIMARY_NODE_RESET_MANUAL_OVERRIDE = 0 ->
  let s' := PrimaryNodeMuxAndOutputControllerCommands inp r t force s in
  outbox s' = outbox s ++ [ActuatorsTransmitCommands (manRc inp) (manTc inp) force]
  /\ GetCurrentActuatorCommands secRc secTc s' = (0, 0).
Proof.
  intros Hman Herr Hov. cbv zeta.
  unfold PrimaryNodeMuxAndOutputControllerCommands, GetCurrentActuatorCommands. cbv zeta.
  change (IS_AUTONOMOUS (set_currentCommands ?c s)) with (IS_AUTONOMOUS s).
  change (nodeErrors (set_currentCommands ?c s)) with (nodeErrors s).
  assert (Hnz : nonzero (nodeErrors s) = true) by (apply negb_true_iff, Z.eqb_neq; exact Herr).
  rewrite Hman, Hov, Hnz. change (nonzero 0) with false. cbn [negb andb].
  change (nodeErrors (call ?e (set_currentCommands ?c s))) with (nodeErrors s).
  rewrite Hov, Hnz. change (nonzero 0) with false. cbn [negb]. auto.
Qed.

End WithHeader.

Lemma SetAutoMode_round_trip_witness :
  let a := @SetAutoMode sampleHeader PRIMARY_MODE_AUTONOMOUS idleState in
  let m := @SetAutoMode sampleHeader PRIMARY_MODE_MANUAL a in
  @GetAutoMode sampleHeader a = PRIMARY_MODE_AUTONOMOUS
  /\ outbox a = [MavLinkSendHeartbeat MAVLINK_CHAN_GROUNDSTATION;
                MavLinkSendHeartbeat MAVLINK_CHAN_DATALOGGER;
                SendAudioStatusUpdate; MavLinkTransmitAllParameters]
  /\ sayStatusCounter a = 0
  /\ nodeErrors a = 0
  /\ @GetAutoMode sampleHeader m = PRIMARY_MODE_MANUAL
  /\ outbox m = outbox a ++ [MavLinkSendHeartbeat MAVLINK_CHAN_GROUNDSTATION;
                            MavLinkSendHeartbeat MAVLINK_CHAN_DATALOGGER]
  /\ nodeStatus m = 0
  /\ nodeErrors m = 0.
Proof.
  apply (@SetAutoMode_round_trip sampleHeader idleState).
  - cbn; lia.
  - reflexivity.
  - reflexivity.
  - reflexivity.
Defined.

Lemma reported_command_is_transmitted_witness :
  let inp := mkInputs (mkEcanStatus false false false false)
               (sensorAvailability (healthyInputs 0)) (mkRudderSensorData false true)
               0 11 250 [] false 5 0 (-1) in
  let s' := @PrimaryNodeMuxAndOutputControllerCommands sampleHeader inp 5 0 false idleState in
  outbox s' = [ActuatorsTransmitCommands 11 250 false].
Proof.
  apply (@reported_command_is_transmitted sampleHeader
           (mkInputs (mkEcanStatus false false false false)
              (sensorAvailability (healthyInputs 0)) (mkRudderSensorData false true)
              0 11 250 [] false 5 0 (-1)) 5 0 false 0 0 idleState).
  reflexivity.
Defined.

Lemma manual_fault_reports_neutral_witness :
  let inp := mkInputs (mkEcanStatus false false false false)
               (sensorAvailability (healthyInputs 0)) (mkRudderSensorData false true)
               0 11 250 [] false 5 0 (-1) in
  let s := mkState 0 2 1000 (mkLast true false true true true true true true false) 2
             (mkCommands 0 0 0 0) 0 [] in
  let s' := @PrimaryNodeMuxAndOutputControllerCommands sampleHeader inp 5 0 false s in
  outbox s' = [ActuatorsTransmitCommands 11 250 false]
  /\ @GetCurrentActuatorCommands sampleHeader 0 0 s' = (0, 0).
Proof.
  apply (@manual_fault_reports_neutral sampleHeader
           (mkInputs (mkEcanStatus false false false false)
              (sensorAvailability (healthyInputs 0)) (mkRudderSensorData false true)
              0 11 250 [] false 5 0 (-1)) 5 0 false 0 0
           (mkState 0 2 1000 (mkLast true false true true true true true true false) 2
              (mkCommands 0 0 0 0) 0 [])).
  - reflexivity.
  - cbn; lia.
  - reflexivity.
Defined.

End PrimaryNodeModeFacts.

Module PrimaryNodeFlagFacts.
Import PrimaryNode PrimaryNodeHelpers PrimaryNodeFacts PrimaryNodeLoopFacts.

Section WithHeader.

Context {hdr : Header}.

(** ** Flags that follow a level *)

Lemma raised_reads_set (e flag : Z) :
  nonzero flag = true -> nonzero (Z.land (Z.lor e flag) flag) = true.
Proof. intro H. now rewrite land_lor_self. Qed.

Lemma cleared_reads_clear (e flag : Z) :
  nonzero (Z.land (Z.land e (Z.lnot flag)) flag) = false.
Proof. now rewrite land_clear_self. Qed.

Ltac level :=
  match goal with
  | |- context [if nonzero (Z.land (nodeErrors ?s) ?f) then _ else _] =>
      let E := fresh "E" in
      destruct (nonzero (Z.land (nodeErrors s) f)) eqn:E
  end;
  repeat match goal with
         | |- context [if ?c then _ else _] => destruct c eqn:?
         end;
  unfold clear_error, raise_error; cbn [nodeErrors set_nodeErrors negb] in *;
  rewrite ?cleared_reads_clear, ?raised_reads_set by assumption;
  repeat match goal with
         | H : nonzero (Z.land (nodeErrors _) _) = _ |- _ => rewrite H
         end;
  repeat match goal with
         | H : negb ?b = _ |- _ => destruct b; cbn [negb] in H
         end;
  congruence.

Lemma calibrating_after_pass (inp : Inputs) (s : State) :
  calibratingStandsAlone = true ->
  nonzero (Z.land (nodeErrors (mainLoopPass s inp)) PRIMARY_NODE_RESET_CALIBRATING)
  = Calibrating (rudderSensorData inp).
Proof.
  intros H. unfold calibratingStandsAlone in H. apply andb_true_iff in H as [Hnz H].
  set (s12 := s |> checkEcanErrors inp |> trackGpsEnabled inp |> trackGpsActive inp
                |> checkGpsDisconnected inp |> trackGpsActive inp
                |> trackPropEnabled inp |> trackRudderEnabled inp
                |> trackRcNodeEnabled inp |> trackDst800Enabled inp
                |> trackImuEnabled inp |> trackRcNodeActive inp
                |> trackRudderActive inp).
  set (s13 := trackCalibrating inp s12).
  assert (L : nonzero (Z.land (nodeErrors s13) PRIMARY_NODE_RESET_CALIBRATING)
              = Calibrating (rudderSensorData inp)).
  { subst s13. clearbody s12. unfold trackCalibrating.
    level. }
  assert (Hsuf : untouched PRIMARY_NODE_RESET_CALIBRATING gpsActive s13 (updateFaults inp s)).
  { unfold updateFaults. fold s12. fold s13. do 2 unchain. apply untouched_refl. }
  destruct Hsuf as (R1 & _).
  destruct (pass_tail_untouched PRIMARY_NODE_RESET_CALIBRATING gpsActive inp
              (updateFaults inp s)) as [T1 _]; [apart|apart|auto|].
  change (mainLoopPass s inp)
    with (let s1 := checkReturnToBase (MavLinkReceive inp (updateFaults inp s)) in
          if timerElapsed inp then PrimaryNode100HzLoop inp s1 else s1).
  cbv zeta. rewrite T1, R1. exact L.
Qed.

Lemma uncalibrated_after_pass (inp : Inputs) (s : State) :
  uncalibratedStandsAlone = true ->
  nonzero (Z.land (nodeErrors (mainLoopPass s inp)) PRIMARY_NODE_RESET_UNCALIBRATED)
  = negb (Calibrated (rudderSensorData inp)).
Proof.
  intros H. unfold uncalibratedStandsAlone in H. apply andb_true_iff in H as [Hnz H].
  set (s13 := s |> checkEcanErrors inp |> trackGpsEnabled inp |> trackGpsActive inp
                |> checkGpsDisconnected inp |> trackGpsActive inp
                |> trackPropEnabled inp |> trackRudderEnabled inp
                |> trackRcNodeEnabled inp |> trackDst800Enabled inp
                |> trackImuEnabled inp |> trackRcNodeActive inp
                |> trackRudderActive inp |> trackCalibrating inp).
  set (s14 := trackCalibrated inp s13).
  assert (L : nonzero (Z.land (nodeErrors s14) PRIMARY_NODE_RESET_UNCALIBRATED)
              = negb (Calibrated (rudderSensorData inp))).
  { subst s14. clearbody s13. unfold trackCalibrated.
    level. }
  assert (Hsuf : untouched PRIMARY_NODE_RESET_UNCALIBRATED gpsActive s14 (updateFaults inp s)).
  { unfold updateFaults. fold s13. fold s14. do 1 unchain. apply untouched_refl. }
  destruct Hsuf as (R1 & _).
  destruct (pass_tail_untouched PRIMARY_NODE_RESET_UNCALIBRATED gpsActive inp
              (updateFaults inp s)) as [T1 _]; [apart|apart|auto|].
  change (mainLoopPass s inp)
    with (let s1 := checkReturnToBase (MavLinkReceive inp (updateFaults inp s)) in
          if timerElapsed inp then PrimaryNode100HzLoop inp s1 else s1).
  cbv zeta. rewrite T1, R1. exact L.
Qed.

Lemma gcs_after_pass (inp : Inputs) (s : State) :
  gcsDisconnectedStandsAlone = true ->
  nonzero (Z.land (nodeErrors (mainLoopPass s inp)) PRIMARY_NODE_RESET_GCS_DISCONNECTED)
  = (timeSinceLastGcsMessage inp >=? GCS_DISCONNECTION_TIME).
Proof.
  intros H. unfold gcsDisconnectedStandsAlone in H. apply andb_true_iff in H as [Hnz H].
  set (s14 := s |> checkEcanErrors inp |> trackGpsEnabled inp |> trackGpsActive inp
                |> checkGpsDisconnected inp |> trackGpsActive inp
                |> trackPropEnabled inp |> trackRudderEnabled inp
                |> trackRcNodeEnabled inp |> trackDst800Enabled inp
                |> trackImuEnabled inp |> trackRcNodeActive inp
                |> trackRudderActive inp |> trackCalibrating inp |> trackCalibrated inp).
  assert (L : nonzero (Z.land (nodeErrors (checkGcsDisconnected inp s14))
                         PRIMARY_NODE_RESET_GCS_DISCONNECTED)
              = (timeSinceLastGcsMessage inp >=? GCS_DISCONNECTION_TIME)).
  { clearbody s14. unfold checkGcsDisconnected.
    rewrite Z.geb_leb, Z.ltb_antisym.
    level. }
  destruct (pass_tail_untouched PRIMARY_NODE_RESET_GCS_DISCONNECTED gpsActive inp
              (updateFaults inp s)) as [T1 _]; [apart|apart|auto|].
  change (mainLoopPass s inp)
    with (let s1 := checkReturnToBase (MavLinkReceive inp (updateFaults inp s)) in
          if timerElapsed inp then PrimaryNode100HzLoop inp s1 else s1).
  cbv zeta. rewrite T1. exact L.
Qed.

(** X26.  The flags that follow a level are in step with their input after every
    pass of the main loop, whatever the state before and whatever else the
    pass does: the calibrating flag is set exactly if the rudder reports
    calibrating, the uncalibrated flag exactly if it does not report
    calibrated, the ground-station flag exactly if the ground station has
    been silent for [GCS_DISCONNECTION_TIME] or longer.  (Each of the three
    is a flag with its bits of the error word to itself.) *)
Theorem level_flags_mirror_inputs (inp : Inputs) (s : State) :
  calibratingStandsAlone = true ->
  uncalibratedStandsAlone = true ->
  gcsDisconnectedStandsAlone = true ->
  let e := nodeErrors (mainLoopPass s inp) in
  nonzero (Z.land e PRIMARY_NODE_RESET_CALIBRATING) = Calibrating (rudderSensorData inp)
  /\ nonzero (Z.land e PRIMARY_NODE_RESET_UNCALIBRATED)
     = negb (Calibrated (rudderSensorData inp))
  /\ nonzero (Z.land e PRIMARY_NODE_RESET_GCS_DISCONNECTED)
     = (timeSinceLastGcsMessage inp >=? GCS_DISCONNECTION_TIME).
Proof.
  intros H1 H2 H3. cbv zeta.
  split; [exact (calibrating_after_pass inp s H1)|].
  split; [exact (uncalibrated_after_pass inp s H2)|exact (gcs_after_pass inp s H3)].
Qed.

(** ** A sensor that never shows up *)

Lemma keepsImu_refl (s : State) : keepsImu s s.
Proof. unfold keepsImu. auto. Qed.

Lemma keepsImu_trans (s1 s2 s3 : State) :
  keepsImu s1 s2 -> keepsImu s2 s3 -> keepsImu s1 s3.
Proof. unfold keepsImu. intros [A B] [C D]. split; congruence. Qed.

Ltac imublock :=
  intros; unfold keepsImu; cbv zeta;
  repeat match goal with
         | |- context [if ?c then _ else _] => destruct c
         end;
  simpl; auto using land_lor_apart, land_clear_apart.

Lemma checkEcanErrors_imu (inp : Inputs) (s : State) :
  keepsImu s (checkEcanErrors inp s).
Proof.
  unfold checkEcanErrors. cbv zeta.
  match goal with
  | |- keepsImu _ (if nonzero (Z.land (nodeStatus ?s1) _) then _ else _) =>
      assert (H1 : keepsImu s s1) by imublock; remember s1 as s1' eqn:E; clear E
  end.
  eapply keepsImu_trans; [exact H1|]. imublock.
Qed.

Lemma trackGpsEnabled_imu (inp : Inputs) (s : State) :
  keepsImu s (trackGpsEnabled inp s).
Proof. unfold trackGpsEnabled. imublock. Qed.

Lemma trackGpsActive_imu (inp : Inputs) (s : State) :
  Z.land PRIMARY_NODE_STATUS_GPS_INVALID PRIMARY_NODE_RESET_IMU_DISCONNECTED = 0 ->
  keepsImu s (trackGpsActive inp s).
Proof. intros H. unfold trackGpsActive. imublock. Qed.

Lemma checkGpsDisconnected_imu (inp : Inputs) (s : State) :
  Z.land PRIMARY_NODE_RESET_GPS_DISCONNECTED PRIMARY_NODE_RESET_IMU_DISCONNECTED = 0 ->
  keepsImu s (checkGpsDisconnected inp s).
Proof. intros H. unfold checkGpsDisconnected. imublock. Qed.

Lemma trackPropEnabled_imu (inp : Inputs) (s : State) :
  Z.land PRIMARY_NODE_RESET_ESTOP_OR_ACS300_DISCON PRIMARY_NODE_RESET_IMU_DISCONNECTED = 0 ->
  keepsImu s (trackPropEnabled inp s).
Proof. intros H. unfold trackPropEnabled. imublock. Qed.

Lemma trackRudderEnabled_imu (inp : Inputs) (s : State) :
  Z.land PRIMARY_NODE_RESET_RUDDER_DISCONNECTED PRIMARY_NODE_RESET_IMU_DISCONNECTED = 0 ->
  keepsImu s (trackRudderEnabled inp s).
Proof. intros H. unfold trackRudderEnabled. imublock. Qed.

Lemma trackRcNodeEnabled_imu (inp : Inputs) (s : State) :
  keepsImu s (trackRcNodeEnabled inp s).
Proof. unfold trackRcNodeEnabled. imublock. Qed.

Lemma trackDst800Enabled_imu (inp : Inputs) (s : State) :
  Z.land PRIMARY_NODE_RESET_DST800_DISCONNECTED PRIMARY_NODE_RESET_IMU_DISCONNECTED = 0 ->
  keepsImu s (trackDst800Enabled inp s).
Proof. intros H. unfold trackDst800Enabled. imublock. Qed.

Lemma trackImuEnabled_unseen (inp : Inputs) (s : State) :
  imuEnabled (lastSensorAvailability s) = false ->
  enabled (imu (sensorAvailability inp)) = false ->
  trackImuEnabled inp s = s.
Proof. intros H1 H2. unfold trackImuEnabled. cbv zeta. now rewrite H1, H2. Qed.

Lemma trackRcNodeActive_imu (inp : Inputs) (s : State) :
  Z.land PRIMARY_NODE_RESET_MANUAL_OVERRIDE PRIMARY_NODE_RESET_IMU_DISCONNECTED = 0 ->
  keepsImu s (trackRcNodeActive inp s).
Proof.
  intros H. unfold trackRcNodeActive. cbv zeta.
  destruct (rcNodeActive (lastSensorAvailability s)
            && negb (active (rcNode (sensorAvailability inp)))).
  - match goal with
    | |- context [PrimaryNodeMuxAndOutputControllerCommands ?i ?r ?t ?f ?s1] =>
        pose proof (mux_frame i r t f s1) as M; cbv zeta in M;
        destruct M as (M1 & _ & M3 & _)
    end.
    unfold keepsImu, remember, set_last.
    cbn [nodeErrors lastSensorAvailability imuEnabled set_rcNodeActive].
    rewrite M1, M3. cbn [nodeErrors lastSensorAvailability clear_error set_nodeErrors].
    split; [now apply land_clear_apart|reflexivity].
  - imublock.
Qed.

Lemma trackRudderActive_imu (inp : Inputs) (s : State) :
  Z.land PRIMARY_NODE_RESET_RUDDER_ERRORS PRIMARY_NODE_RESET_IMU_DISCONNECTED = 0 ->
  keepsImu s (trackRudderActive inp s).
Proof. intros H. unfold trackRudderActive. imublock. Qed.

Lemma trackCalibrating_imu (inp : Inputs) (s : State) :
  Z.land PRIMARY_NODE_RESET_CALIBRATING PRIMARY_NODE_RESET_IMU_DISCONNECTED = 0 ->
  keepsImu s (trackCalibrating inp s).
Proof. intros H. unfold trackCalibrating. imublock. Qed.

Lemma trackCalibrated_imu (inp : Inputs) (s : State) :
  Z.land PRIMARY_NODE_RESET_UNCALIBRATED PRIMARY_NODE_RESET_IMU_DISCONNECTED = 0 ->
  keepsImu s (trackCalibrated inp s).
Proof. intros H. unfold trackCalibrated. imublock. Qed.

Lemma checkGcsDisconnected_imu (inp : Inputs) (s : State) :
  Z.land PRIMARY_NODE_RESET_GCS_DISCONNECTED PRIMARY_NODE_RESET_IMU_DISCONNECTED = 0 ->
  keepsImu s (checkGcsDisconnected inp s).
Proof. intros H. unfold checkGcsDisconnected. imublock. Qed.

Lemma SetAutoMode_imu (newMode : PrimaryNodeMode) (s : State) :
  Z.land PRIMARY_NODE_RESET_RTB PRIMARY_NODE_RESET_IMU_DISCONNECTED = 0 ->
  keepsImu s (SetAutoMode newMode s).
Proof. intros H. unfold SetAutoMode. imublock. Qed.

Lemma MavLinkReceive_imu (inp : Inputs) (s : State) :
  Z.land PRIMARY_NODE_RESET_RTB PRIMARY_NODE_RESET_IMU_DISCONNECTED = 0 ->
  keepsImu s (MavLinkReceive inp s).
Proof.
  intros H. unfold MavLinkReceive. generalize (modeRequests inp) as l. intro l. revert s.
  induction l as [|x l IH]; intro s; [apply keepsImu_refl|].
  cbn [fold_left]. eapply keepsImu_trans; [apply SetAutoMode_imu; exact H|apply IH].
Qed.

Lemma checkReturnToBase_imu (s : State) :
  Z.land PRIMARY_NODE_RESET_RTB PRIMARY_NODE_RESET_IMU_DISCONNECTED = 0 ->
  keepsImu s (checkReturnToBase s).
Proof.
  intros H. pose proof (checkReturnToBase_writes s) as W. cbv zeta in W.
  destruct W as [[E|E] L]; unfold keepsImu; rewrite E, L; split; auto.
  now apply land_lor_apart.
Qed.

Lemma PrimaryNode100HzLoop_last (inp : Inputs) (s : State) :
  lastSensorAvailability (PrimaryNode100HzLoop inp s) = lastSensorAvailability s.
Proof.
  unfold PrimaryNode100HzLoop. cbv zeta.
  set (s1 := if nodeSystemTime s =? 0 then raise_error PRIMARY_NODE_RESET_STARTUP s
             else if nodeSystemTime s =? STARTUP_RESET_TIME
                  then clear_error PRIMARY_NODE_RESET_STARTUP s else s).
  assert (H1 : lastSensorAvailability s1 = lastSensorAvailability s).
  { subst s1. repeat match goal with |- context [if ?c then _ else _] => destruct c end;
      reflexivity. }
  clearbody s1. rewrite <- H1.
  pose proof (mux_frame inp (rCommand inp) (tCommand inp) false s1) as H2.
  cbv zeta in H2.
  set (s2 := PrimaryNodeMuxAndOutputControllerCommands inp (rCommand inp)
               (tCommand inp) false s1) in *.
  clearbody s2. destruct H2 as (_ & _ & H2 & _). rewrite <- H2.
  repeat match goal with |- context [if ?c then _ else _] => destruct c end;
    reflexivity.
Qed.

Lemma PrimaryNode100HzLoop_imu (inp : Inputs) (s : State) :
  Z.land PRIMARY_NODE_RESET_STARTUP PRIMARY_NODE_RESET_IMU_DISCONNECTED = 0 ->
  keepsImu s (PrimaryNode100HzLoop inp s).
Proof.
  intros H. unfold keepsImu. rewrite PrimaryNode100HzLoop_last.
  destruct (PrimaryNode100HzLoop_words inp s) as (_ & W & _). rewrite W.
  split; [|reflexivity].
  destruct (nodeSystemTime s =? 0); [now apply land_lor_apart|].
  destruct (nodeSystemTime s =? STARTUP_RESET_TIME); [now apply land_clear_apart|reflexivity].
Qed.

(** One pass that does not see the IMU. *)
Lemma unseen_imu_pass (inp : Inputs) (s : State) :
  imuFlagStandsAlone = true ->
  imuEnabled (lastSensorAvailability s) = false ->
  enabled (imu (sensorAvailability inp)) = false ->
  keepsImu s (mainLoopPass s inp).
Proof.
  intros H Hwas Hnow. unfold imuFlagStandsAlone in H.
  assert (F1 : Z.land PRIMARY_NODE_RESET_STARTUP PRIMARY_NODE_RESET_IMU_DISCONNECTED = 0)
    by apart.
  assert (F2 : Z.land PRIMARY_NODE_STATUS_GPS_INVALID PRIMARY_NODE_RESET_IMU_DISCONNECTED = 0)
    by apart.
  assert (F3 : Z.land PRIMARY_NODE_RESET_GPS_DISCONNECTED PRIMARY_NODE_RESET_IMU_DISCONNECTED = 0)
    by apart.
  assert (F4 : Z.land PRIMARY_NODE_RESET_ESTOP_OR_ACS300_DISCON
                 PRIMARY_NODE_RESET_IMU_DISCONNECTED = 0) by apart.
  assert (F5 : Z.land PRIMARY_NODE_RESET_RUDDER_DISCONNECTED
                 PRIMARY_NODE_RESET_IMU_DISCONNECTED = 0) by apart.
  assert (F6 : Z.land PRIMARY_NODE_RESET_DST800_DISCONNECTED
                 PRIMARY_NODE_RESET_IMU_DISCONNECTED = 0) by apart.
  assert (F7 : Z.land PRIMARY_NODE_RESET_MANUAL_OVERRIDE
                 PRIMARY_NODE_RESET_IMU_DISCONNECTED = 0) by apart.
  assert (F8 : Z.land PRIMARY_NODE_RESET_RUDDER_ERRORS
                 PRIMARY_NODE_RESET_IMU_DISCONNECTED = 0) by apart.
  assert (F9 : Z.land PRIMARY_NODE_RESET_CALIBRATING
                 PRIMARY_NODE_RESET_IMU_DISCONNECTED = 0) by apart.
  assert (F10 : Z.land PRIMARY_NODE_RESET_UNCALIBRATED
                  PRIMARY_NODE_RESET_IMU_DISCONNECTED = 0) by apart.
  assert (F11 : Z.land PRIMARY_NODE_RESET_GCS_DISCONNECTED
                  PRIMARY_NODE_RESET_IMU_DISCONNECTED = 0) by apart.
  assert (F12 : Z.land PRIMARY_NODE_RESET_RTB PRIMARY_NODE_RESET_IMU_DISCONNECTED = 0)
    by apart.
  clear H.
  set (s9 := s |> checkEcanErrors inp |> trackGpsEnabled inp |> trackGpsActive inp
               |> checkGpsDisconnected inp |> trackGpsActive inp
               |> trackPropEnabled inp |> trackRudderEnabled inp
               |> trackRcNodeEnabled inp |> trackDst800Enabled inp).
  assert (P : keepsImu s s9).
  { subst s9.
    repeat (eapply keepsImu_trans;
            [|first [ apply trackDst800Enabled_imu; assumption
                    | apply trackRcNodeEnabled_imu
                    | apply trackRudderEnabled_imu; assumption
                    | apply trackPropEnabled_imu; assumption
                    | apply trackGpsActive_imu; assumption
                    | apply checkGpsDisconnected_imu; assumption
                    | apply trackGpsEnabled_imu
                    | apply checkEcanErrors_imu ]]).
    apply keepsImu_refl. }
  assert (I9 : trackImuEnabled inp s9 = s9).
  { apply trackImuEnabled_unseen; [|exact Hnow]. destruct P as [_ ->]. exact Hwas. }
  assert (U : keepsImu s9 (updateFaults inp s)).
  { unfold updateFaults. fold s9. rewrite I9.
    repeat (eapply keepsImu_trans;
            [|first [ apply checkGcsDisconnected_imu; assumption
                    | apply trackCalibrated_imu; assumption
                    | apply trackCalibrating_imu; assumption
                    | apply trackRudderActive_imu; assumption
                    | apply trackRcNodeActive_imu; assumption ]]).
    apply keepsImu_refl. }
  pose proof (keepsImu_trans _ _ _ P U) as PU.
  unfold mainLoopPass.
  remember (updateFaults inp s) as s1 eqn:E1. clear E1 U P I9 s9.
  pose proof (MavLinkReceive_imu inp s1 F12) as M.
  remember (MavLinkReceive inp s1) as s2 eqn:E2. clear E2.
  pose proof (checkReturnToBase_imu s2 F12) as C.
  remember (checkReturnToBase s2) as s3 eqn:E3. clear E3.
  pose proof (keepsImu_trans _ _ _ (keepsImu_trans _ _ _ PU M) C) as K.
  destruct (timerElapsed inp); [|exact K].
  eapply keepsImu_trans; [exact K|]. now apply PrimaryNode100HzLoop_imu.
Qed.

(** X27.  A sensor that never shows up is never reported missing.  The IMU flag is
    raised only when the IMU goes from enabled to not enabled.  From a state
    that does not remember the IMU as enabled (the static starts zeroed)
    and has the flag clear, over any run of the main loop in which the IMU is
    never enabled, the IMU-disconnected flag stays clear, whatever else
    happens: the missing IMU alone never puts the node in an error state.
    (The IMU flag has its bits of the error word to itself.) *)
Theorem unseen_imu_never_flagged (inps : list Inputs) (s : State) :
  imuFlagStandsAlone = true ->
  imuEnabled (lastSensorAvailability s) = false ->
  Z.land (nodeErrors s) PRIMARY_NODE_RESET_IMU_DISCONNECTED = 0 ->
  Forall (fun inp => enabled (imu (sensorAvailability inp)) = false) inps ->
  Z.land (nodeErrors (mainLoop inps s)) PRIMARY_NODE_RESET_IMU_DISCONNECTED = 0
  /\ imuEnabled (lastSensorAvailability (mainLoop inps s)) = false.
Proof.
  intros Halone Hwas Hflag Hall. revert s Hwas Hflag.
  induction Hall as [|inp inps Hinp Hall IH]; intros s Hwas Hflag.
  - unfold mainLoop. cbn [fold_left]. auto.
  - unfold mainLoop. cbn [fold_left]. fold (mainLoop inps (mainLoopPass s inp)).
    destruct (unseen_imu_pass inp s Halone Hwas Hinp) as [K1 K2].
    apply IH; congruence.
Qed.

End WithHeader.

(** A pass on the sample header: the rudder reports calibrating, the ground
    station has been silent for 30 s. *)
Lemma level_flags_mirror_inputs_witness :
  let inp := mkInputs (mkEcanStatus false false false false)
               (sensorAvailability (healthyInputs 1000)) (mkRudderSensorData true true)
               3000 0 0 [] true 0 0 (-1) in
  let e := nodeErrors (@mainLoopPass sampleHeader idleState inp) in
  nonzero (Z.land e 256) = true
  /\ nonzero (Z.land e 512) = false
  /\ nonzero (Z.land e 1024) = true.
Proof.
  apply (@level_flags_mirror_inputs sampleHeader
           (mkInputs (mkEcanStatus false false false false)
              (sensorAvailability (healthyInputs 1000)) (mkRudderSensorData true true)
              3000 0 0 [] true 0 0 (-1)) idleState); reflexivity.
Defined.

(** Two passes from power-up on the sample header without an IMU. *)
Lemma unseen_imu_never_flagged_witness :
  let noImu := mkInputs (mkEcanStatus false false false false)
                 (mkSensorAvailability
                    (mkAvailability true true 0) (mkAvailability false false 0)
                    (mkAvailability true true 0) (mkAvailability true true 0)
                    (mkAvailability true true 0) (mkAvailability true false 0))
                 (mkRudderSensorData false true) 0 0 0 [] true 0 0 (-1) in
  let s := mkState 0 0 0 (mkLast false false false false false false false false false) 0
             (mkCommands 0 0 0 0) 0 [] in
  Z.land (nodeErrors (@mainLoop sampleHeader [noImu; noImu] s)) 32 = 0
  /\ imuEnabled (lastSensorAvailability (@mainLoop sampleHeader [noImu; noImu] s)) = false.
Proof.
  apply (@unseen_imu_never_flagged sampleHeader
           [mkInputs (mkEcanStatus false false false false)
              (mkSensorAvailability
                 (mkAvailability true true 0) (mkAvailability false false 0)
                 (mkAvailability true true 0) (mkAvailability true true 0)
                 (mkAvailability true true 0) (mkAvailability true false 0))
              (mkRudderSensorData false true) 0 0 0 [] true 0 0 (-1);
            mkInputs (mkEcanStatus false false false false)
              (mkSensorAvailability
                 (mkAvailability true true 0) (mkAvailability false false 0)
                 (mkAvailability true true 0) (mkAvailability true true 0)
                 (mkAvailability true true 0) (mkAvailability true false 0))
              (mkRudderSensorData false true) 0 0 0 [] true 0 0 (-1)]
           (mkState 0 0 0 (mkLast false false false false false false false false false) 0
              (mkCommands 0 0 0 0) 0 [])).
  - reflexivity.
  - reflexivity.
  - reflexivity.
  - repeat constructor.
Defined.

End PrimaryNodeFlagFacts.
